(* ===== verification/_CoqProject ===== *)
-Q . S2P
Prelude.v
GoFmt.v
GoTime.v
Float64.v
TimeFormat.v
Rfc3339.v
Uptime.v
SystemInfo.v
Echo.v
World.v
Handlers.v
Server.v
Startup.v
Concurrency.v
Json.v
Body.v
Indent.v
Logger.v
