(* ===== verification/Prelude.v ===== *)
(** * A verification development of the DevOps info service (src/app_go)

    The program ([src/app_go/main.go]) is a small HTTP service written
    with the Echo framework.  It keeps one piece of process state, the
    instant [startTime] captured when the process starts (main.go:14), and
    answers two GET routes:
    - [GET /] ([mainHandler], main.go:106-142) assembles a [ServiceInfo]
      value out of a constant [Service] descriptor, the [System] facts of
      [getSystemInfo] (main.go:94-104), a [Runtime] record built from
      [getUptime] (main.go:66-92) and the current UTC time, the [Request]
      facts of the inbound request, and the static list of two
      [Endpoint]s, and answers it as JSON with status 200;
    - [GET /health] ([healthHandler], main.go:144-153) answers a
      [HealthResponse] with status ["healthy"], the current UTC time and
      the uptime in seconds.
    [main] (main.go:155-177) wraps the router in Echo's [Logger] and
    [Recover] middleware, registers the two routes, reads [PORT] and
    [HOST] from the environment with the defaults ["8080"] and
    ["0.0.0.0"], prints a banner and hands ["host:port"] to
    [e.Logger.Fatal(e.Start(addr))].

    ** Layout of the library (in the order of [_CoqProject])

    - [Prelude] (this file): the state monad [M] of handlers with its
      notation in [go_scope], the [int64] range and wrap-around of Go's
      integers, string search and splitting, the range check
      [all_range] (a property of a finite interval of integers proved by
      evaluation), the hint databases [devops] and [devops_rw].
    - [GoFmt]: [fmt.Sprintf("%d")], i.e. [fmt.fmtInteger]'s digit loop
      [fmtDigits] with fuel, and its inverse [parseInt].
    - [GoTime]: [time.Time] (wall clock and monotonic reading),
      [Duration], [subMono], [Time.Sub], [time.Since], [Duration.Seconds]
      in binary64 (Corelib's [SpecFloat]), Go's [int(float64)], and the
      interface [Clock]/[ClockLaws] of the operating system's clock.
    - [Float64]: what the binary64 roundings of [Duration.Seconds]
      compute: SpecFloat's [binary_round_aux] characterized on integers
      (round to nearest, ties to even, of a quotient [A / B]), then
      [float64(n)], [x / y], [x + y] and Go's [int(f)] on the values
      [getUptime] meets.
    - [TimeFormat]: [Time.Format(time.RFC3339)] and [time.RFC3339Nano]
      for a UTC instant ([appendFormatRFC3339] with its [nanos] flag):
      the proleptic Gregorian calendar, Go's zero-padded [appendInt] and
      [appendNano].
    - [Rfc3339]: a reader of the RFC 3339 UTC date-time
      [YYYY-MM-DDTHH:MM:SSZ] that checks every field's range (Go's
      [isLeap] and [daysIn] for the days of a month).
    - [Uptime]: [getUptime] (main.go:66-92), one definition per step.
    - [SystemInfo]: the [System] struct, the interface [Host] of the
      operating system, [os.Hostname] on Linux, [getSystemInfo]
      (main.go:94-104).
    - [Echo]: the inbound request (method, path, raw query, headers,
      host, remote address, request URI), [Header.Get], Echo's [RealIP],
      [net.SplitHostPort], the client address of main.go:110-113, and
      net/url's [QueryUnescape] and [parseQuery] behind
      [c.QueryParams()], with [strings.Cut] and [strings.Split].
    - [World]: a concrete world implementing [Clock] (with its laws) and
      [Host]; the witnesses of the handlers' theorems run on it.
    - [Handlers]: the structs of main.go:16-64 (a module per struct, so
      that the shared field names are kept), [mainHandler] and
      [healthHandler] as computations of [M] over any world with a clock
      and a host, and the 500 answer of Echo's [Recover] middleware.
    - [Server]: the route table (main.go:161-162) and Echo's dispatch,
      the listen address (main.go:164-174), [boot] (the package variable
      [startTime] and [main]), [serve] and the reachable states of a
      server handling requests one after the other.
    - [Startup]: [main] itself: the Echo instance it builds ([echo.New],
      [e.Use], [e.GET]), and its effects ([os.Getenv], [fmt.Printf],
      [e.Start] as [net.Listen] then [Serve], [e.Logger.Fatal] as
      [os.Exit(1)]) as a tree [MainProg] run against an operating
      system [OS].
    - [Concurrency]: the handlers again, as programs [Prog] over their
      clock and host reads (a free monad), refined to [Handlers]' ones
      when run alone; net/http's goroutine per request as every
      interleaving of those reads and of arrivals ([cstep], [creach]),
      with the log of effects in order, and an executable scheduler
      [exec_all] for concrete interleavings; the machine is generic in
      the program each request runs.
    - [Json]: Go's [encoding/json] encoder as Echo's [c.JSON] runs it:
      [utf8.DecodeRuneInString], the string escaper [appendString] with
      HTML escapes and UTF-8 repair, values ([json]) in compact form and
      the newline of [Encoder.Encode]; a reader [Decode] of that form.
    - [Body]: the encodings of the structs under their [json] tags
      (main.go:16-64) and the bytes [body] each response sends.
    - [Indent]: encoding/json's [scanner] reduced to what its loops
      tell apart, [appendIndent] and [Compact] as loops over the bytes,
      the layout [pretty] of [MarshalIndent], and Echo's [c.JSON]: the
      body is indented by two spaces when the query has a [pretty] key;
      [response_body] is the body of any answer to a request, the empty
      one of an error answered to [HEAD] included.
    - [Logger]: Echo's [Logger] middleware over [Concurrency]'s effect
      programs: [time.Duration.String], the template of
      [DefaultLoggerConfig.Format] and its tag function, [LoggerP] and the
      chain [chainP] main.go builds, the Logger around the router.

    How the parts interact: [Server.serve] dispatches a request to a
    handler; both handlers call [Uptime.getUptime], which reads the
    clock through [GoTime.Since] and converts through
    [GoTime.whole_seconds]; [mainHandler] also reads the host through
    [SystemInfo.getSystemInfo] and the request through [Echo]; both
    stamp the answer with [TimeFormat.FormatRFC3339] of a later clock
    read; the value each handler hands to [c.JSON] is written by
    [Body.body] through [Json.Encode].  The only process state is
    [startTime], read-only after boot; the clock is the only thing the
    handlers share, and [Concurrency] shows that sharing it is all that
    concurrent handlers do to each other.  The request's query string
    reaches only [Indent.c_JSON], through [Echo.QueryParams].
    [Startup.main] builds the instance whose routes are [Server.routes]
    and serves on [Server.listen_addr]; every request then goes through
    [Logger.chainP]: the Logger reads the clock, runs [Server.serve]'s
    handler ([Concurrency.serveP]), reads the clock twice more and writes
    its line, whose [bytes_out] is the length of [Indent.response_body].

    ** What the theorems show

    - Handlers: both routes answer 200, with the exact bodies: status
      ["healthy"], the uptime of the first clock read and the timestamp
      of the second; the constant service descriptor, the host's facts,
      the request's facts and exactly the two endpoints; a failing
      hostname lookup still answers 200 with an empty hostname.
    - Uptime: [getUptime] never panics; hours and minutes are the base
      3600/60 digits of the seconds; the human string parses back to
      them, read by a parser of the spec's two shapes only (round trip:
      the hours phrase exactly for at least one hour, each word singular
      exactly for 1).
    - GoTime and Float64: [Time.Sub] of monotonic readings is their
      difference clamped to [int64]; [int(d.Seconds())] is [d / Second]
      plus [round_up d], which is 0 or 1 and monotone in the
      nanoseconds ([whole_seconds_round_up]); it is exactly the floor
      below 2^24 s ([whole_seconds_floor]), and for every whole second
      from 2^24 s on a remainder of 999999999 ns rounds up to the next
      second ([whole_seconds_rounds_up], a finding against the spec's
      floor).
    - Server: the route table answers [GET /], [GET /health], 405 and
      404; the listen address splits back into host and port for a plain
      host and is rejected for an IPv6 host (a finding); in every
      reachable state [GET /health] answers 200 with status
      ["healthy"], a timestamp that parses as RFC 3339 back to the
      instant's second (years 0 to 9999), and a non-negative
      [uptime_seconds]; a later [GET /health] never reports less,
      whatever requests are served in between (the state machine of
      [reachable] and [steps], by rule induction).
    - Concurrency: the invariants of [creach] (request numbers are
      distinct, each handler in flight is its program resumed with its
      own effects, each answer is what its program computes from its own
      effects, the log's clock readings are in order) give: two
      concurrent [GET /health] answers report uptimes in the order of
      their handlers' first clock reads; every handler performs at most
      three effects, so from every configuration all requests in flight
      are answered within four steps each (liveness).
    - Echo: the client address is never empty when there is a remote
      address, is the host part of [RemoteAddr] for a direct connection,
      and is whatever [X-Forwarded-For] a client sends (a finding).
    - Json and Body: every value the encoder writes reads back as
      itself with only its invalid UTF-8 replaced ([Decode_Encode], by
      induction on values through arrays and objects, on the string
      escaper's cases: copied ASCII, short and [\u] escapes, U+FFFD for
      an invalid byte, escaped U+2028/9, copied multi-byte sequences);
      the bytes of [GET /health] read back as
      [{"status":"healthy","timestamp":T,"uptime_seconds":S}] with the
      handler's values, and those of [GET /] as the five members of
      [ServiceInfo] in order.
    - Indent: [appendIndent] of the encoding of every value is its
      [pretty] layout (nested induction on values, the scanner's state
      followed through strings, escapes and brackets); [Compact] takes
      back exactly the white space [appendIndent] adds, on any input (a
      simulation of the two loops byte by byte); so whatever the query,
      every body compacts to the encoding and reads back as the value;
      with [?pretty] the health body is the two-space layout.  Every
      body is indented exactly when an item of [strings.Split(query,
      "&")] that [parseQuery] keeps has the key [pretty]: the loop of
      [parseQuery] with its fuel equals the map over the items.
    - Startup: [main] builds [Server.routes] behind Logger then Recover
      and serves on [Server.listen_addr]; it ends exactly when listening
      fails or [Serve] returns, always with exit status 1 (termination);
      an IPv6 literal [HOST] makes it exit 1 without serving.
    - Logger: the chain performs at most six effects (termination);
      the logged latency is a non-negative [int64]; the line is one
      JSON object with the thirteen members of the format when the
      request's strings need no escaping (a typing of the line, through
      [Json.Decode_Encode]), and is not JSON whenever the [User-Agent]
      holds a double quote followed by a byte other than [,] and [}] (a
      finding); both routes answer 200 with [application/json] and a
      body that compacts to the handler's value; in every interleaving
      of chains all requests in flight are answered within seven steps
      each.
    - Library lemmas: [parseInt (formatInt z) = Some z] and the shape
      of the numeral; [days_from_civil (civil_from_days z) = z] and the
      date is valid; [Rfc3339.parse (FormatRFC3339 t)] is the Unix
      second of [t].

    ** Bounds and fuel

    Go's [int] is 64-bit on the targets of the service; integers are
    [Z] with the [int64] range written out where the code can overflow
    ([subMono], [int(float64)]).  The digit loop of [fmtDigits] runs on
    fuel [S (log2 u)], at least the number of decimal digits of [u]
    ([formatUint_fuel_enough]).  The calendar round trip is checked by
    evaluation on one 400-year era (146097 days), with the validity of
    each date, and extended to every day by whole eras (a leap year
    stays one 400 years later).  [World]'s monotonic counter saturates at
    [int64_max], which a nanosecond counter started at boot reaches
    after 292 years.  The loop of [parseQuery] runs on fuel the length
    of the query plus one, enough since every iteration consumes a byte
    at least ([parse_query_fuel], [Echo.parse_query_Split]).  The JSON
    string escaper runs on fuel the length of the string (each step consumes at least one byte); the readers run
    on fuel the length of their input, which the round-trip lemmas show
    is enough ([unescape_escape], [encode_reads_back]).  The digit loop
    [for v > 0] of [Duration.String]'s [fmtInt] runs on the same fuel
    [S (log2 v)] as [fmtDigits], and more fuel changes nothing
    ([Logger.fmtInt_loop_enough]); [fmtFrac]'s loop runs [prec] times,
    as in Go.

    Float64's characterization holds for every duration in
    [[0, int64_max]]: then [sec < 2^34], so [float64(sec)] is exact and
    the ulp of the sum is at most [2^-19]; the quotient
    [float64(nsec)/1e9] is below one half unless [nsec >= 5e8], where its
    exponent is [-53].

    ** Not modelled, and the plan

    Not modelled: connection handling and HTTP parsing (net/http's
    I/O: the model starts from a parsed request); Echo's own start-up
    banner lines; the [Logger]'s colour codes on a terminal and local
    time zones other than UTC; the write of the log line as an effect
    (the line is part of the chain's result, written when it returns);
    [OPTIONS] answers of recent Echo versions (dispatched here as any
    other method), Unicode white space in [strings.TrimSpace], the
    percent-escapes of the request path (the model takes the path as
    [URL.Path] holds it), the response headers other than
    [Content-Type] ([Content-Length], [Date]), and the scanner's
    error on malformed JSON, which the encoder never writes.
    Echo's debug mode, which also indents, is off in [echo.New()].
    Next parts of the development: the status line and headers as
    bytes; the order of the access-log lines against their timestamps
    under concurrency.  main_test.go is not modelled: both tests call
    [setupEcho()], which main.go does not define, so the test package
    does not compile (a finding); what they would check is stated of
    the server [main] builds by [Server] and [Logger]. *)

From Stdlib Require Import ZArith String Ascii List Lia Bool.
Import ListNotations.

Declare Scope go_scope.
Delimit Scope go_scope with go.
Open Scope Z_scope.

(** ** The state monad of handlers *)

(** A computation reading and advancing a world of type [S]: the value
    comes first, as in the handler's Go return values. *)
Definition M (S A : Type) : Type := S -> A * S.

Definition ret {S A} (a : A) : M S A := fun s => (a, s).

Definition bind {S A B} (m : M S A) (k : A -> M S B) : M S B :=
  fun s => let (a, s') := m s in k a s'.

Definition gets {S A} (f : S -> A) : M S A := fun s => (f s, s).

Notation "x <- m ;; k" := (bind m (fun x => k))
  (at level 100, m at next level, right associativity) : go_scope.

Create HintDb devops discriminated.
Create Rewrite HintDb devops_rw.

Lemma bind_ret_l {S A B} (a : A) (k : A -> M S B) s :
  bind (ret a) k s = k a s.
Proof. reflexivity. Qed.

Lemma bind_assoc {S A B C} (m : M S A) (k : A -> M S B) (h : B -> M S C) s :
  bind (bind m k) h s = bind m (fun a => bind (k a) h) s.
Proof. unfold bind. destruct (m s). reflexivity. Qed.

#[export] Hint Rewrite @bind_ret_l @bind_assoc : devops_rw.

(** ** Go's 64-bit integers *)

Definition int64_min : Z := - 2 ^ 63.
Definition int64_max : Z := 2 ^ 63 - 1.

(** [x] is a value of Go's [int64] (and of [int] on 64-bit targets). *)
Definition in_int64 (x : Z) : bool := (int64_min <=? x) && (x <=? int64_max).

(** Two's-complement wrap-around of an exact result into [int64]. *)
Definition wrap64 (x : Z) : Z := (x + 2 ^ 63) mod 2 ^ 64 - 2 ^ 63.

Lemma in_int64_iff x : in_int64 x = true <-> int64_min <= x <= int64_max.
Proof. unfold in_int64. rewrite andb_true_iff, !Z.leb_le. tauto. Qed.

Lemma wrap64_id x : int64_min <= x <= int64_max -> wrap64 x = x.
Proof.
  unfold wrap64, int64_min, int64_max. intros H.
  rewrite Z.mod_small; lia.
Qed.

Lemma wrap64_range x : int64_min <= wrap64 x <= int64_max.
Proof.
  unfold wrap64, int64_min, int64_max.
  pose proof (Z.mod_pos_bound (x + 2 ^ 63) (2 ^ 64) ltac:(lia)). lia.
Qed.

Lemma wrap64_below x : int64_min - 2 ^ 64 <= x < int64_min -> wrap64 x = x + 2 ^ 64.
Proof.
  unfold wrap64, int64_min. intros H.
  replace ((x + 2 ^ 63) mod 2 ^ 64) with (x + 2 ^ 63 + 2 ^ 64); [lia|].
  apply Z.mod_unique with (-1); lia.
Qed.

Lemma wrap64_above x : int64_max < x <= int64_max + 2 ^ 64 -> wrap64 x = x - 2 ^ 64.
Proof.
  unfold wrap64, int64_max. intros H.
  replace ((x + 2 ^ 63) mod 2 ^ 64) with (x + 2 ^ 63 - 2 ^ 64); [lia|].
  apply Z.mod_unique with 1; lia.
Qed.

(** ** Bit fields as arithmetic *)

Lemma land_shiftl_low a b n : 0 <= n -> 0 <= b < 2 ^ n -> Z.land (Z.shiftl a n) b = 0.
Proof.
  intros Hn Hb. apply Z.bits_inj'. intros i Hi. rewrite Z.land_spec, Z.bits_0, Z.shiftl_spec by lia.
  destruct (Z.ltb_spec i n).
  - rewrite Z.testbit_neg_r by lia. reflexivity.
  - destruct (Z.eq_dec b 0) as [->|Hb0]; [rewrite Z.bits_0; apply andb_false_r|].
    rewrite (Z.bits_above_log2 b i); [apply andb_false_r|lia|].
    apply Z.log2_lt_pow2; [lia|].
    apply Z.lt_le_trans with (2 ^ n); [lia | apply Z.pow_le_mono_r; lia].
Qed.

(** Or-ing a field below a shifted value adds it. *)
Lemma lor_shiftl_add a b n : 0 <= n -> 0 <= b < 2 ^ n -> Z.lor (Z.shiftl a n) b = a * 2 ^ n + b.
Proof.
  intros Hn Hb. rewrite <- Z.lxor_lor by (apply land_shiftl_low; lia).
  rewrite <- Z.add_nocarry_lxor by (apply land_shiftl_low; lia).
  rewrite Z.shiftl_mul_pow2 by lia. reflexivity.
Qed.

(** The low [k] bits of [b] in [[lo, lo + 2^k)], [lo] a multiple of [2^k]. *)
Lemma land_field b k lo m :
  m = Z.ones k -> 0 <= k -> lo mod 2 ^ k = 0 -> lo <= b < lo + 2 ^ k -> Z.land b m = b - lo.
Proof.
  intros -> Hk Hlo Hb. rewrite Z.land_ones by exact Hk.
  pose proof (Z.pow_pos_nonneg 2 k ltac:(lia) Hk).
  rewrite (Z.div_mod lo (2 ^ k)) in Hb |- * by lia. rewrite Hlo in Hb |- *.
  rewrite Z.add_0_r in *. rewrite <- (Z.mod_unique b (2 ^ k) (lo / 2 ^ k) (b - 2 ^ k * (lo / 2 ^ k)));
    lia.
Qed.

(** ** Go's integer division on non-negative operands *)

(** Go's [/] and [%] truncate toward zero ([Z.quot], [Z.rem]); on
    non-negative operands they agree with floor division. *)
Lemma quot_nonneg a b : 0 <= a -> 0 < b -> Z.quot a b = a / b.
Proof. intros. apply Z.quot_div_nonneg; lia. Qed.

Lemma rem_nonneg a b : 0 <= a -> 0 < b -> Z.rem a b = a mod b.
Proof. intros. apply Z.rem_mod_nonneg; lia. Qed.

(** ** Strings *)

Local Open Scope string_scope.

Lemma string_app_assoc (a b c : string) : (a ++ b) ++ c = a ++ (b ++ c).
Proof. induction a as [|ch a IH]; simpl; [reflexivity | now rewrite IH]. Qed.

Lemma string_app_nil_r (a : string) : a ++ "" = a.
Proof. induction a as [|ch a IH]; simpl; [reflexivity | now rewrite IH]. Qed.

Lemma string_app_length (a b : string) :
  String.length (a ++ b) = (String.length a + String.length b)%nat.
Proof. induction a as [|ch a IH]; simpl; [reflexivity | now rewrite IH]. Qed.

#[export] Hint Rewrite string_app_assoc string_app_nil_r : devops_rw.

Lemma substring_app_l a b : substring 0 (String.length a) (a ++ b) = a.
Proof. induction a as [|x a IH]; simpl; [now destruct b | now rewrite IH]. Qed.

Lemma substring_full s : substring 0 (String.length s) s = s.
Proof. induction s as [|x s IH]; simpl; [reflexivity | now rewrite IH]. Qed.

Lemma substring_app_r a b :
  substring (String.length a) (String.length (a ++ b) - String.length a) (a ++ b) = b.
Proof.
  rewrite string_app_length. replace (String.length a + String.length b - String.length a)%nat
    with (String.length b) by lia.
  induction a as [|x a IH]; [apply substring_full | exact IH].
Qed.

Lemma substring_length n m s : (n + m <= String.length s)%nat -> String.length (substring n m s) = m.
Proof.
  revert n m. induction s as [|c s IH]; intros [|n] [|m] H; cbn in *; try lia; try reflexivity.
  - f_equal. apply IH. lia.
  - apply IH. lia.
  - apply IH. lia.
Qed.

Lemma substring_0_0 s : substring 0 0 s = EmptyString.
Proof. destruct s; reflexivity. Qed.

(** Characters as bytes: the ASCII code of a character. *)
Definition byte_of (c : ascii) : Z := Z.of_N (N_of_ascii c).

Definition ascii_of_Z (z : Z) : ascii := ascii_of_N (Z.to_N z).

Lemma byte_of_ascii_of_Z z : 0 <= z < 256 -> byte_of (ascii_of_Z z) = z.
Proof.
  intros H. unfold byte_of, ascii_of_Z. rewrite N_ascii_embedding by lia.
  lia.
Qed.

Lemma byte_of_range c : 0 <= byte_of c < 256.
Proof. unfold byte_of. pose proof (N_ascii_bounded c). lia. Qed.

Lemma ascii_of_Z_byte c : ascii_of_Z (byte_of c) = c.
Proof. unfold ascii_of_Z, byte_of. rewrite N2Z.id. apply ascii_N_embedding. Qed.

(** The tactic every component uses to run a computation of [M]. *)
Ltac go_run := cbv beta delta [bind ret gets] iota zeta.

(** ** Searching and splitting strings *)

(** [strings.ContainsRune]-style test for one character. *)
Fixpoint has_char (c : ascii) (s : string) : bool :=
  match s with
  | EmptyString => false
  | String x s' => Ascii.eqb x c || has_char c s'
  end.

(** The parts of [s] before and after the first occurrence of [c]. *)
Fixpoint split_first (c : ascii) (s : string) : option (string * string) :=
  match s with
  | EmptyString => None
  | String x s' =>
      if Ascii.eqb x c then Some (EmptyString, s')
      else option_map (fun p => (String x (fst p), snd p)) (split_first c s')
  end.

Lemma has_char_app c a b : has_char c (a ++ b) = has_char c a || has_char c b.
Proof. induction a as [|x a IH]; simpl; [reflexivity|]. rewrite IH, orb_assoc. reflexivity. Qed.

Lemma split_first_app c a b :
  has_char c a = false -> split_first c (a ++ String c b) = Some (a, b).
Proof.
  induction a as [|x a IH]; simpl; intros H.
  - rewrite Ascii.eqb_refl. reflexivity.
  - apply orb_false_iff in H as [Hx Ha]. rewrite Hx, IH by exact Ha. reflexivity.
Qed.

Lemma split_first_none c s : has_char c s = false -> split_first c s = None.
Proof.
  induction s as [|x s IH]; simpl; intros H; [reflexivity|].
  apply orb_false_iff in H as [Hx Hs]. rewrite Hx, IH by exact Hs. reflexivity.
Qed.

#[export] Hint Rewrite has_char_app : devops_rw.

(** ** Checking a property on a range of integers by evaluation *)

(** [f] holds on [lo], [lo + 1], ..., [lo + n - 1]. *)
Fixpoint all_range (f : Z -> bool) (lo : Z) (n : nat) : bool :=
  match n with
  | O => true
  | S k => if f lo then all_range f (lo + 1) k else false
  end.

Lemma all_range_spec f lo n :
  all_range f lo n = true -> forall z, lo <= z < lo + Z.of_nat n -> f z = true.
Proof.
  revert lo. induction n as [|n IH]; simpl; intros lo H z Hz; [lia|].
  destruct (f lo) eqn:E; [|discriminate].
  destruct (Z.eq_dec z lo) as [->|Hne]; [exact E|].
  apply (IH (lo + 1) H). lia.
Qed.
