(* ===== verification/GoFmt.v ===== *)
(** * GoFmt: Go's [%d] formatting of integers

    [getUptime] builds its phrases with [fmt.Sprintf("%d hour", hours)]
    and the like (main.go:75-83).  The verb [%d] on an [int] runs
    [fmt.fmtInteger] of Go's library (fmt/format.go): the magnitude is
    taken as a [uint64], its digits are written into a buffer from the
    right by the loop [for u >= 10 { next := u / 10; buf[i] = '0' + u -
    next*10; u = next }], the last digit follows, then a ['-'] for a
    negative argument.  [fmtDigits] is that loop, with the buffer as the
    accumulated suffix and fuel bounding its iterations.

    The theorems: enough fuel ([formatUint_fuel_enough]), the shape of
    the result (digits only, no leading zero, as many digits as the
    magnitude has) and the round trip through [parseInt]. *)

From Stdlib Require Import ZArith String Ascii List Lia Bool.
From S2P Require Import Prelude.
Import ListNotations.
Open Scope Z_scope.

Module GoFmt.

(** ['0' + d] for a digit value [d]. *)
Definition digit (d : Z) : ascii := ascii_of_Z (48 + d).

(** The decimal loop of [fmtInteger]: [acc] is the part of the buffer
    already written (to the right of the cursor). *)
Fixpoint fmtDigits (fuel : nat) (u : Z) (acc : string) : string :=
  match fuel with
  | O => acc
  | S f =>
      if 10 <=? u then
        let next := u / 10 in
        fmtDigits f next (String (digit (u - next * 10)) acc)
      else String (digit u) acc
  end.

(** Fuel: one iteration per binary digit of [u] is more than enough,
    since every iteration divides [u] by ten. *)
Definition digits_fuel (u : Z) : nat := S (Z.to_nat (Z.log2 u)).

Definition formatUint (u : Z) : string := fmtDigits (digits_fuel u) u EmptyString.

(** [fmt.Sprintf("%d", z)] for a Go integer [z]. *)
Definition formatInt (z : Z) : string :=
  if z <? 0 then ("-" ++ formatUint (- z))%string else formatUint z.

(** ** The inverse: reading a decimal numeral *)

Definition is_digit (c : ascii) : bool := (48 <=? byte_of c) && (byte_of c <=? 57).

(** Horner evaluation of the digits of [s] after the value [acc]. *)
Fixpoint digits_val (acc : Z) (s : string) : option Z :=
  match s with
  | EmptyString => Some acc
  | String c s' =>
      if is_digit c then digits_val (acc * 10 + (byte_of c - 48)) s' else None
  end.

Definition parseUint (s : string) : option Z :=
  match s with
  | EmptyString => None
  | _ => digits_val 0 s
  end.

Definition parseInt (s : string) : option Z :=
  match s with
  | String c rest =>
      if Ascii.eqb c "-"%char then option_map Z.opp (parseUint rest) else parseUint s
  | EmptyString => None
  end.

(** Every character of [s] is a decimal digit. *)
Fixpoint all_digits (s : string) : bool :=
  match s with
  | EmptyString => true
  | String c s' => is_digit c && all_digits s'
  end.

(** ** Lemmas on digits *)

Lemma digit_byte d : 0 <= d < 10 -> byte_of (digit d) = 48 + d.
Proof. intros H. unfold digit. apply byte_of_ascii_of_Z. lia. Qed.

Lemma is_digit_digit d : 0 <= d < 10 -> is_digit (digit d) = true.
Proof.
  intros H. unfold is_digit. rewrite digit_byte by exact H.
  apply andb_true_iff; split; apply Z.leb_le; lia.
Qed.

Lemma digits_val_digit a d s :
  0 <= d < 10 -> digits_val a (String (digit d) s) = digits_val (a * 10 + d) s.
Proof.
  intros H. simpl. rewrite is_digit_digit, digit_byte by exact H.
  f_equal. lia.
Qed.

Lemma pow10_pos k : 0 <= k -> 0 < 10 ^ k.
Proof. intros. apply Z.pow_pos_nonneg; lia. Qed.

#[export] Hint Resolve is_digit_digit pow10_pos : devops.

(** What one run of the digit loop establishes: [out] is [acc] preceded
    by [k] digits, [u] needs exactly [k] digits, and reading [out] after
    a prefix of value [a] gives [a * 10^k + u] followed by [acc]. *)
Definition writes (u : Z) (acc out : string) : Prop :=
  exists k, 1 <= k /\ u < 10 ^ k /\ (k = 1 \/ 10 ^ (k - 1) <= u) /\
    String.length out = (Z.to_nat k + String.length acc)%nat /\
    all_digits out = all_digits acc /\
    (forall a, digits_val a out = digits_val (a * 10 ^ k + u) acc) /\
    (exists rest, out = String (digit (u / 10 ^ (k - 1))) rest).

Lemma writes_one u acc : 0 <= u < 10 -> writes u acc (String (digit u) acc).
Proof.
  intros H. exists 1. split; [lia|]. split; [simpl; lia|].
  split; [left; reflexivity|]. split; [reflexivity|].
  split; [simpl; rewrite is_digit_digit by exact H; reflexivity|]. split.
  - intros a. rewrite digits_val_digit by exact H; reflexivity.
  - exists acc. change (10 ^ (1 - 1)) with 1. rewrite Z.div_1_r. reflexivity.
Qed.

Lemma writes_step u acc out :
  10 <= u ->
  writes (u / 10) (String (digit (u - u / 10 * 10)) acc) out -> writes u acc out.
Proof.
  intros Hge (k & Hk1 & Hlt & Hlow & Hlen & Hall & Hval & rest & Hhead).
  set (d := u - u / 10 * 10) in *.
  assert (Hd : 0 <= d < 10)
    by (subst d; pose proof (Z.mod_pos_bound u 10); rewrite Z.mod_eq in *; lia).
  assert (Hu_eq : u = u / 10 * 10 + d) by (subst d; lia).
  assert (Hp : 10 ^ (k + 1) = 10 ^ k * 10) by (rewrite Z.pow_add_r, Z.pow_1_r; lia).
  exists (k + 1). repeat split; try lia.
  - right. replace (k + 1 - 1) with k by lia.
    destruct Hlow as [-> | Hlow]; [simpl; lia|].
    replace (10 ^ k) with (10 ^ (k - 1) * 10) by (rewrite Z.mul_comm, <- Z.pow_succ_r by lia; f_equal; lia).
    lia.
  - rewrite Hlen. simpl. lia.
  - rewrite Hall. simpl. rewrite is_digit_digit by exact Hd. reflexivity.
  - intros a. rewrite Hval, digits_val_digit by exact Hd. f_equal. lia.
  - exists rest. rewrite Hhead. do 2 f_equal.
    replace (k + 1 - 1) with (1 + (k - 1)) by lia.
    rewrite Z.pow_add_r, Z.pow_1_r, Z.div_div by lia. reflexivity.
Qed.

(** The invariant of the digit loop, by induction on the fuel. *)
Lemma fmtDigits_spec f u acc :
  0 <= u < 10 ^ Z.of_nat (S f) -> writes u acc (fmtDigits (S f) u acc).
Proof.
  revert u acc. induction f as [|f IH]; intros u acc Hu; cbn [fmtDigits].
  - simpl in Hu. destruct (Z.leb_spec 10 u); [lia|]. apply writes_one. lia.
  - destruct (Z.leb_spec 10 u) as [Hge|Hlt]; [|apply writes_one; lia].
    apply writes_step; [exact Hge|]. apply IH. split; [apply Z.div_pos; lia|].
    apply Z.div_lt_upper_bound; [lia|].
    rewrite Nat2Z.inj_succ, Z.pow_succ_r in Hu by lia. lia.
Qed.

(** ** Properties of the formatter *)

(** C-level fuel lemma: the fuel [digits_fuel u] never runs out. *)
Lemma formatUint_fuel_enough u : 0 <= u -> u < 10 ^ Z.of_nat (digits_fuel u).
Proof.
  intros Hu. unfold digits_fuel. rewrite Nat2Z.inj_succ, Z2Nat.id by apply Z.log2_nonneg.
  apply Z.lt_le_trans with (2 ^ Z.succ (Z.log2 u)).
  - destruct (Z.eq_dec u 0) as [->|Hne]; [simpl; lia|].
    apply Z.log2_spec; lia.
  - apply Z.pow_le_mono_l. pose proof (Z.log2_nonneg u). lia.
Qed.

Lemma formatUint_spec u : 0 <= u -> writes u EmptyString (formatUint u).
Proof.
  intros Hu. unfold formatUint. pose proof (formatUint_fuel_enough u Hu) as Hf.
  destruct (digits_fuel u) as [|f] eqn:E; [unfold digits_fuel in E; discriminate|].
  apply fmtDigits_spec. lia.
Qed.

Lemma digit_not_minus d : 0 <= d < 10 -> Ascii.eqb (digit d) "-"%char = false.
Proof.
  intros H. apply Ascii.eqb_neq. intros E.
  apply (f_equal byte_of) in E. rewrite digit_byte in E by exact H.
  change (byte_of "-"%char) with 45 in E. lia.
Qed.

Lemma parseUint_formatUint u : 0 <= u -> parseUint (formatUint u) = Some u.
Proof.
  intros Hu. destruct (formatUint_spec u Hu) as (k & _ & _ & _ & _ & _ & Hval & rest & Hhead).
  unfold parseUint. rewrite Hhead, <- Hhead, Hval. reflexivity.
Qed.

(** round trip of the [%d] formatter: reading back the numeral Go
    prints for any integer gives that integer. *)
Theorem parseInt_formatInt z : parseInt (formatInt z) = Some z.
Proof.
  unfold formatInt. destruct (Z.ltb_spec z 0) as [Hneg|Hnn].
  - simpl. rewrite parseUint_formatUint by lia. simpl. f_equal. lia.
  - destruct (formatUint_spec z Hnn) as (k & Hk & Hlt & _ & _ & _ & _ & rest & Hhead).
    unfold parseInt. rewrite Hhead. rewrite digit_not_minus.
    + rewrite <- Hhead. apply parseUint_formatUint, Hnn.
    + split; [apply Z.div_pos; auto with devops zarith; lia|].
      apply Z.div_lt_upper_bound; [apply pow10_pos; lia|].
      replace (10 ^ (k - 1) * 10) with (10 ^ k)
        by (rewrite Z.mul_comm, <- Z.pow_succ_r by lia; f_equal; lia).
      exact Hlt.
Qed.

Lemma formatInt_inj z1 z2 : formatInt z1 = formatInt z2 -> z1 = z2.
Proof.
  intros E. apply (f_equal parseInt) in E. rewrite !parseInt_formatInt in E.
  congruence.
Qed.

(** [%d] on a non-negative integer prints only digits, with no
    leading zero: the numeral has [n] characters exactly when the value
    lies in [10^(n-1), 10^n) (or is 0 with [n = 1]). *)
Theorem formatUint_digits u :
  0 <= u ->
  all_digits (formatUint u) = true /\
  let n := Z.of_nat (String.length (formatUint u)) in
  1 <= n /\ u < 10 ^ n /\ (u = 0 /\ n = 1 \/ 10 ^ (n - 1) <= u).
Proof.
  intros Hu. destruct (formatUint_spec u Hu) as (k & Hk & Hlt & Hlow & Hlen & Hall & _ & _).
  cbn [String.length] in Hlen. rewrite Nat.add_0_r in Hlen.
  rewrite Hall, Hlen, Z2Nat.id by lia. split; [reflexivity|]. cbv zeta.
  repeat split; try lia.
  destruct Hlow as [-> | Hlow]; [|now right].
  destruct (Z.eq_dec u 0); [left; lia | right; simpl; lia].
Qed.

Lemma all_digits_no_char c s :
  all_digits s = true -> is_digit c = false -> has_char c s = false.
Proof.
  induction s as [|x s IH]; simpl; intros Hs Hc; [reflexivity|].
  apply andb_true_iff in Hs as [Hx Hs]. rewrite IH by assumption.
  destruct (Ascii.eqb_spec x c) as [->|]; [congruence | reflexivity].
Qed.

(** The numeral of [%d] contains no character other than digits and
    ['-']: separators such as [' '] and [','] never occur in it. *)
Lemma formatInt_no_char c z :
  is_digit c = false -> Ascii.eqb c "-"%char = false -> has_char c (formatInt z) = false.
Proof.
  intros Hd Hm. unfold formatInt. destruct (Z.ltb_spec z 0).
  - cbn [has_char append]. rewrite Ascii.eqb_sym, Hm. simpl.
    apply all_digits_no_char; [apply formatUint_digits; lia | exact Hd].
  - apply all_digits_no_char; [apply formatUint_digits; lia | exact Hd].
Qed.

Example formatInt_examples :
  formatInt 0 = "0"%string /\ formatInt 7325 = "7325"%string /\
  formatInt (-61) = "-61"%string /\
  formatInt int64_min = "-9223372036854775808"%string.
Proof. vm_compute. repeat split. Qed.

End GoFmt.
