(* ===== verification/GoTime.v ===== *)
(** * GoTime: the parts of Go's [time] package the service calls

    [getUptime] computes [time.Since(startTime)] and converts it with
    [int(delta.Seconds())] (main.go:67-68); both handlers also read
    [time.Now()] for their timestamps (main.go:126, 148).  This file
    models, after Go's library (time/time.go, time/format.go):
    - [Time] as its wall-clock reading (Unix nanoseconds) and its
      optional monotonic reading, as [time.Now()] returns it;
    - [Duration] as an [int64] count of nanoseconds, [subMono] (the
      saturating subtraction of monotonic readings), [Time.Sub] and
      [time.Since];
    - [Duration.Seconds] as the binary64 computation the library does,
      [float64(sec) + float64(nsec)/1e9], with Corelib's [SpecFloat]
      (round to nearest, ties to even, [prec = 53], [emax = 1024]), and
      Go's [int(f)] conversion (truncation toward zero; amd64 answers
      [int64_min] for NaN, infinities and out-of-range values);
    - the interface [Clock] of the operating system's clock, with its
      laws ([ClockLaws]): [now] returns a monotonic reading, never
      smaller than the previous one.  The handlers are proved against
      this interface; [SysWorld] (in [SystemInfo]) implements it. *)

From Stdlib Require Import ZArith List Lia Bool.
From Stdlib Require Import Floats.SpecFloat.
From S2P Require Import Prelude.
Import ListNotations.
Open Scope Z_scope.

Module GoTime.

(** ** Instants and durations *)

(** A [time.Time]: Unix nanoseconds of the wall clock, and the
    monotonic clock reading when the value came from [time.Now()]. *)
Record Time := mkTime { wall : Z; mono : option Z }.

(** [time.Duration] is an [int64] of nanoseconds. *)
Definition Duration := Z.
Definition Second : Duration := 1000000000.
Definition minDuration : Duration := int64_min.
Definition maxDuration : Duration := int64_max.

(** [subMono] of time.go: [d := Duration(t - u)] wraps around; a
    wrapped result of the wrong sign saturates. *)
Definition subMono (t u : Z) : Duration :=
  let d := wrap64 (t - u) in
  if (d <? 0) && (u <? t) then maxDuration
  else if (0 <? d) && (t <? u) then minDuration
  else d.

(** [Time.Sub]: monotonic readings when both instants have one; wall
    clock difference saturated to the [int64] range otherwise. *)
Definition Sub (t u : Time) : Duration :=
  match mono t, mono u with
  | Some mt, Some mu => subMono mt mu
  | _, _ =>
      let d := wall t - wall u in
      if in_int64 d then d else if d <? 0 then minDuration else maxDuration
  end.

(** ** [Duration.Seconds] in binary64 *)

Definition prec : Z := 53.
Definition emax : Z := 1024.
Definition float64 := spec_float.

(** [float64(n)] for an integer [n]: round to nearest even. *)
Definition float64_of_Z (n : Z) : float64 := binary_normalize prec emax n 0 false.

(** [sec := d / Second; nsec := d % Second;
     return float64(sec) + float64(nsec)/1e9]. *)
Definition Seconds (d : Duration) : float64 :=
  let sec := Z.quot d Second in
  let nsec := Z.rem d Second in
  SFadd prec emax (float64_of_Z sec)
    (SFdiv prec emax (float64_of_Z nsec) (float64_of_Z 1000000000)).

(** Go's [int(f)]: truncation toward zero; amd64's conversion answers
    the "integer indefinite" value [int64_min] when [f] is NaN, infinite
    or out of range. *)
Definition int_of_float64 (f : float64) : Z :=
  match f with
  | S754_zero _ => 0
  | S754_finite s m e =>
      let mag := if 0 <=? e then Z.pos m * 2 ^ e else Z.pos m / 2 ^ (- e) in
      let r := if s then - mag else mag in
      if in_int64 r then r else int64_min
  | S754_infinity _ | S754_nan => int64_min
  end.

(** [int(delta.Seconds())] of main.go:68. *)
Definition whole_seconds (d : Duration) : Z := int_of_float64 (Seconds d).

(** ** The clock interface *)

(** What the program needs of the operating system's clock, over a
    world of type [W]: [now] is [time.Now()] and [last] the monotonic
    reading it returned last. *)
Class Clock (W : Type) := {
  now : W -> Time * W;
  last : W -> Z
}.

Class ClockLaws (W : Type) `{Clock W} := {
  now_mono : forall w, mono (fst (now w)) = Some (last (snd (now w)));
  now_advances : forall w, last w <= last (snd (now w));
  now_int64 : forall w, in_int64 (last w) = true -> in_int64 (last (snd (now w))) = true
}.

(** [time.Now()] as a computation of the state monad. *)
Definition Now {W} `{Clock W} : M W Time := fun w => now w.

(** [time.Since(t)]: [Now().Sub(t)]. *)
Definition Since {W} `{Clock W} (t : Time) : M W Duration :=
  fun w => let (n, w') := now w in (Sub n t, w').

(** ** Lemmas *)

Lemma subMono_exact t u : in_int64 (t - u) = true -> subMono t u = t - u.
Proof.
  rewrite in_int64_iff. intros H. unfold subMono. rewrite wrap64_id by exact H.
  destruct (Z.ltb_spec (t - u) 0), (Z.ltb_spec u t), (Z.ltb_spec 0 (t - u)),
    (Z.ltb_spec t u); simpl; lia.
Qed.

(** [subMono] of two [int64] readings is their exact difference clamped
    to the [int64] range: the wrap-around of [t - u] is always detected
    and saturated. *)
Lemma subMono_clamp t u :
  in_int64 t = true -> in_int64 u = true ->
  subMono t u = Z.max int64_min (Z.min int64_max (t - u)).
Proof.
  rewrite !in_int64_iff. intros Ht Hu.
  destruct (in_int64 (t - u)) eqn:E.
  - rewrite subMono_exact by exact E. apply in_int64_iff in E. lia.
  - assert (Hout : t - u < int64_min \/ int64_max < t - u)
      by (rewrite <- Bool.not_true_iff_false, in_int64_iff in E; lia).
    unfold subMono, minDuration, maxDuration.
    destruct Hout as [Hlo | Hhi].
    + rewrite wrap64_below by (unfold int64_min, int64_max in *; lia).
      unfold int64_min, int64_max in *.
      destruct (Z.ltb_spec (t - u + 2 ^ 64) 0), (Z.ltb_spec u t),
        (Z.ltb_spec 0 (t - u + 2 ^ 64)), (Z.ltb_spec t u); simpl; lia.
    + rewrite wrap64_above by (unfold int64_min, int64_max in *; lia).
      unfold int64_min, int64_max in *.
      destruct (Z.ltb_spec (t - u - 2 ^ 64) 0), (Z.ltb_spec u t),
        (Z.ltb_spec 0 (t - u - 2 ^ 64)), (Z.ltb_spec t u); simpl; lia.
Qed.

Lemma subMono_nonneg t u :
  in_int64 t = true -> in_int64 u = true -> u <= t -> 0 <= subMono t u.
Proof.
  intros Ht Hu Hle. rewrite subMono_clamp by assumption.
  unfold int64_min, int64_max. lia.
Qed.

Lemma subMono_mono_l t1 t2 u :
  in_int64 t1 = true -> in_int64 t2 = true -> in_int64 u = true -> t1 <= t2 ->
  subMono t1 u <= subMono t2 u.
Proof. intros. rewrite !subMono_clamp by assumption. lia. Qed.

(** C31: [Time.Sub] of two instants that carry monotonic readings (as
    [time.Now()] gives them) is the difference of the readings, clamped
    to the [int64] range of [Duration]; the wall clock is not used, so
    setting the wall clock back never makes an uptime negative. *)
Theorem Sub_monotonic t u a b :
  mono t = Some a -> mono u = Some b -> in_int64 a = true -> in_int64 b = true ->
  Sub t u = Z.max int64_min (Z.min int64_max (a - b)).
Proof. intros Ht Hu Ha Hb. unfold Sub. rewrite Ht, Hu. apply subMono_clamp; assumption. Qed.

Example Sub_monotonic_witness :
  Sub (mkTime 5 (Some int64_max)) (mkTime 1000 (Some int64_min)) = int64_max /\
  Sub (mkTime 5 (Some 7)) (mkTime 1000 (Some 3)) = 4.
Proof.
  split.
  - rewrite (Sub_monotonic _ _ int64_max int64_min) by reflexivity. reflexivity.
  - rewrite (Sub_monotonic _ _ 7 3) by reflexivity. reflexivity.
Defined.

Section WithClock.
Context {W : Type} `{ClockLaws W}.

Lemma Since_eval t w :
  Since t w = (Sub (fst (now w)) t, snd (now w)).
Proof. unfold Since. destruct (now w). reflexivity. Qed.

(** [time.Since(start)] is non-negative when [start] is an earlier
    reading of the same clock, both readings within [int64]. *)
Lemma Since_nonneg start m w :
  mono start = Some m -> m <= last w -> in_int64 m = true -> in_int64 (last w) = true ->
  0 <= fst (Since start w).
Proof.
  intros Hm Hle Hi Hw. rewrite Since_eval. simpl. unfold Sub.
  rewrite now_mono, Hm. apply subMono_nonneg; auto using now_int64.
  pose proof (now_advances w). lia.
Qed.

End WithClock.

End GoTime.
