(* ===== verification/Float64.v ===== *)
(** * Float64: [int(d.Seconds())] for a non-negative duration

    [Duration.Seconds] (time/time.go) is [float64(sec) + float64(nsec)/1e9]
    with [sec = d / Second] and [nsec = d % Second]; [getUptime]
    truncates it with [int(...)] (main.go:68).  [GoTime] models the three
    roundings with Corelib's [SpecFloat] (binary64: [prec = 53],
    [emax = 1024]).  This file proves what they compute for every
    duration [0 <= d < 2^63]:

    - [float64_of_Z n] is exact for [0 <= n < 2^53];
    - [float64(nsec)/1e9] is within half an ulp of [nsec/1e9], and for
      [nsec >= 5e8] its mantissa is [rne (nsec * 2^53) 1e9] at exponent
      [-53];
    - the sum rounds at the ulp [2^(K-53)] of [sec] ([K] its number of
      bits), so that [int(d.Seconds())] is [sec], or [sec + 1] when the
      quotient rounds up to the next integer ([round_up]).

    The rounding of SpecFloat's [binary_round_aux] is characterized on
    integers: [shr_1] halves a mantissa and keeps the round and sticky
    bits of the remainder ([repr]); [round_nearest_even] then rounds
    the quotient [A / B] to nearest, ties to even ([rne]).  From the
    characterization: [int(d.Seconds())] is non-negative, never
    decreases when [d] grows, equals [d / Second] while [sec < 2^24]
    (about 194 days), and from there exceeds it by one for every [sec]
    when [nsec] is 999999999 ([whole_seconds_rounds_up]). *)

From Stdlib Require Import ZArith Lia Bool.
From Corelib Require Import SpecFloat.
From S2P Require Import Prelude GoTime.
Open Scope Z_scope.

Module Float64.
Import GoTime.

(** ** Rounding an integer quotient to nearest, ties to even *)

Definition rne (A B : Z) : Z :=
  let q := A / B in
  let r := A mod B in
  if 2 * r <? B then q
  else if B <? 2 * r then q + 1
  else if Z.even q then q else q + 1.

(** The round and sticky bits of [A mod B] as [shr_1] keeps them: the
    mantissa is [A / B], the round bit says that the remainder is at
    least half of [B], the sticky bit that it is neither zero nor half. *)
Definition repr (mrs : shr_record) (A B : Z) : Prop :=
  shr_m mrs = A / B /\
  shr_r mrs = (B <=? 2 * (A mod B)) /\
  shr_s mrs = negb (2 * (A mod B) =? B) && negb (A mod B =? 0).

(** The location SpecFloat's division reports for a remainder [r] of a
    division by [B]. *)
Definition loc_rel (r B : Z) : location :=
  if r =? 0 then loc_Exact else loc_Inexact (Z.compare (2 * r) B).

(** The binary64 number with the 53-bit mantissa [m] and exponent [e],
    a mantissa that rounded up to [2^53] being renormalized. *)
Definition fin53 (m e : Z) : float64 :=
  if m =? 2 ^ 53 then S754_finite false (Z.to_pos (2 ^ 52)) (e + 1)
  else S754_finite false (Z.to_pos m) e.

(** Whether [int(d.Seconds())] exceeds [d / Second]: the quotient
    [nsec/1e9], rounded to 53 bits, rounds in the sum to the next whole
    second, at the ulp [2^(K-53)] of [sec]. *)
Definition round_up (d : Z) : Z :=
  let sec := d / Second in
  let nsec := d mod Second in
  let K := Z.log2 sec + 1 in
  if (0 <? sec) && (500000000 <=? nsec) &&
     (rne (rne (nsec * 2 ^ 53) 1000000000) (2 ^ K) =? 2 ^ (53 - K))
  then 1 else 0.

(** ** Lemmas on [rne] *)

Lemma div_mod_bounds A B : 0 < B -> A = B * (A / B) + A mod B /\ 0 <= A mod B < B.
Proof. intros HB. split; [apply Z.div_mod; lia | apply Z.mod_pos_bound; lia]. Qed.

Ltac rne_cases :=
  repeat match goal with
  | |- context [if ?a <? ?b then _ else _] => destruct (Z.ltb_spec a b)
  | |- context [if Z.even ?q then _ else _] => destruct (Z.even q) eqn:?
  end.

(** [rne A B] is [A / B] or the next integer, within half of [B] of [A]. *)
Lemma rne_bounds A B : 0 < B ->
  A / B <= rne A B <= A / B + 1 /\ 2 * (A - B * rne A B) <= B /\ 2 * (B * rne A B - A) <= B.
Proof.
  intros HB. destruct (div_mod_bounds A B HB) as [HA Hr]. unfold rne.
  set (q := A / B) in *. set (r := A mod B) in *. rne_cases; nia.
Qed.

Lemma rne_exact c B : 0 < B -> rne (c * B) B = c.
Proof.
  intros HB. unfold rne. rewrite Z.mod_mul, Z.div_mul by lia.
  destruct (Z.ltb_spec (2 * 0) B); lia.
Qed.

(** A dividend [D] short of a multiple [y * P], with [2 * D < P],
    rounds to [y]. *)
Lemma rne_near_pow A y P D : 0 < P -> A = y * P - D -> 0 <= 2 * D < P -> rne A P = y.
Proof.
  intros HP HA HD. pose proof (rne_bounds A P HP) as [_ [U1 U2]].
  set (x := rne A P) in *. subst A.
  destruct (Z.lt_trichotomy x y) as [Hl | [He | Hg]]; [| exact He |]; exfalso.
  - assert (P * x <= P * y - P) by nia. lia.
  - assert (P * y + P <= P * x) by nia. lia.
Qed.

(** Rounding is monotone in the dividend. *)
Lemma rne_mono A1 A2 B : 0 < B -> A1 <= A2 -> rne A1 B <= rne A2 B.
Proof.
  intros HB Hle. pose proof (rne_bounds A1 B HB) as (H1 & _). pose proof (rne_bounds A2 B HB) as (H2 & _).
  assert (Hq : A1 / B <= A2 / B) by (apply Z.div_le_mono; lia).
  destruct (Z.eq_dec (A1 / B) (A2 / B)) as [Heq|Hne]; [|lia].
  destruct (div_mod_bounds A1 B HB) as [E1 R1]. destruct (div_mod_bounds A2 B HB) as [E2 R2].
  unfold rne. rewrite Heq in *. set (q := A2 / B) in *.
  assert (A1 mod B <= A2 mod B) by nia.
  rne_cases; lia.
Qed.

(** A whole even number of [B] passes through the rounding. *)
Lemma rne_shift c x B : 0 < B -> Z.even c = true -> rne (c * B + x) B = c + rne x B.
Proof.
  intros HB Hc. unfold rne.
  rewrite Z.add_comm, Z.mod_add, Z.div_add by lia. rewrite Z.even_add, Hc.
  rne_cases; destruct (Z.even (x / B)); cbn in *; try discriminate; lia.
Qed.

(** Rounding does not depend on the scale of the quotient. *)
Lemma rne_scale A B c : 0 < B -> 0 < c -> rne (A * c) (B * c) = rne A B.
Proof.
  intros HB Hc. unfold rne. rewrite Z.div_mul_cancel_r, Z.mul_mod_distr_r by lia.
  replace (2 * (A mod B * c)) with (2 * (A mod B) * c) by ring.
  destruct (Z.ltb_spec (2 * (A mod B) * c) (B * c)), (Z.ltb_spec (2 * (A mod B)) B); try nia;
  destruct (Z.ltb_spec (B * c) (2 * (A mod B) * c)), (Z.ltb_spec B (2 * (A mod B))); nia.
Qed.

(** ** The bits of a mantissa *)

Lemma digits2_pos_log2 p : Z.pos (digits2_pos p) = Z.log2 (Z.pos p) + 1.
Proof.
  induction p as [p IH|p IH|]; cbn [digits2_pos]; [| |reflexivity];
    rewrite Pos2Z.inj_succ, IH; [rewrite Pos2Z.inj_xI, Z.log2_succ_double | rewrite Pos2Z.inj_xO, Z.log2_double];
    lia.
Qed.

(** [Zdigits2 m] is the number of bits of a positive [m]. *)
Lemma Zdigits2_spec m D : 2 ^ (D - 1) <= m < 2 ^ D -> 1 <= D -> Zdigits2 m = D.
Proof.
  intros Hm HD. destruct m as [|p|p]; [lia| |lia].
  cbn [Zdigits2]. rewrite digits2_pos_log2.
  rewrite (Z.log2_unique (Z.pos p) (D - 1)); [lia | lia |].
  replace (Z.succ (D - 1)) with D by lia. exact Hm.
Qed.

Lemma Zdigits2_53 m : 2 ^ 52 <= m < 2 ^ 53 -> Zdigits2 m = 53.
Proof. intros H. apply Zdigits2_spec; [exact H | lia]. Qed.

Lemma iter_pos_nat {A} (f : A -> A) p x : iter_pos f p x = Nat.iter (Pos.to_nat p) f x.
Proof.
  revert x. induction p as [p IH|p IH|]; intros x; cbn [iter_pos].
  - rewrite !IH, Pos2Nat.inj_xI, <- Nat.iter_add. cbn [Nat.iter]. rewrite Nat.iter_succ_r.
    f_equal. lia.
  - rewrite !IH, Pos2Nat.inj_xO, <- Nat.iter_add. f_equal. lia.
  - reflexivity.
Qed.

(** ** Shifting a mantissa right *)

Lemma shr_1_eq m r s : 0 <= m ->
  shr_1 (Build_shr_record m r s) = Build_shr_record (m / 2) (Z.odd m) (r || s).
Proof.
  intros Hm. destruct m as [|[p|p|]|p]; try lia; cbn [shr_1]; try reflexivity.
  - rewrite <- Z.div2_div. reflexivity.
  - rewrite <- Z.div2_div. reflexivity.
Qed.

Lemma shr_1_repr mrs A B : 0 <= A -> 0 < B -> repr mrs A B -> repr (shr_1 mrs) A (2 * B).
Proof.
  intros HA HB. destruct mrs as [m r s]. unfold repr; cbn [shr_m shr_r shr_s].
  intros (-> & -> & ->). rewrite shr_1_eq by (apply Z.div_pos; lia). cbn [shr_m shr_r shr_s].
  destruct (div_mod_bounds A B HB) as [E R].
  set (q := A / B) in *. set (rho := A mod B) in *.
  assert (Hq : 0 <= q) by (apply Z.div_pos; lia).
  assert (Hdiv : A / (2 * B) = q / 2) by (subst q; rewrite Z.mul_comm, <- Z.div_div; lia).
  destruct (div_mod_bounds q 2 ltac:(lia)) as [Eq Rq].
  assert (Hmod : A mod (2 * B) = q mod 2 * B + rho).
  { symmetry. apply (Z.mod_unique A (2 * B) (q / 2)); [left; nia | nia]. }
  rewrite Hdiv, Hmod. split; [reflexivity|].
  rewrite Zodd_mod. destruct (Z.eq_dec (q mod 2) 1) as [H1|H0].
  - rewrite H1. cbn [Z.eqb]. split;
      repeat match goal with |- context [?a <=? ?b] => destruct (Z.leb_spec a b) end;
      repeat match goal with |- context [?a =? ?b] => destruct (Z.eqb_spec a b) end; cbn; lia.
  - replace (q mod 2) with 0 by lia. cbn [Z.eqb]. split;
      repeat match goal with |- context [?a <=? ?b] => destruct (Z.leb_spec a b) end;
      repeat match goal with |- context [?a =? ?b] => destruct (Z.eqb_spec a b) end; cbn; lia.
Qed.

Ltac bool_cases :=
  repeat match goal with
  | |- context [?a <=? ?b] => destruct (Z.leb_spec a b)
  | |- context [?a <? ?b] => destruct (Z.ltb_spec a b)
  | |- context [?a =? ?b] => destruct (Z.eqb_spec a b)
  | |- context [Z.compare ?a ?b] => destruct (Z.compare_spec a b)
  end.

Lemma iter_shr_1_repr k mrs A B : 0 <= A -> 0 < B -> repr mrs A B ->
  repr (Nat.iter k shr_1 mrs) A (B * 2 ^ Z.of_nat k).
Proof.
  intros HA HB Hr. induction k as [|k IH]; [rewrite Z.mul_1_r; exact Hr|].
  rewrite Nat.iter_succ, Nat2Z.inj_succ, Z.pow_succ_r by lia.
  replace (B * (2 * 2 ^ Z.of_nat k)) with (2 * (B * 2 ^ Z.of_nat k)) by ring.
  apply shr_1_repr; [exact HA | pose proof (Z.pow_pos_nonneg 2 (Z.of_nat k)); nia | exact IH].
Qed.

(** [shr mrs e n] divides by [2^n] and adds [n] to the exponent. *)
Lemma shr_repr mrs A B e n : 0 <= A -> 0 < B -> 0 <= n -> repr mrs A B ->
  repr (fst (shr mrs e n)) A (B * 2 ^ n) /\ snd (shr mrs e n) = e + n.
Proof.
  intros HA HB Hn Hr. destruct n as [|p|p]; [|cbn [shr fst snd] | lia].
  - cbn. rewrite Z.mul_1_r, Z.add_0_r. auto.
  - split; [|reflexivity]. rewrite iter_pos_nat.
    replace (Z.pos p) with (Z.of_nat (Pos.to_nat p)) by apply positive_nat_Z.
    apply iter_shr_1_repr; assumption.
Qed.

Lemma shr_record_of_loc_repr A B : 0 <= A -> 0 < B ->
  repr (shr_record_of_loc (A / B) (loc_rel (A mod B) B)) A B.
Proof.
  intros HA HB. destruct (div_mod_bounds A B HB) as [_ R]. unfold loc_rel, repr.
  destruct (Z.eqb_spec (A mod B) 0) as [E|E].
  - cbn [shr_record_of_loc shr_m shr_r shr_s]. rewrite E. bool_cases; cbn [andb negb]; lia.
  - destruct (Z.compare_spec (2 * (A mod B)) B); cbn [shr_record_of_loc shr_m shr_r shr_s];
      repeat split; bool_cases; cbn [andb negb]; lia.
Qed.

(** The rounding step of [binary_round_aux] rounds the quotient. *)
Lemma round_nearest_even_repr mrs A B : 0 < B -> repr mrs A B ->
  round_nearest_even (shr_m mrs) (loc_of_shr_record mrs) = rne A B.
Proof.
  intros HB. destruct mrs as [m r s]. unfold repr. cbn [shr_m shr_r shr_s].
  intros (-> & -> & ->). destruct (div_mod_bounds A B HB) as [_ R].
  unfold rne, loc_of_shr_record, round_nearest_even. bool_cases; cbn; try lia; reflexivity.
Qed.

(** ** The rounding of [binary_round_aux] *)

Lemma fexp_normal e : -1074 <= e - 53 -> fexp prec emax e = e - 53.
Proof. intros H. unfold fexp, emin, prec, emax. lia. Qed.

(** The first shift: a quotient of [D >= 53] bits keeps its 53 leading
    bits and the round and sticky bits of the rest. *)
Lemma shr_fexp_first A B ex D : 0 <= A -> 0 < B -> Zdigits2 (A / B) = D -> 53 <= D ->
  -1074 <= ex + D - 53 ->
  repr (fst (shr_fexp prec emax (A / B) ex (loc_rel (A mod B) B))) A (B * 2 ^ (D - 53)) /\
  snd (shr_fexp prec emax (A / B) ex (loc_rel (A mod B) B)) = ex + D - 53.
Proof.
  intros HA HB HD H53 Hmin. unfold shr_fexp. rewrite HD, fexp_normal by lia.
  replace (D + ex - 53 - ex) with (D - 53) by lia.
  destruct (shr_repr _ A B ex (D - 53) HA HB ltac:(lia) (shr_record_of_loc_repr A B HA HB)) as [Hr He].
  split; [exact Hr | rewrite He; lia].
Qed.

(** The second shift: a mantissa that rounded up to [2^53] loses one
    bit, exactly. *)
Lemma shr_fexp_second m e : 2 ^ 52 <= m <= 2 ^ 53 -> -1074 <= e ->
  shr_m (fst (shr_fexp prec emax m e loc_Exact)) = (if m =? 2 ^ 53 then 2 ^ 52 else m) /\
  snd (shr_fexp prec emax m e loc_Exact) = (if m =? 2 ^ 53 then e + 1 else e).
Proof.
  intros Hm He. unfold shr_fexp.
  assert (Hl : shr_record_of_loc m loc_Exact = shr_record_of_loc (m / 1) (loc_rel (m mod 1) 1))
    by (rewrite Z.div_1_r, Z.mod_1_r; reflexivity).
  destruct (Z.eqb_spec m (2 ^ 53)) as [E|E].
  - rewrite (Zdigits2_spec m 54) by (cbn; lia). rewrite fexp_normal by lia.
    replace (54 + e - 53 - e) with 1 by lia. rewrite Hl.
    destruct (shr_repr _ m 1 e 1 ltac:(lia) ltac:(lia) ltac:(lia) (shr_record_of_loc_repr m 1 ltac:(lia) ltac:(lia)))
      as [[-> _] ->].
    subst m. split; reflexivity.
  - rewrite (Zdigits2_spec m 53) by (cbn; lia). rewrite fexp_normal by lia.
    replace (53 + e - 53 - e) with 0 by lia. split; reflexivity.
Qed.

(** [binary_round_aux] rounds the quotient [A / B], given with the
    location of its remainder, to its 53 leading bits, ties to even. *)
Lemma binary_round_aux_spec A B ex D : 0 <= A -> 0 < B -> Zdigits2 (A / B) = D -> 53 <= D ->
  -1074 <= ex + D - 53 -> ex + D - 53 < 971 ->
  binary_round_aux prec emax false (A / B) ex (loc_rel (A mod B) B) = fin53 (rne A (B * 2 ^ (D - 53))) (ex + D - 53).
Proof.
  intros HA HB HD H53 Hmin Hmax.
  destruct (shr_fexp_first A B ex D HA HB HD H53 Hmin) as [Hr He].
  unfold binary_round_aux.
  destruct (shr_fexp prec emax (A / B) ex (loc_rel (A mod B) B)) as [mrs1 e1]. cbn [fst snd] in Hr, He. subst e1.
  assert (HB' : 0 < B * 2 ^ (D - 53)) by (pose proof (Z.pow_pos_nonneg 2 (D - 53)); nia).
  rewrite (round_nearest_even_repr _ _ _ HB' Hr).
  set (m1 := rne A (B * 2 ^ (D - 53))).
  assert (Hq : 2 ^ 52 <= A / (B * 2 ^ (D - 53)) < 2 ^ 53).
  { rewrite <- Z.div_div by lia. assert (0 <= A / B) by (apply Z.div_pos; lia).
    destruct (A / B) as [|p|p] eqn:Eq; cbn in HD; try lia.
    rewrite digits2_pos_log2 in HD. pose proof (Z.log2_spec (Z.pos p) ltac:(lia)) as [L1 L2].
    replace (Z.succ (Z.log2 (Z.pos p))) with D in L2 by lia. replace (Z.log2 (Z.pos p)) with (D - 1) in L1 by lia.
    split.
    - apply Z.div_le_lower_bound; [lia|]. rewrite <- Z.pow_add_r by lia. replace (D - 53 + 52) with (D - 1) by lia. lia.
    - apply Z.div_lt_upper_bound; [lia|]. rewrite <- Z.pow_add_r by lia. replace (D - 53 + 53) with D by lia. lia. }
  assert (Hm1 : 2 ^ 52 <= m1 <= 2 ^ 53) by (pose proof (rne_bounds A _ HB') as [? _]; lia).
  destruct (shr_fexp_second m1 (ex + D - 53) Hm1 Hmin) as [Hm He2].
  destruct (shr_fexp prec emax m1 (ex + D - 53) loc_Exact) as [mrs2 e2]. cbn [fst snd] in Hm, He2.
  rewrite Hm, He2. unfold fin53. destruct (Z.eqb_spec m1 (2 ^ 53)).
  - cbn. match goal with |- context [?a <=? ?b] => destruct (Z.leb_spec a b) end;
      [reflexivity | unfold emax, prec in *; lia].
  - destruct m1 as [|p|p]; try lia. cbn [Z.to_pos].
    match goal with |- context [?a <=? ?b] => destruct (Z.leb_spec a b) end;
      [reflexivity | unfold emax, prec in *; lia].
Qed.

(** An exact integer mantissa of [D >= 53] bits. *)
Lemma binary_round_aux_exact M ex D : 0 <= M -> Zdigits2 M = D -> 53 <= D ->
  -1074 <= ex + D - 53 -> ex + D - 53 < 971 ->
  binary_round_aux prec emax false M ex loc_Exact = fin53 (rne M (2 ^ (D - 53))) (ex + D - 53).
Proof.
  intros HM HD H53 Hmin Hmax.
  replace loc_Exact with (loc_rel (M mod 1) 1) by (rewrite Z.mod_1_r; reflexivity).
  rewrite <- (Z.div_1_r M) at 1. rewrite <- (Z.mul_1_l (2 ^ (D - 53))).
  apply binary_round_aux_spec; rewrite ?Z.div_1_r; lia || assumption.
Qed.

Lemma iter_xO p d : Z.pos (Pos.iter xO p d) = Z.pos p * 2 ^ Z.pos d.
Proof.
  induction d as [|d IH] using Pos.peano_ind; [cbn; lia|].
  rewrite Pos.iter_succ, Pos2Z.inj_xO, IH, Pos2Z.inj_succ, Z.pow_succ_r by lia. ring.
Qed.

(** [shl_align] shifts a mantissa left down to a smaller exponent. *)
Lemma shl_align_down mx ex ex' : ex' < ex ->
  Z.pos (fst (shl_align mx ex ex')) = Z.pos mx * 2 ^ (ex - ex') /\ snd (shl_align mx ex ex') = ex'.
Proof.
  intros H. unfold shl_align. destruct (ex' - ex) as [|d|d] eqn:E; try lia.
  cbn [fst snd]. rewrite iter_xO. replace (Z.pos d) with (ex - ex') by lia. auto.
Qed.

Lemma shl_align_up mx ex ex' : ex <= ex' -> shl_align mx ex ex' = (mx, ex).
Proof. intros H. unfold shl_align. destruct (ex' - ex) eqn:E; [reflexivity | reflexivity | lia]. Qed.

Lemma log2_bits n : 0 < n -> 2 ^ (Z.log2 n + 1 - 1) <= n < 2 ^ (Z.log2 n + 1).
Proof. intros H. replace (Z.log2 n + 1 - 1) with (Z.log2 n) by lia. apply Z.log2_spec, H. Qed.

(** ** [float64(n)] *)

(** [float64(n)] is exact for [0 < n < 2^53]: [n] shifted to a 53-bit
    mantissa, [K] being its number of bits. *)
Lemma float64_of_Z_spec n : 0 < n < 2 ^ 53 ->
  let K := Z.log2 n + 1 in
  float64_of_Z n = S754_finite false (Z.to_pos (n * 2 ^ (53 - K))) (K - 53).
Proof.
  intros Hn K. pose proof (log2_bits n (proj1 Hn)) as HK. fold K in HK.
  assert (HK53 : K <= 53) by (subst K; pose proof (Z.log2_lt_pow2 n 53); lia).
  assert (HK1 : 1 <= K) by (subst K; pose proof (Z.log2_nonneg n); lia).
  unfold float64_of_Z, binary_normalize. destruct n as [|p|p]; try lia.
  unfold binary_round. rewrite digits2_pos_log2, Z.add_0_r, fexp_normal by lia. fold K.
  assert (Hm : 2 ^ 52 <= Z.pos p * 2 ^ (53 - K) < 2 ^ 53).
  { assert (E1 : 2 ^ 52 = 2 ^ (K - 1) * 2 ^ (53 - K)) by (rewrite <- Z.pow_add_r by lia; f_equal; lia).
    assert (E2 : 2 ^ 53 = 2 ^ K * 2 ^ (53 - K)) by (rewrite <- Z.pow_add_r by lia; f_equal; lia).
    rewrite E1, E2. pose proof (Z.pow_pos_nonneg 2 (53 - K)). nia. }
  assert (Hfin : forall mz, Z.pos mz = Z.pos p * 2 ^ (53 - K) ->
    binary_round_aux prec emax false (Z.pos mz) (K - 53) loc_Exact
    = S754_finite false (Z.to_pos (Z.pos p * 2 ^ (53 - K))) (K - 53)).
  { intros mz E. rewrite (binary_round_aux_exact _ _ 53) by (rewrite ?E; try apply Zdigits2_53; lia).
    replace (53 - 53) with 0 by lia. rewrite Z.pow_0_r, E, <- (Z.mul_1_r (_ * _)), rne_exact by lia.
    unfold fin53. rewrite Z.mul_1_r. destruct (Z.eqb_spec (Z.pos p * 2 ^ (53 - K)) (2 ^ 53)); [lia|].
    f_equal. lia. }
  destruct (Z.eq_dec K 53) as [E|E].
  - rewrite E in *. rewrite shl_align_up by lia. apply Hfin. lia.
  - destruct (shl_align p 0 (K - 53)) as [mz ez] eqn:Es.
    destruct (shl_align_down p 0 (K - 53) ltac:(lia)) as [Hz He]. rewrite Es in Hz, He. cbn [fst snd] in Hz, He.
    subst ez. apply Hfin. rewrite Hz. do 2 f_equal. lia.
Qed.

(** ** [x / y] *)

Lemma new_location_spec B r : 0 < B -> 0 <= r < B -> new_location B r = loc_rel r B.
Proof.
  intros HB Hr. unfold new_location, new_location_even, new_location_odd, loc_rel.
  destruct (Z.even B) eqn:Ev; [reflexivity|].
  destruct (Z.eqb_spec r 0); [reflexivity|]. f_equal.
  assert (2 * r <> B) by (intros E; rewrite <- E, Z.even_mul in Ev; discriminate).
  destruct (Z.compare_spec (2 * r + 1) B), (Z.compare_spec (2 * r) B); lia || reflexivity.
Qed.

(** Division of two normalized finite numbers: the quotient of the
    mantissas, scaled to 53 or 54 bits, rounded. *)
Lemma SFdiv_spec mx my ex ey :
  2 ^ 52 <= Z.pos mx < 2 ^ 53 -> 2 ^ 52 <= Z.pos my < 2 ^ 53 ->
  -1074 <= ex - ey - 53 -> ex - ey - 52 < 971 ->
  let D := if Z.pos mx <? Z.pos my then 53 else 54 in
  SFdiv prec emax (S754_finite false mx ex) (S754_finite false my ey)
  = fin53 (rne (Z.pos mx * 2 ^ 53) (Z.pos my * 2 ^ (D - 53))) (ex - ey - 53 + D - 53).
Proof.
  intros Hx Hy Hmin Hmax D. unfold SFdiv, SFdiv_core_binary.
  rewrite !Zdigits2_53 by assumption.
  replace (53 + ex - (53 + ey)) with (ex - ey) by lia. rewrite fexp_normal by lia.
  replace (Z.min (ex - ey - 53) (ex - ey)) with (ex - ey - 53) by lia.
  replace (ex - ey - (ex - ey - 53)) with 53 by lia.
  cbv beta iota zeta. rewrite Z.shiftl_mul_pow2 by lia.
  set (A := Z.pos mx * 2 ^ 53).
  assert (Hq : Z.div_eucl A (Z.pos my) = (A / Z.pos my, A mod Z.pos my))
    by (unfold Z.div, Z.modulo; destruct (Z.div_eucl A (Z.pos my)); reflexivity).
  rewrite Hq. cbn [xorb]. rewrite new_location_spec by (lia || apply Z.mod_pos_bound; lia).
  assert (HD : Zdigits2 (A / Z.pos my) = D).
  { subst D A. destruct (Z.ltb_spec (Z.pos mx) (Z.pos my)); apply Zdigits2_spec; try lia; split.
    - apply Z.div_le_lower_bound; [lia|]. replace (53 - 1) with 52 by lia.
      replace (2 ^ 53) with (2 * 2 ^ 52) by reflexivity. nia.
    - apply Z.div_lt_upper_bound; [lia|]. nia.
    - apply Z.div_le_lower_bound; [lia|]. replace (54 - 1) with 53 by lia. nia.
    - apply Z.div_lt_upper_bound; [lia|]. replace (2 ^ 54) with (2 * 2 ^ 53) by reflexivity. nia. }
  apply binary_round_aux_spec;
    first [exact HD | lia | subst D; destruct (Z.pos mx <? Z.pos my); lia].
Qed.

(** ** [x + y] *)

Lemma Zdigits2_bounds M : 0 < M -> 2 ^ (Zdigits2 M - 1) <= M < 2 ^ Zdigits2 M.
Proof.
  intros HM. destruct M as [|p|p]; try lia. cbn [Zdigits2]. rewrite digits2_pos_log2.
  apply log2_bits. lia.
Qed.

(** Addition of two normalized positive numbers, the second with the
    smaller exponent: the sum of the aligned mantissas rounded to its 53
    leading bits. *)
Lemma SFadd_spec mx my ex ey :
  2 ^ 52 <= Z.pos mx < 2 ^ 53 -> 2 ^ 52 <= Z.pos my < 2 ^ 53 -> ey < ex ->
  -1074 <= ey -> ex + 1 < 971 ->
  let M := Z.pos mx * 2 ^ (ex - ey) + Z.pos my in
  let D := Zdigits2 M in
  SFadd prec emax (S754_finite false mx ex) (S754_finite false my ey)
  = fin53 (rne M (2 ^ (D - 53))) (ey + D - 53).
Proof.
  intros Hx Hy Hlt Hmin Hmax M D.
  assert (ED : D = Zdigits2 M) by reflexivity.
  assert (EM : M = Z.pos mx * 2 ^ (ex - ey) + Z.pos my) by reflexivity.
  clearbody M D. unfold SFadd.
  replace (Z.min ex ey) with ey by lia.
  destruct (shl_align mx ex ey) as [mz ez] eqn:Es.
  destruct (shl_align_down mx ex ey Hlt) as [Hz _]. rewrite Es in Hz. cbn [fst] in Hz |- *.
  rewrite shl_align_up by lia. cbn [fst cond_Zopp].
  replace (Z.pos mz + Z.pos my) with M by lia.
  assert (HMpos : 0 < M) by (subst M; pose proof (Z.pow_pos_nonneg 2 (ex - ey)); nia).
  pose proof (Zdigits2_bounds M HMpos) as HDb. rewrite <- ED in HDb.
  assert (HD : 54 <= D <= ex - ey + 54).
  { assert (2 ^ 53 <= M < 2 ^ (ex - ey + 54)).
    { subst M. assert (2 <= 2 ^ (ex - ey)) by (replace 2 with (2 ^ 1) at 1 by reflexivity; apply Z.pow_le_mono_r; lia).
      split; [nia|]. rewrite Z.pow_add_r by lia. replace (2 ^ 54) with (2 * 2 ^ 53) by reflexivity. nia. }
    split.
    - destruct (Z.le_gt_cases 54 D); [assumption|].
      assert (2 ^ D <= 2 ^ 53) by (apply Z.pow_le_mono_r; lia). lia.
    - destruct (Z.le_gt_cases D (ex - ey + 54)); [assumption|].
      assert (2 ^ (ex - ey + 54) <= 2 ^ (D - 1)) by (apply Z.pow_le_mono_r; lia). lia. }
  unfold binary_normalize. destruct M as [|P|P] eqn:EP; try lia.
  unfold binary_round. replace (Z.pos (digits2_pos P)) with D by (rewrite ED; reflexivity).
  rewrite fexp_normal by lia. rewrite shl_align_up by lia.
  apply binary_round_aux_exact; lia || (rewrite ED; reflexivity).
Qed.

(** ** [float64(nsec) / 1e9] *)

Lemma pow2_pos n : 0 <= n -> 0 < 2 ^ n.
Proof. intros. apply Z.pow_pos_nonneg; lia. Qed.

Lemma fin53_value m e : 2 ^ 52 <= m <= 2 ^ 53 ->
  exists mq eq, fin53 m e = S754_finite false mq eq /\ 2 ^ 52 <= Z.pos mq < 2 ^ 53 /\
    Z.pos mq * 2 ^ (eq - e) = m /\ e <= eq <= e + 1.
Proof.
  intros Hm. unfold fin53. destruct (Z.eqb_spec m (2 ^ 53)) as [E|E].
  - eexists _, _. split; [reflexivity|]. rewrite Z2Pos.id by reflexivity.
    replace (e + 1 - e) with 1 by lia. rewrite E. split; [split; reflexivity|]. split; [reflexivity | lia].
  - destruct m as [|p|p]; try lia. eexists _, _. split; [reflexivity|]. cbn [Z.to_pos].
    rewrite Z.sub_diag. lia.
Qed.

(** The quotient [float64(nsec)/1e9] of a non-zero [nsec]: a normalized
    number below one half when [nsec < 5e8], and otherwise the mantissa
    [rne (nsec * 2^53) 1e9] at exponent [-53]. *)
Lemma nsec_quotient nsec : 0 < nsec < 1000000000 ->
  exists mq eq, SFdiv prec emax (float64_of_Z nsec) (float64_of_Z 1000000000) = S754_finite false mq eq /\
    2 ^ 52 <= Z.pos mq < 2 ^ 53 /\ -82 <= eq <= -53 /\
    (nsec < 500000000 -> Z.pos mq <= 2 ^ (- eq - 1)) /\
    (500000000 <= nsec -> eq = -53 /\ Z.pos mq = rne (nsec * 2 ^ 53) 1000000000).
Proof.
  intros Hn. rewrite (float64_of_Z_spec nsec) by lia.
  replace (float64_of_Z 1000000000) with (S754_finite false (Z.to_pos (1000000000 * 2 ^ 23)) (-23))
    by (vm_compute; reflexivity).
  set (k := Z.log2 nsec + 1). pose proof (log2_bits nsec ltac:(lia)) as Hk. fold k in Hk.
  assert (Hk30 : 1 <= k <= 30).
  { subst k. pose proof (Z.log2_nonneg nsec). pose proof (Z.log2_lt_pow2 nsec 30 ltac:(lia)). lia. }
  assert (Hmx : 2 ^ 52 <= nsec * 2 ^ (53 - k) < 2 ^ 53).
  { assert (E1 : 2 ^ 52 = 2 ^ (k - 1) * 2 ^ (53 - k)) by (rewrite <- Z.pow_add_r by lia; f_equal; lia).
    assert (E2 : 2 ^ 53 = 2 ^ k * 2 ^ (53 - k)) by (rewrite <- Z.pow_add_r by lia; f_equal; lia).
    rewrite E1, E2. pose proof (pow2_pos (53 - k)). nia. }
  rewrite SFdiv_spec by (rewrite ?Z2Pos.id by lia; lia).
  rewrite !Z2Pos.id by lia.
  set (D := if nsec * 2 ^ (53 - k) <? 1000000000 * 2 ^ 23 then 53 else 54).
  assert (HD : D = 53 /\ nsec * 2 ^ (53 - k) < 1000000000 * 2 ^ 23 \/
               D = 54 /\ 1000000000 * 2 ^ 23 <= nsec * 2 ^ (53 - k))
    by (subst D; destruct (Z.ltb_spec (nsec * 2 ^ (53 - k)) (1000000000 * 2 ^ 23)); lia).
  set (m0 := rne (nsec * 2 ^ (53 - k) * 2 ^ 53) (1000000000 * 2 ^ 23 * 2 ^ (D - 53))).
  assert (Hq : 2 ^ 52 <= m0 <= 2 ^ 53).
  { subst m0. assert (HB : 0 < 1000000000 * 2 ^ 23 * 2 ^ (D - 53)) by (pose proof (pow2_pos (D - 53)); lia).
    pose proof (rne_bounds (nsec * 2 ^ (53 - k) * 2 ^ 53) _ HB) as [[L U] _].
    set (X := nsec * 2 ^ (53 - k)) in *. clearbody X.
    split.
    - eapply Z.le_trans; [|exact L]. apply Z.div_le_lower_bound; [lia|].
      destruct HD as [[-> ?]|[-> ?]]; cbn in *; lia.
    - enough (H : X * 2 ^ 53 / (1000000000 * 2 ^ 23 * 2 ^ (D - 53)) < 2 ^ 53) by lia.
      apply Z.div_lt_upper_bound; [lia|]. destruct HD as [[-> ?]|[-> ?]]; cbn in *; lia. }
  destruct (fin53_value m0 ((k - 53) - (-23) - 53 + D - 53) Hq) as (mq & eq & E & Hmq & Hv & He).
  exists mq, eq. split; [exact E|]. split; [exact Hmq|].
  replace ((k - 53) - (-23) - 53 + D - 53) with (k + D - 136) in * by lia.
  assert (Hcarry : eq = k + D - 136 + 1 -> m0 = 2 ^ 53).
  { intros ->. replace (k + D - 136 + 1 - (k + D - 136)) with 1 in Hv by lia. lia. }
  destruct (Z.lt_ge_cases nsec 500000000) as [Hs|Hb].
  - assert (Hk29 : k <= 29).
    { assert (Z.log2 nsec < 29) by (apply Z.log2_lt_pow2; cbn; lia). unfold k. lia. }
    assert (He0 : k + D - 136 <= -54).
    { destruct HD as [[-> HX]|[-> HX]]; [lia|].
      destruct (Z.eq_dec k 29) as [->|]; [|lia]. cbn in HX. lia. }
    split; [lia|]. split; [intros _|lia].
    destruct (Z.eq_dec eq (k + D - 136)) as [->|Hne].
    + rewrite Z.sub_diag, Z.mul_1_r in Hv. rewrite Hv.
      transitivity (2 ^ 53); [lia | apply Z.pow_le_mono_r; lia].
    + assert (eq = k + D - 136 + 1) as Eeq by lia. pose proof (Hcarry Eeq) as Hm0.
      rewrite Eeq in Hv |- *. replace (k + D - 136 + 1 - (k + D - 136)) with 1 in Hv by lia.
      assert (Z.pos mq = 2 ^ 52) by (cbn in Hv, Hm0 |- *; lia). rewrite H.
      apply Z.pow_le_mono_r; lia.
  - assert (Hk2930 : 29 <= k <= 30).
    { unfold k. split.
      - enough (28 <= Z.log2 nsec) by lia. apply Z.log2_le_pow2; cbn; lia.
      - enough (Z.log2 nsec < 30) by lia. apply Z.log2_lt_pow2; cbn; lia. }
    assert (Hm0 : m0 = rne (nsec * 2 ^ 53) 1000000000 /\ k + D - 136 = -53).
    { subst m0. destruct (Z.eq_dec k 30) as [->|Hk29].
      - destruct HD as [[-> _]|[-> HX]]; [|cbn in HX; lia].
        replace (nsec * 2 ^ (53 - 30) * 2 ^ 53) with (nsec * 2 ^ 53 * 2 ^ 23) by (cbn; ring).
        replace (1000000000 * 2 ^ 23 * 2 ^ (53 - 53)) with (1000000000 * 2 ^ 23) by (cbn; ring).
        rewrite rne_scale by (cbn; lia). split; [reflexivity | lia].
      - replace k with 29 in * by lia.
        destruct HD as [[-> HX]|[-> _]]; [cbn in HX; lia|].
        replace (nsec * 2 ^ (53 - 29) * 2 ^ 53) with (nsec * 2 ^ 53 * 2 ^ 24) by (cbn; ring).
        replace (1000000000 * 2 ^ 23 * 2 ^ (54 - 53)) with (1000000000 * 2 ^ 24) by (cbn; ring).
        rewrite rne_scale by (cbn; lia). split; [reflexivity | lia]. }
    destruct Hm0 as [Hm0 He0]. rewrite He0 in *.
    assert (Hlt : m0 < 2 ^ 53).
    { rewrite Hm0. pose proof (rne_bounds (nsec * 2 ^ 53) 1000000000 ltac:(lia)) as [_ [_ U]].
      change (2 ^ 53) with 9007199254740992 in *. lia. }
    assert (eq = -53) by (destruct (Z.eq_dec eq (-53)); [assumption | specialize (Hcarry ltac:(lia)); lia]).
    subst eq. rewrite Z.sub_diag, Z.mul_1_r in Hv. split; [lia|]. split; [lia|]. intros _.
    split; [reflexivity | lia].
Qed.

(** ** [int(float64(sec) + q)] *)

Lemma int_of_finite m e : e < 0 -> 0 <= Z.pos m / 2 ^ (- e) <= int64_max ->
  int_of_float64 (S754_finite false m e) = Z.pos m / 2 ^ (- e).
Proof.
  intros He Hr. unfold int_of_float64. destruct (Z.leb_spec 0 e); [lia|].
  rewrite (proj2 (in_int64_iff _)) by (unfold int64_min in *; lia). reflexivity.
Qed.

Lemma int_of_fin53 m e : 2 ^ 52 <= m <= 2 ^ 53 -> e <= -2 ->
  int_of_float64 (fin53 m e) = m / 2 ^ (- e).
Proof.
  intros Hm He. assert (Hq : 0 <= m / 2 ^ (- e) <= 2 ^ 53).
  { split; [apply Z.div_pos; [lia | apply pow2_pos; lia]|].
    apply Z.div_le_upper_bound; [apply pow2_pos; lia|].
    assert (1 <= 2 ^ (- e)) by (pose proof (pow2_pos (- e)); lia). nia. }
  unfold fin53. destruct (Z.eqb_spec m (2 ^ 53)) as [E|E].
  - assert (Hd : 2 ^ 53 / 2 ^ (- e) = 2 ^ 52 / 2 ^ (- (e + 1))).
    { replace (2 ^ 53) with (2 * 2 ^ 52) by reflexivity.
      replace (2 ^ (- e)) with (2 * 2 ^ (- (e + 1))) by (rewrite <- Z.pow_succ_r by lia; f_equal; lia).
      apply Z.div_mul_cancel_l; [pose proof (pow2_pos (- (e + 1))); lia | lia]. }
    subst m. rewrite Hd in Hq |- *. rewrite int_of_finite by (rewrite ?Z2Pos.id by reflexivity; unfold int64_max; lia).
    rewrite Z2Pos.id by reflexivity. reflexivity.
  - destruct m as [|p|p]; try lia. cbn [Z.to_pos]. apply int_of_finite; [lia|]. unfold int64_max. lia.
Qed.

(** [int(float64(sec) + q)] for [0 < sec < 2^34] and a normalized
    [0 < q < 1] of exponent at most [-53]: [sec], plus one when [q]
    rounds to a whole ulp [2^(K-53)] of [sec] times [2^(53-K)]. *)
Lemma int_of_sum sec mq eq : 0 < sec < 2 ^ 34 -> 2 ^ 52 <= Z.pos mq < 2 ^ 53 -> -1074 <= eq <= -53 ->
  let K := Z.log2 sec + 1 in
  int_of_float64 (SFadd prec emax (float64_of_Z sec) (S754_finite false mq eq))
  = sec + (if rne (Z.pos mq) (2 ^ (K - 53 - eq)) =? 2 ^ (53 - K) then 1 else 0).
Proof.
  intros Hs Hmq Heq K.
  assert (HK : 1 <= K <= 34).
  { unfold K. pose proof (Z.log2_nonneg sec). assert (Z.log2 sec < 34) by (apply Z.log2_lt_pow2; lia). lia. }
  pose proof (log2_bits sec ltac:(lia)) as Hb. fold K in Hb.
  rewrite float64_of_Z_spec by (split; [lia|]; apply Z.lt_trans with (2 ^ 34); [lia | reflexivity]). fold K.
  set (c := sec * 2 ^ (53 - K)). set (n := K - 53 - eq).
  assert (Hc : 2 ^ 52 <= c < 2 ^ 53).
  { assert (E1 : 2 ^ 52 = 2 ^ (K - 1) * 2 ^ (53 - K)) by (rewrite <- Z.pow_add_r by lia; f_equal; lia).
    assert (E2 : 2 ^ 53 = 2 ^ K * 2 ^ (53 - K)) by (rewrite <- Z.pow_add_r by lia; f_equal; lia).
    subst c. rewrite E1, E2. pose proof (pow2_pos (53 - K)). nia. }
  assert (Hn : 2 ^ (- eq) = 2 ^ (53 - K) * 2 ^ n) by (rewrite <- Z.pow_add_r by lia; f_equal; lia).
  assert (Hmq1 : Z.pos mq < 2 ^ (53 - K) * 2 ^ n).
  { rewrite <- Hn. apply Z.lt_le_trans with (2 ^ 53); [lia | apply Z.pow_le_mono_r; lia]. }
  rewrite SFadd_spec by (rewrite ?Z2Pos.id by lia; lia). rewrite Z2Pos.id by lia.
  replace (K - 53 - eq) with n by lia. fold n.
  assert (HD : Zdigits2 (c * 2 ^ n + Z.pos mq) = K - eq).
  { apply Zdigits2_spec; [|lia]. pose proof (pow2_pos n ltac:(lia)).
    assert (E1 : 2 ^ (K - eq - 1) = 2 ^ 52 * 2 ^ n) by (rewrite <- Z.pow_add_r by lia; f_equal; lia).
    assert (E2 : 2 ^ (K - eq) = 2 ^ K * 2 ^ (53 - K) * 2 ^ n)
      by (rewrite <- !Z.pow_add_r by lia; f_equal; lia).
    rewrite E1, E2. subst c. split; nia. }
  rewrite HD. replace (K - eq - 53) with n by lia. replace (eq + (K - eq) - 53) with (K - 53) by lia.
  assert (Hpn : 0 < 2 ^ n) by (apply pow2_pos; lia).
  assert (Hp : 0 < 2 ^ (53 - K)) by (apply pow2_pos; lia).
  rewrite rne_shift by (try lia; subst c; rewrite Z.even_mul, Z.even_pow by lia; apply orb_true_r).
  set (r := rne (Z.pos mq) (2 ^ n)).
  assert (Hr : 0 <= r <= 2 ^ (53 - K)).
  { subst r. split.
    - pose proof (rne_bounds (Z.pos mq) _ Hpn) as [[L _] _]. pose proof (Z.div_pos (Z.pos mq) (2 ^ n)). lia.
    - rewrite <- (rne_exact (2 ^ (53 - K)) (2 ^ n) Hpn). apply rne_mono; lia. }
  assert (Hc1 : c + 2 ^ (53 - K) <= 2 ^ 53).
  { assert (E2 : 2 ^ 53 = 2 ^ K * 2 ^ (53 - K)) by (rewrite <- Z.pow_add_r by lia; f_equal; lia).
    subst c. rewrite E2. nia. }
  rewrite int_of_fin53 by lia. replace (- (K - 53)) with (53 - K) by lia.
  subst c. rewrite Z.div_add_l by lia. f_equal.
  destruct (Z.eqb_spec r (2 ^ (53 - K))) as [->|Hne]; [apply Z.div_same; lia|].
  apply Z.div_small. lia.
Qed.

(** ** [int(d.Seconds())] *)

Lemma float64_of_Z_1e9 :
  float64_of_Z 1000000000 = S754_finite false (Z.to_pos (1000000000 * 2 ^ 23)) (-23).
Proof. vm_compute. reflexivity. Qed.

Lemma int_of_float64_of_Z n : 0 <= n < 2 ^ 34 -> int_of_float64 (float64_of_Z n) = n.
Proof.
  intros Hn. destruct (Z.eq_dec n 0) as [->|Hn0]; [reflexivity|].
  rewrite float64_of_Z_spec by (split; [lia|]; apply Z.lt_trans with (2 ^ 34); [lia | reflexivity]).
  set (K := Z.log2 n + 1).
  assert (HK : 1 <= K <= 34).
  { unfold K. pose proof (Z.log2_nonneg n). assert (Z.log2 n < 34) by (apply Z.log2_lt_pow2; lia). lia. }
  pose proof (pow2_pos (53 - K) ltac:(lia)).
  assert (Ep : Z.pos (Z.to_pos (n * 2 ^ (53 - K))) = n * 2 ^ (53 - K)) by (apply Z2Pos.id; nia).
  rewrite int_of_finite; rewrite ?Ep; replace (- (K - 53)) with (53 - K) by lia;
    rewrite ?Z.div_mul by lia; try lia; unfold int64_max; lia.
Qed.

(** The characterization of [int(d.Seconds())] for a non-negative
    [int64] duration. *)
Lemma whole_seconds_round_up d : 0 <= d <= int64_max -> whole_seconds d = d / Second + round_up d.
Proof.
  intros Hd. unfold whole_seconds, Seconds, round_up.
  rewrite quot_nonneg, rem_nonneg by (unfold Second; lia).
  set (sec := d / Second). set (nsec := d mod Second).
  assert (Hsec : 0 <= sec < 2 ^ 34).
  { subst sec. unfold Second, int64_max in *. split; [apply Z.div_pos; lia|].
    apply Z.div_lt_upper_bound; [lia|]. cbn. lia. }
  assert (Hnsec : 0 <= nsec < 1000000000) by (subst nsec; unfold Second; apply Z.mod_pos_bound; lia).
  clearbody sec nsec. unfold Second.
  destruct (Z.eq_dec nsec 0) as [->|Hn0].
  - replace (float64_of_Z 0) with (S754_zero false) by reflexivity. rewrite float64_of_Z_1e9.
    cbn [SFdiv xorb]. destruct (Z.eq_dec sec 0) as [->|Hs0]; [reflexivity|].
    assert (Hadd : SFadd prec emax (float64_of_Z sec) (S754_zero false) = float64_of_Z sec)
      by (rewrite float64_of_Z_spec by (split; [lia|]; apply Z.lt_trans with (2 ^ 34); [lia | reflexivity]);
          reflexivity).
    rewrite Hadd, int_of_float64_of_Z by lia.
    destruct (Z.leb_spec 500000000 0); [lia|]. rewrite andb_false_r. cbn [andb]. lia.
  - destruct (nsec_quotient nsec ltac:(lia)) as (mq & eq & -> & Hmq & Heq & Hsmall & Hbig).
    destruct (Z.eq_dec sec 0) as [->|Hs0].
    + replace (float64_of_Z 0) with (S754_zero false) by reflexivity. cbn [SFadd].
      rewrite int_of_finite; [| lia |].
      * rewrite Z.div_small; [reflexivity|]. split; [lia|].
        apply Z.lt_le_trans with (2 ^ 53); [lia | apply Z.pow_le_mono_r; lia].
      * rewrite Z.div_small; [unfold int64_max; lia|]. split; [lia|].
        apply Z.lt_le_trans with (2 ^ 53); [lia | apply Z.pow_le_mono_r; lia].
    + rewrite int_of_sum by lia. f_equal.
      destruct (Z.ltb_spec 0 sec); [|lia]. destruct (Z.leb_spec 500000000 nsec) as [Hb|Hs].
      * destruct (Hbig Hb) as [-> ->]. cbn [andb]. replace (Z.log2 sec + 1 - 53 - -53) with (Z.log2 sec + 1) by lia.
        reflexivity.
      * cbn [andb]. set (K := Z.log2 sec + 1).
        assert (HK : 1 <= K <= 34).
        { unfold K. pose proof (Z.log2_nonneg sec). assert (Z.log2 sec < 34) by (apply Z.log2_lt_pow2; lia). lia. }
        assert (Hpn : 0 < 2 ^ (K - 53 - eq)) by (apply pow2_pos; lia).
        assert (Hle : rne (Z.pos mq) (2 ^ (K - 53 - eq)) <= 2 ^ (52 - K)).
        { rewrite <- (rne_exact (2 ^ (52 - K)) _ Hpn). apply rne_mono; [lia|].
          rewrite <- Z.pow_add_r by lia. replace (52 - K + (K - 53 - eq)) with (- eq - 1) by lia. apply Hsmall; lia. }
        assert (2 ^ (52 - K) < 2 ^ (53 - K)) by (apply Z.pow_lt_mono_r; lia).
        destruct (Z.eqb_spec (rne (Z.pos mq) (2 ^ (K - 53 - eq))) (2 ^ (53 - K))); [lia | reflexivity].
Qed.

Lemma round_up_01 d : 0 <= round_up d <= 1.
Proof. unfold round_up. destruct (_ && _ && _); lia. Qed.

(** The quotient's mantissa stays below [2^53], hence below a whole
    ulp of [sec] once rounded. *)
Lemma rne_quotient_le nsec K : 0 <= nsec < 1000000000 -> 0 <= K <= 53 ->
  rne (rne (nsec * 2 ^ 53) 1000000000) (2 ^ K) <= 2 ^ (53 - K).
Proof.
  intros Hn HK. pose proof (pow2_pos K ltac:(lia)) as HpK.
  rewrite <- (rne_exact (2 ^ (53 - K)) (2 ^ K) HpK). apply rne_mono; [lia|].
  rewrite <- Z.pow_add_r by lia. replace (53 - K + K) with 53 by lia.
  pose proof (rne_bounds (nsec * 2 ^ 53) 1000000000 ltac:(lia)) as [_ [_ U]].
  change (2 ^ 53) with 9007199254740992 in *. lia.
Qed.

Lemma sec_bound d : 0 <= d <= int64_max -> 0 <= d / Second < 2 ^ 34.
Proof.
  intros Hd. unfold Second, int64_max in *. split; [apply Z.div_pos; lia|].
  apply Z.div_lt_upper_bound; [lia|]. cbn. lia.
Qed.

Lemma sec_bits sec : 0 < sec < 2 ^ 34 -> 1 <= Z.log2 sec + 1 <= 34.
Proof.
  intros Hs. pose proof (Z.log2_nonneg sec). assert (Z.log2 sec < 34) by (apply Z.log2_lt_pow2; lia). lia.
Qed.

(** For a fixed number of seconds, rounding up is monotone in the
    nanoseconds. *)
Lemma round_up_mono d1 d2 : 0 <= d1 <= d2 -> d2 <= int64_max -> d1 / Second = d2 / Second ->
  round_up d1 <= round_up d2.
Proof.
  intros Hd Hmax Hs. pose proof (sec_bound d2 ltac:(lia)) as Hsec. unfold round_up. rewrite Hs.
  set (sec := d2 / Second) in *.
  assert (Hn : d1 mod Second <= d2 mod Second).
  { pose proof (Z.div_mod d1 Second ltac:(unfold Second; lia)).
    pose proof (Z.div_mod d2 Second ltac:(unfold Second; lia)). unfold Second in *. lia. }
  assert (R1 : 0 <= d1 mod Second < 1000000000) by (apply Z.mod_pos_bound; unfold Second; lia).
  assert (R2 : 0 <= d2 mod Second < 1000000000) by (apply Z.mod_pos_bound; unfold Second; lia).
  destruct (Z.ltb_spec 0 sec); cbn [andb]; [|lia].
  destruct (Z.leb_spec 500000000 (d1 mod Second)); cbn [andb]; [|destruct (_ && _); lia].
  destruct (Z.leb_spec 500000000 (d2 mod Second)); cbn [andb]; [|lia].
  pose proof (sec_bits sec ltac:(lia)) as HK. set (K := Z.log2 sec + 1) in *.
  pose proof (pow2_pos K ltac:(lia)) as HpK.
  assert (Hm : rne (rne (d1 mod Second * 2 ^ 53) 1000000000) (2 ^ K)
               <= rne (rne (d2 mod Second * 2 ^ 53) 1000000000) (2 ^ K))
    by (apply rne_mono; [lia|]; apply rne_mono; [lia|]; apply Z.mul_le_mono_nonneg_r; [lia | exact Hn]).
  pose proof (rne_quotient_le (d2 mod Second) K R2 ltac:(lia)).
  do 2 match goal with |- context [?a =? ?b] => destruct (Z.eqb_spec a b) end; lia.
Qed.

(** [int(d.Seconds())] is [d / Second] or one more. *)
Lemma whole_seconds_range d : 0 <= d <= int64_max ->
  d / Second <= whole_seconds d <= d / Second + 1.
Proof. intros Hd. rewrite whole_seconds_round_up by exact Hd. pose proof (round_up_01 d). lia. Qed.

(** [int(d.Seconds())] never decreases when the duration grows. *)
Lemma whole_seconds_le d1 d2 : 0 <= d1 <= d2 -> d2 <= int64_max -> whole_seconds d1 <= whole_seconds d2.
Proof.
  intros Hd Hmax. rewrite !whole_seconds_round_up by lia.
  assert (Hq : d1 / Second <= d2 / Second) by (apply Z.div_le_mono; unfold Second; lia).
  pose proof (round_up_01 d1). pose proof (round_up_01 d2).
  destruct (Z.eq_dec (d1 / Second) (d2 / Second)) as [E|E].
  - rewrite E. pose proof (round_up_mono d1 d2 Hd Hmax E). lia.
  - lia.
Qed.

(** C20: the spec's [uptime_seconds(d) == floor(d)] holds for every
    uptime below [2^24] seconds (about 194 days): there
    [int(d.Seconds())] is exactly [d / Second]. *)
Theorem whole_seconds_floor d : 0 <= d < 2 ^ 24 * Second -> whole_seconds d = d / Second.
Proof.
  intros Hd. rewrite whole_seconds_round_up by (unfold Second, int64_max in *; cbn in *; lia).
  enough (round_up d = 0) by lia. unfold round_up.
  set (sec := d / Second). set (nsec := d mod Second).
  assert (Hsec : sec < 2 ^ 24) by (subst sec; apply Z.div_lt_upper_bound; unfold Second in *; lia).
  destruct (Z.ltb_spec 0 sec); cbn [andb]; [|reflexivity].
  destruct (Z.leb_spec 500000000 nsec); cbn [andb]; [|reflexivity].
  assert (HK : 1 <= Z.log2 sec + 1 <= 24).
  { pose proof (Z.log2_nonneg sec). assert (Z.log2 sec < 24) by (apply Z.log2_lt_pow2; lia). lia. }
  set (K := Z.log2 sec + 1) in *.
  assert (Hn : 0 <= nsec < 1000000000) by (subst nsec; apply Z.mod_pos_bound; unfold Second; lia).
  pose proof (rne_bounds (nsec * 2 ^ 53) 1000000000 ltac:(lia)) as [_ [_ Uq]].
  set (qm := rne (nsec * 2 ^ 53) 1000000000) in *.
  pose proof (pow2_pos K ltac:(lia)) as HpK.
  pose proof (rne_bounds qm (2 ^ K) HpK) as [_ [_ Ur]].
  assert (HK2 : 2 * 2 ^ K <= 2 ^ 25) by (rewrite <- Z.pow_succ_r by lia; apply Z.pow_le_mono_r; lia).
  assert (E : 2 ^ 53 = 2 ^ (53 - K) * 2 ^ K) by (rewrite <- Z.pow_add_r by lia; f_equal; lia).
  destruct (Z.eqb_spec (rne qm (2 ^ K)) (2 ^ (53 - K))) as [Eq|]; [|reflexivity].
  rewrite Eq in Ur. rewrite E in Uq. change (2 ^ 25) with 33554432 in HK2. nia.
Qed.

Example whole_seconds_floor_witness :
  0 <= 7325999999999 < 2 ^ 24 * Second /\ whole_seconds 7325999999999 = 7325999999999 / Second.
Proof. split; [unfold Second; lia | apply whole_seconds_floor; unfold Second; lia]. Defined.

(** C22: from [2^24] seconds on (about 194 days) the spec's
    [uptime_seconds(d) == floor(d)] fails: for every whole number of
    seconds [sec >= 2^24] (up to the [int64] limit) the duration of
    [sec] seconds and 999999999 ns, the last nanosecond before the next
    second, gives [int(d.Seconds()) = sec + 1].  The quotient
    [nsec/1e9] rounds to [2^53 - 9007199] units of [2^-53], and the sum
    rounds at the ulp [2^(K-53)] of [sec], [K >= 25], more than twice
    that deficit away: up to the next whole second. *)
Theorem whole_seconds_rounds_up sec :
  2 ^ 24 <= sec -> sec * Second + (Second - 1) <= int64_max ->
  whole_seconds (sec * Second + (Second - 1)) = sec + 1.
Proof.
  intros Hlo Hhi.
  rewrite whole_seconds_round_up by (unfold Second in *; lia).
  assert (Hd : (sec * Second + (Second - 1)) / Second = sec) by (unfold Second; rewrite Z.div_add_l, (Z.div_small (1000000000 - 1)) by lia; lia).
  assert (Hm : (sec * Second + (Second - 1)) mod Second = Second - 1)
    by (unfold Second; rewrite Z.add_comm, Z.mod_add, Z.mod_small by lia; reflexivity).
  rewrite Hd. f_equal. unfold round_up. rewrite Hd, Hm.
  assert (Hsec : sec < 2 ^ 34) by (unfold Second, int64_max in *; lia).
  assert (HK : 25 <= Z.log2 sec + 1 <= 34).
  { assert (24 <= Z.log2 sec) by (apply Z.log2_le_pow2; lia).
    assert (Z.log2 sec < 34) by (apply Z.log2_lt_pow2; lia). lia. }
  set (K := Z.log2 sec + 1) in *.
  replace (rne ((Second - 1) * 2 ^ 53) 1000000000) with (2 ^ 53 - 9007199) by reflexivity.
  rewrite (rne_near_pow _ (2 ^ (53 - K)) (2 ^ K) 9007199).
  - rewrite Z.eqb_refl. destruct (Z.ltb_spec 0 sec); [reflexivity | lia].
  - apply pow2_pos; lia.
  - rewrite <- Z.pow_add_r by lia. replace (53 - K + K) with 53 by lia. reflexivity.
  - split; [lia|]. apply Z.lt_le_trans with (2 ^ 25); [reflexivity | apply Z.pow_le_mono_r; lia].
Qed.

Example whole_seconds_rounds_up_witness :
  2 ^ 24 <= 2 ^ 24 /\ 2 ^ 24 * Second + (Second - 1) <= int64_max /\
  whole_seconds (2 ^ 24 * Second + (Second - 1)) = 2 ^ 24 + 1.
Proof.
  split; [lia|]. split; [unfold Second, int64_max; lia|].
  apply whole_seconds_rounds_up; unfold Second, int64_max; lia.
Defined.

End Float64.
