(* ===== verification/TimeFormat.v ===== *)
(** * TimeFormat: [time.Now().UTC().Format(time.RFC3339)]

    Both handlers stamp their answer with
    [time.Now().UTC().Format(time.RFC3339)] (main.go:126, 148).  For a
    UTC instant Go's [appendFormatRFC3339] (time/format_rfc3339.go)
    writes [appendInt(year, 4) '-' appendInt(month, 2) '-'
    appendInt(day, 2) 'T' appendInt(hour, 2) ':' appendInt(min, 2) ':'
    appendInt(sec, 2) 'Z'], with the date of the proleptic Gregorian
    calendar and the clock time of the whole seconds of the instant
    (the wall clock's nanoseconds are dropped, the seconds floored).

    [civil_from_days] computes the calendar date of a day count since
    1970-01-01 by the 400-year-era method; [days_from_civil] is its
    inverse.  The round trip [days_from_civil (civil_from_days z) = z]
    is proved for every [z]: on one era (146097 days) by an exhaustive
    check evaluated with [vm_compute], and for any day by shifting
    whole eras.  [appendInt] is Go's zero-padded decimal writer.

    The Logger middleware stamps its line with [time.RFC3339Nano]: the
    same writer with its [nanos] flag set, which appends the nanoseconds
    of the instant after a dot without their trailing zeros
    ([appendNano]), nothing for a whole second. *)

From Stdlib Require Import ZArith String Ascii List Lia Bool.
From S2P Require Import Prelude GoFmt GoTime.
Import ListNotations.
Open Scope Z_scope.

Module TimeFormat.
Import GoFmt GoTime.

(** ** The calendar *)

(** Year, month, day of the day with offset [doe] in a 400-year era
    starting on 0000-03-01, relative to that era. *)
Definition civil_of_doe (doe : Z) : Z * Z * Z :=
  let yoe := (doe - doe / 1460 + doe / 36524 - doe / 146096) / 365 in
  let doy := doe - (365 * yoe + yoe / 4 - yoe / 100) in
  let mp := (5 * doy + 2) / 153 in
  let d := doy - (153 * mp + 2) / 5 + 1 in
  let m := if mp <? 10 then mp + 3 else mp - 9 in
  (yoe + (if m <=? 2 then 1 else 0), m, d).

Definition doe_of_civil (y m d : Z) : Z :=
  let yoe := y - (if m <=? 2 then 1 else 0) in
  let doy := (153 * (if 2 <? m then m - 3 else m + 9) + 2) / 5 + d - 1 in
  yoe * 365 + yoe / 4 - yoe / 100 + doy.

(** The date of day [z] counted from 1970-01-01. *)
Definition civil_from_days (z : Z) : Z * Z * Z :=
  let z' := z + 719468 in
  let era := z' / 146097 in
  let '(y, m, d) := civil_of_doe (z' - era * 146097) in
  (y + era * 400, m, d).

Definition days_from_civil (y m d : Z) : Z :=
  let y' := y - (if m <=? 2 then 1 else 0) in
  let era := y' / 400 in
  era * 146097 + doe_of_civil (y - era * 400) m d - 719468.

(** [isLeap] and [daysIn] of time/time.go. *)
Definition is_leap (year : Z) : bool :=
  (year mod 4 =? 0) && (negb (year mod 100 =? 0) || (year mod 400 =? 0)).

Definition days_in (year month : Z) : Z :=
  if month =? 2 then (if is_leap year then 29 else 28)
  else if (month =? 4) || (month =? 6) || (month =? 9) || (month =? 11) then 30
  else 31.

(** ** Go's [appendInt(b, x, width)] of time/format.go *)

Fixpoint zeros (n : nat) : string :=
  match n with O => EmptyString | S k => String "0" (zeros k) end.

Definition appendInt (x : Z) (width : nat) : string :=
  let u := Z.abs x in
  let digits := formatUint u in
  let pad := zeros (width - String.length digits) in
  if x <? 0 then ("-" ++ pad ++ digits)%string else (pad ++ digits)%string.

(** The whole seconds of a wall-clock reading in Unix nanoseconds. *)
Definition unix_seconds (t : Time) : Z := wall t / Second.

(** [t.Nanosecond()]: the nanoseconds within the second, in [0, 1e9). *)
Definition Nanosecond (t : Time) : Z := wall t mod Second.

(** The trailing zeros of a string of digits, dropped. *)
Fixpoint trim_zeros (s : string) : string :=
  match s with
  | EmptyString => EmptyString
  | String c s' =>
      let t := trim_zeros s' in
      if String.eqb t "" && Ascii.eqb c "0" then EmptyString else String c t
  end.

(** [appendNano(b, nanosec, stdFracSecond9)] with nine digits and ['.']:
    nothing for a whole second, else the dot and the nine digits without
    their trailing zeros. *)
Definition appendNano (nanosec : Z) : string :=
  if nanosec =? 0 then EmptyString
  else
    let digits := trim_zeros (appendInt nanosec 9) in
    if String.eqb digits "" then EmptyString else String "." digits.

(** [t.appendFormatRFC3339(b, nanos)] for an instant in UTC. *)
Definition appendFormatRFC3339 (t : Time) (nanos : bool) : string :=
  let secs := unix_seconds t in
  let '(y, mo, d) := civil_from_days (secs / 86400) in
  let sod := secs mod 86400 in
  (appendInt y 4 ++ "-" ++ appendInt mo 2 ++ "-" ++ appendInt d 2 ++ "T" ++
   appendInt (sod / 3600) 2 ++ ":" ++ appendInt (sod mod 3600 / 60) 2 ++ ":" ++
   appendInt (sod mod 60) 2 ++ (if nanos then appendNano (Nanosecond t) else "") ++ "Z")%string.

(** [t.UTC().Format(time.RFC3339)]. *)
Definition FormatRFC3339 (t : Time) : string := appendFormatRFC3339 t false.

(** [t.Format(time.RFC3339Nano)] for an instant in UTC. *)
Definition FormatRFC3339Nano (t : Time) : string := appendFormatRFC3339 t true.

(** ** The calendar round trip *)

(** The property checked on every day of one era: the date converts
    back, lies in the era, and is a valid date. *)
Definition doe_roundtrips (doe : Z) : bool :=
  let '(y, m, d) := civil_of_doe doe in
  (doe_of_civil y m d =? doe) && (0 <=? y - (if m <=? 2 then 1 else 0))
  && (y - (if m <=? 2 then 1 else 0) <? 400)
  && (1 <=? m) && (m <=? 12) && (1 <=? d) && (d <=? days_in y m).

Lemma era_roundtrip_check : all_range doe_roundtrips 0 (Z.to_nat 146097) = true.
Proof. vm_compute. reflexivity. Qed.

Lemma civil_of_doe_spec doe :
  0 <= doe < 146097 ->
  let '(y, m, d) := civil_of_doe doe in
  doe_of_civil y m d = doe /\ 0 <= y - (if m <=? 2 then 1 else 0) < 400 /\
  1 <= m <= 12 /\ 1 <= d <= days_in y m.
Proof.
  intros Hd. pose proof (all_range_spec _ _ _ era_roundtrip_check doe) as Hc.
  rewrite Z2Nat.id in Hc by lia. specialize (Hc ltac:(lia)).
  unfold doe_roundtrips in Hc. destruct (civil_of_doe doe) as [[y m] d].
  rewrite !andb_true_iff, Z.eqb_eq, !Z.leb_le, Z.ltb_lt in Hc. lia.
Qed.

(** the calendar conversion of [Format] is injective: for every day
    count [z] (negative ones too), [days_from_civil] recovers [z] from
    the date [civil_from_days] gives it. *)
Theorem days_from_civil_from_days z :
  let '(y, m, d) := civil_from_days z in days_from_civil y m d = z.
Proof.
  unfold civil_from_days.
  set (era := (z + 719468) / 146097).
  assert (Hdoe : 0 <= z + 719468 - era * 146097 < 146097)
    by (subst era; pose proof (Z.mod_pos_bound (z + 719468) 146097); rewrite Z.mod_eq in *; lia).
  pose proof (civil_of_doe_spec _ Hdoe) as Hs.
  destruct (civil_of_doe (z + 719468 - era * 146097)) as [[y m] d].
  destruct Hs as (Hback & Hy & _). unfold days_from_civil.
  set (b := if m <=? 2 then 1 else 0) in *.
  assert (Hera : (y + era * 400 - b) / 400 = era).
  { replace (y + era * 400 - b) with ((y - b) + era * 400) by lia.
    rewrite Z.div_add by lia. rewrite Z.div_small by lia. lia. }
  rewrite Hera. replace (y + era * 400 - era * 400) with y by lia.
  rewrite Hback. lia.
Qed.

Lemma is_leap_era y k : is_leap (y + k * 400) = is_leap y.
Proof.
  unfold is_leap.
  replace (y + k * 400) with (y + (k * 100) * 4) at 1 by ring. rewrite Z.mod_add by lia.
  replace (y + k * 400) with (y + (k * 4) * 100) at 1 by ring. rewrite Z.mod_add by lia.
  rewrite Z.mod_add by lia. reflexivity.
Qed.

(** The date [civil_from_days] gives is a valid date. *)
Lemma civil_from_days_valid z :
  let '(y, m, d) := civil_from_days z in 1 <= m <= 12 /\ 1 <= d <= days_in y m.
Proof.
  unfold civil_from_days.
  set (era := (z + 719468) / 146097).
  assert (Hdoe : 0 <= z + 719468 - era * 146097 < 146097)
    by (subst era; pose proof (Z.mod_pos_bound (z + 719468) 146097); rewrite Z.mod_eq in *; lia).
  pose proof (civil_of_doe_spec _ Hdoe) as Hs.
  destruct (civil_of_doe (z + 719468 - era * 146097)) as [[y m] d].
  destruct Hs as (_ & _ & Hm & Hd). split; [exact Hm|].
  unfold days_in in *. rewrite is_leap_era. exact Hd.
Qed.

Example FormatRFC3339_examples :
  FormatRFC3339 (mkTime 0 None) = "1970-01-01T00:00:00Z"%string /\
  FormatRFC3339 (mkTime 1762650000999999999 None) = "2025-11-09T01:00:00Z"%string /\
  FormatRFC3339 (mkTime 951782400000000000 None) = "2000-02-29T00:00:00Z"%string /\
  FormatRFC3339 (mkTime (-1) None) = "1969-12-31T23:59:59Z"%string.
Proof. vm_compute. repeat split. Qed.

End TimeFormat.
