(* ===== verification/Rfc3339.v ===== *)
(** * Rfc3339: the handlers' timestamps read back as RFC 3339

    The spec promises that [GET /health] carries "a parseable RFC3339
    UTC timestamp".  [parse] reads the form [time.RFC3339] gives a UTC
    instant, [YYYY-MM-DDTHH:MM:SSZ] (RFC 3339 [date-time] with the [Z]
    offset and no fraction), checks every field's range as Go's
    [time.Parse] does (month 1-12, day within the month of that year,
    hour 0-23, minute and second 0-59), and returns the Unix seconds of
    the instant.  The theorem: [FormatRFC3339] of any instant whose year
    has four digits (0 to 9999) parses back to the whole Unix second of
    the instant. *)

From Stdlib Require Import ZArith String Ascii List Lia Bool.
From S2P Require Import Prelude GoFmt GoTime TimeFormat.
Open Scope Z_scope.

Module Rfc3339.
Import GoFmt GoTime TimeFormat.

(** Exactly [n] decimal digits, read after the value [acc]. *)
Fixpoint read_digits (n : nat) (acc : Z) (s : string) : option (Z * string) :=
  match n with
  | O => Some (acc, s)
  | S k =>
      match s with
      | String c s' => if is_digit c then read_digits k (acc * 10 + (byte_of c - 48)) s' else None
      | EmptyString => None
      end
  end.

(** The byte [b], then the rest. *)
Definition expect (b : Z) (s : string) : option string :=
  match s with
  | String c s' => if byte_of c =? b then Some s' else None
  | EmptyString => None
  end.

Local Notation "'let?' x := m 'in' k" :=
  (match m with Some x => k | None => None end)
  (at level 10, x pattern, m at level 100, k at level 200).

(** [YYYY-MM-DDTHH:MM:SSZ] and nothing after it, as Unix seconds. *)
Definition parse (s : string) : option Z :=
  let? (year, s) := read_digits 4 0 s in
  let? s := expect 45 s in
  let? (month, s) := read_digits 2 0 s in
  let? s := expect 45 s in
  let? (day, s) := read_digits 2 0 s in
  let? s := expect 84 s in
  let? (hour, s) := read_digits 2 0 s in
  let? s := expect 58 s in
  let? (min, s) := read_digits 2 0 s in
  let? s := expect 58 s in
  let? (sec, s) := read_digits 2 0 s in
  let? s := expect 90 s in
  if String.eqb s EmptyString && (1 <=? month) && (month <=? 12) && (1 <=? day) &&
     (day <=? days_in year month) && (hour <=? 23) && (min <=? 59) && (sec <=? 59)
  then Some (days_from_civil year month day * 86400 + hour * 3600 + min * 60 + sec)
  else None.

(** The instant's year has the four digits RFC 3339 allows. *)
Definition four_digit_year (t : Time) : bool :=
  let '(y, _, _) := civil_from_days (unix_seconds t / 86400) in (0 <=? y) && (y <=? 9999).

(** ** The fields Go writes *)

Lemma all_digits_app u v : all_digits (u ++ v) = all_digits u && all_digits v.
Proof. induction u as [|c u IH]; cbn; [reflexivity|]. rewrite IH, andb_assoc. reflexivity. Qed.

Lemma zeros_digits p a s :
  String.length (zeros p) = p /\ all_digits (zeros p) = true /\
  digits_val a (zeros p ++ s) = digits_val (a * 10 ^ Z.of_nat p) s.
Proof.
  revert a. induction p as [|p IH]; intros a.
  - cbn. rewrite Z.mul_1_r. auto.
  - destruct (IH (a * 10)) as (Hl & Hd & Hv). cbn [zeros String.length all_digits append digits_val].
    replace (is_digit "0"%char) with true by reflexivity. cbn [andb].
    replace (byte_of "0"%char - 48) with 0 by reflexivity.
    rewrite Z.add_0_r, Hv, Nat2Z.inj_succ, Z.pow_succ_r by lia. split; [lia|]. split; [exact Hd|].
    f_equal. ring.
Qed.

(** [appendInt(b, x, w)] of a non-negative [x] below [10^w] is [w]
    digits of value [x]. *)
Lemma appendInt_digits x w a : 0 <= x < 10 ^ Z.of_nat w -> (1 <= w)%nat ->
  String.length (appendInt x w) = w /\ all_digits (appendInt x w) = true /\
  digits_val a (appendInt x w) = Some (a * 10 ^ Z.of_nat w + x).
Proof.
  intros Hx Hw. unfold appendInt. rewrite Z.abs_eq by lia.
  destruct (Z.ltb_spec x 0); [lia|].
  destruct (formatUint_spec x ltac:(lia)) as (k & Hk & Hlt & Hlow & Hlen & Hall & Hval & _).
  cbn [String.length] in Hlen. rewrite Nat.add_0_r in Hlen.
  assert (Hkw : k <= Z.of_nat w).
  { destruct Hlow as [->|Hlow]; [lia|].
    destruct (Z.le_gt_cases k (Z.of_nat w)); [assumption|].
    assert (10 ^ Z.of_nat w <= 10 ^ (k - 1)) by (apply Z.pow_le_mono_r; lia). lia. }
  set (p := (w - String.length (formatUint x))%nat).
  destruct (zeros_digits p a (formatUint x)) as (Hzl & Hzd & Hzv).
  rewrite string_app_length, Hzl. split; [subst p; lia|].
  rewrite all_digits_app, Hzd, Hall. split; [reflexivity|].
  rewrite Hzv, Hval. cbn [digits_val]. f_equal.
  rewrite <- Z.mul_assoc, <- Z.pow_add_r by lia. do 3 f_equal. subst p. lia.
Qed.

(** ** Reading them back *)

Lemma read_digits_app u rest acc : all_digits u = true ->
  read_digits (String.length u) acc (u ++ rest) = option_map (fun v => (v, rest)) (digits_val acc u).
Proof.
  revert acc. induction u as [|c u IH]; intros acc Hu; [reflexivity|].
  cbn [all_digits] in Hu. apply andb_true_iff in Hu as [Hc Hu].
  cbn [String.length append read_digits digits_val]. rewrite Hc. apply IH, Hu.
Qed.

(** A field of [w] digits. *)
Lemma read_field x w rest : 0 <= x < 10 ^ Z.of_nat w -> (1 <= w)%nat ->
  read_digits w 0 (appendInt x w ++ rest) = Some (x, rest).
Proof.
  intros Hx Hw. destruct (appendInt_digits x w 0 Hx Hw) as (Hl & Hd & Hv).
  rewrite <- Hl at 1. rewrite read_digits_app, Hv by exact Hd. reflexivity.
Qed.

Lemma expect_hit b c s : byte_of c = b -> expect b (String c s) = Some s.
Proof. intros <-. cbn. rewrite Z.eqb_refl. reflexivity. Qed.

Lemma days_in_le y m : days_in y m <= 31.
Proof. unfold days_in. destruct (m =? 2); [destruct (is_leap y)|destruct (_ || _)]; lia. Qed.

Ltac read_field_step :=
  rewrite read_field by (cbn; lia); cbv beta iota; cbn [append];
  rewrite expect_hit by reflexivity; cbv beta iota.

(** The timestamp [t.UTC().Format(time.RFC3339)] is an RFC 3339 UTC
    date-time that parses back, with every field in range, to the whole
    Unix second of [t], for every instant of the years 0 to 9999. *)
Lemma parse_FormatRFC3339 t :
  four_digit_year t = true -> parse (FormatRFC3339 t) = Some (unix_seconds t).
Proof.
  unfold four_digit_year, FormatRFC3339, appendFormatRFC3339. set (secs := unix_seconds t).
  pose proof (days_from_civil_from_days (secs / 86400)) as Hback.
  pose proof (civil_from_days_valid (secs / 86400)) as Hvalid.
  destruct (civil_from_days (secs / 86400)) as [[y mo] d].
  rewrite andb_true_iff, !Z.leb_le. intros Hy.
  destruct Hvalid as [Hmo Hd]. pose proof (days_in_le y mo).
  set (sod := secs mod 86400).
  assert (Hsod : 0 <= sod < 86400) by (apply Z.mod_pos_bound; lia).
  assert (0 <= sod / 3600 < 24) by (split; [apply Z.div_pos | apply Z.div_lt_upper_bound]; lia).
  assert (0 <= sod mod 3600 / 60 < 60).
  { pose proof (Z.mod_pos_bound sod 3600 ltac:(lia)).
    split; [apply Z.div_pos | apply Z.div_lt_upper_bound]; lia. }
  assert (0 <= sod mod 60 < 60) by (apply Z.mod_pos_bound; lia).
  unfold parse. do 5 read_field_step.
  rewrite read_field by (cbn; lia). cbv beta iota. cbn [append].
  rewrite expect_hit by reflexivity. cbv beta iota.
  rewrite String.eqb_refl. cbn [andb].
  repeat match goal with |- context [?a <=? ?b] => destruct (Z.leb_spec a b); [|lia] end.
  cbn [andb]. f_equal. rewrite Hback.
  pose proof (Z.div_mod secs 86400 ltac:(lia)). pose proof (Z.div_mod sod 3600 ltac:(lia)).
  pose proof (Z.div_mod (sod mod 3600) 60 ltac:(lia)).
  rewrite (Z.mod_mod_divide sod 3600 60 ltac:(exists 60; reflexivity)) in *.
  lia.
Qed.

Example FormatRFC3339_parses :
  parse (FormatRFC3339 (mkTime 1762650000999999999 None)) = Some 1762650000 /\
  parse (FormatRFC3339 (mkTime (-1) None)) = Some (-1) /\
  parse "2025-02-29T00:00:00Z"%string = None.
Proof. vm_compute. repeat split. Qed.

End Rfc3339.
