(* ===== verification/Uptime.v ===== *)
(** * Uptime: [getUptime] of main.go:66-92

    The function reads [time.Since(startTime)], truncates it to whole
    seconds through [float64], splits the seconds into hours and minutes
    with Go's truncated [/] and [%], collects the phrases in the slice
    [parts] (an hours phrase only when [hours > 0], a minutes phrase
    always), takes [parts[0]] and, when there are two parts, joins them
    with [", "].  Each step is one definition below; [index] is Go's
    slice indexing, [None] standing for the run-time panic of an index
    out of range.

    The theorems: [getUptime] never panics, its hours and minutes are
    the digits of the seconds in base 3600/60, the human string is
    decoded by [parse_human], a reader of the spec's two shapes, back to
    those hours and minutes (round trip): the hours phrase appears
    exactly for at least one hour and each word is singular exactly
    for 1. *)

From Stdlib Require Import ZArith String Ascii List Lia Bool.
From S2P Require Import Prelude GoFmt GoTime.
Import ListNotations.
Open Scope Z_scope.

Module Uptime.
Import GoFmt GoTime.

(** [fmt.Sprintf("%d" ++ suffix, n)] for a format with one [%d] verb
    in front of a literal suffix. *)
Definition sprintf_d (n : Z) (suffix : string) : string := (formatInt n ++ suffix)%string.

(** [hours := seconds / 3600] (main.go:69). *)
Definition hours_of (seconds : Z) : Z := Z.quot seconds 3600.

(** [minutes := (seconds % 3600) / 60] (main.go:70). *)
Definition minutes_of (seconds : Z) : Z := Z.quot (Z.rem seconds 3600) 60.

(** main.go:74-78. *)
Definition hour_phrase (hours : Z) : string :=
  if hours =? 1 then sprintf_d hours " hour" else sprintf_d hours " hours".

(** main.go:80-84. *)
Definition minute_phrase (minutes : Z) : string :=
  if minutes =? 1 then sprintf_d minutes " minute" else sprintf_d minutes " minutes".

(** The slice [parts] after main.go:72-84. *)
Definition parts_of (hours minutes : Z) : list string :=
  let parts := if 0 <? hours then [hour_phrase hours] else [] in
  parts ++ [minute_phrase minutes].

(** Go's [s[i]]: [None] is the panic of an index out of range. *)
Definition index (s : list string) (i : nat) : option string := nth_error s i.

(** main.go:86-89: [human := parts[0]; if len(parts) > 1 { human =
    parts[0] + ", " + parts[1] }]. *)
Definition join_human (parts : list string) : option string :=
  match index parts 0 with
  | None => None
  | Some p0 =>
      if Nat.ltb 1 (length parts) then
        match index parts 1 with
        | Some p1 => Some (p0 ++ ", " ++ p1)%string
        | None => None
        end
      else Some p0
  end.

(** main.go:69-91 once [seconds] is known: [Some (seconds, human)], or
    [None] for a panic. *)
Definition uptime_of_seconds (seconds : Z) : option (Z * string) :=
  let hours := hours_of seconds in
  let minutes := minutes_of seconds in
  match join_human (parts_of hours minutes) with
  | Some human => Some (seconds, human)
  | None => None
  end.

(** [getUptime] (main.go:66-92) in the state monad of the clock. *)
Definition getUptime {W} `{Clock W} (startTime : Time) : M W (option (Z * string)) :=
  fun w =>
    let (delta, w') := Since startTime w in
    (uptime_of_seconds (whole_seconds delta), w').

(** ** Reading a human uptime back *)

(** ["<n> <word>"] with the word the singular exactly when [n = 1]. *)
Definition parse_phrase (s singular plural : string) : option Z :=
  match split_first " " s with
  | Some (num, word) =>
      match parseInt num with
      | Some n => if String.eqb word (if n =? 1 then singular else plural) then Some n else None
      | None => None
      end
  | None => None
  end.

(** ["<h> hour(s), <m> minute(s)"] with [h > 0], or ["<m> minute(s)"],
    to [(h, m)]: the grammar of the spec's examples, in which the hours
    phrase appears only for at least one hour. *)
Definition parse_human (s : string) : option (Z * Z) :=
  match split_first "," s with
  | Some (hpart, String c mpart) =>
      if Ascii.eqb c " " then
        match parse_phrase hpart "hour" "hours", parse_phrase mpart "minute" "minutes" with
        | Some h, Some m => if 0 <? h then Some (h, m) else None
        | _, _ => None
        end
      else None
  | Some (_, EmptyString) => None
  | None =>
      match parse_phrase s "minute" "minutes" with
      | Some m => Some (0, m)
      | None => None
      end
  end.

(** ** Lemmas *)

Lemma sprintf_d_word n word :
  sprintf_d n (String " " word) = (formatInt n ++ String " " word)%string.
Proof. reflexivity. Qed.

Lemma hour_phrase_eq h :
  hour_phrase h = (formatInt h ++ String " " (if Z.eqb h 1 then "hour" else "hours"))%string.
Proof. unfold hour_phrase. destruct (h =? 1); reflexivity. Qed.

Lemma minute_phrase_eq m :
  minute_phrase m = (formatInt m ++ String " " (if Z.eqb m 1 then "minute" else "minutes"))%string.
Proof. unfold minute_phrase. destruct (m =? 1); reflexivity. Qed.

Lemma phrase_no_sep c n (word : string) :
  is_digit c = false -> Ascii.eqb c "-"%char = false -> Ascii.eqb " " c = false ->
  has_char c word = false -> has_char c (formatInt n ++ String " " word) = false.
Proof.
  intros Hd Hm Hsp Hw. rewrite has_char_app, formatInt_no_char by assumption.
  cbn [has_char]. rewrite Hsp, Hw. reflexivity.
Qed.

Lemma parse_phrase_formatInt n singular plural :
  parse_phrase (formatInt n ++ String " " (if Z.eqb n 1 then singular else plural))%string
    singular plural = Some n.
Proof.
  unfold parse_phrase. rewrite split_first_app by (apply formatInt_no_char; reflexivity).
  rewrite parseInt_formatInt, String.eqb_refl. reflexivity.
Qed.

(** Division facts of the uptime arithmetic on non-negative seconds. *)
Lemma hours_minutes_nonneg s :
  0 <= s -> hours_of s = s / 3600 /\ minutes_of s = (s mod 3600) / 60.
Proof.
  intros Hs. unfold hours_of, minutes_of.
  rewrite quot_nonneg, rem_nonneg, quot_nonneg by (try apply Z.mod_pos_bound; lia).
  split; reflexivity.
Qed.

(** [getUptime] reads the clock once and returns the uptime of that
    reading. *)
Lemma getUptime_eval {W} `{Clock W} start w :
  getUptime start w =
    (uptime_of_seconds (whole_seconds (Sub (fst (now w)) start)), snd (now w)).
Proof. unfold getUptime. rewrite Since_eval. reflexivity. Qed.

(** ** Theorems *)

(** [getUptime] never panics: whatever the number of seconds, the slice
    [parts] is non-empty, so [parts[0]] (and [parts[1]] when it is read)
    is in range, and the seconds are returned unchanged. *)
Lemma uptime_of_seconds_total s :
  exists human, uptime_of_seconds s = Some (s, human).
Proof.
  unfold uptime_of_seconds, join_human, parts_of, index.
  match goal with |- context [if ?b then _ else _] => destruct b end; simpl; eexists; reflexivity.
Qed.

(** C23: for non-negative seconds the minutes are below 60 and the
    seconds decompose as [3600 * hours + 60 * minutes + r] with
    [0 <= r < 60]: the human string drops exactly the leftover seconds. *)
Theorem uptime_decomposition s :
  0 <= s ->
  0 <= hours_of s /\ 0 <= minutes_of s < 60 /\
  exists r, 0 <= r < 60 /\ s = 3600 * hours_of s + 60 * minutes_of s + r.
Proof.
  intros Hs. destruct (hours_minutes_nonneg s Hs) as [-> ->].
  pose proof (Z.mod_pos_bound s 3600 ltac:(lia)).
  pose proof (Z.div_mod s 3600 ltac:(lia)).
  pose proof (Z.div_mod (s mod 3600) 60 ltac:(lia)).
  pose proof (Z.mod_pos_bound (s mod 3600) 60 ltac:(lia)).
  repeat split.
  - apply Z.div_pos; lia.
  - apply Z.div_pos; lia.
  - apply Z.div_lt_upper_bound; lia.
  - exists ((s mod 3600) mod 60). split; lia.
Qed.

(** C21: round trip of the human string: for non-negative seconds,
    [parse_human] reads back [(s / 3600, (s mod 3600) / 60)] from the
    string [getUptime] builds.  The reader accepts only the spec's two
    shapes, ["<m> minute(s)"] and ["<h> hour(s), <m> minute(s)"] with
    [h > 0], each word singular exactly for the count 1: so the hours
    phrase is present exactly when there is at least one hour. *)
Theorem uptime_human_roundtrip s :
  0 <= s ->
  exists human, uptime_of_seconds s = Some (s, human) /\
    parse_human human = Some (s / 3600, (s mod 3600) / 60).
Proof.
  intros Hs. destruct (hours_minutes_nonneg s Hs) as [Hh Hm].
  assert (H0 : 0 <= s / 3600) by (apply Z.div_pos; lia).
  unfold uptime_of_seconds, join_human, parts_of, index.
  rewrite Hh, Hm. destruct (Z.ltb_spec 0 (s / 3600)) as [Hpos|Hzero]; simpl.
  - eexists. split; [reflexivity|]. unfold parse_human.
    rewrite hour_phrase_eq, (minute_phrase_eq ((s mod 3600) / 60)).
    rewrite split_first_app.
    + simpl. rewrite !parse_phrase_formatInt. destruct (Z.ltb_spec 0 (s / 3600)); [reflexivity | lia].
    + apply phrase_no_sep; try reflexivity. destruct (s / 3600 =? 1); reflexivity.
  - eexists. split; [reflexivity|]. unfold parse_human.
    rewrite minute_phrase_eq, split_first_none.
    + rewrite parse_phrase_formatInt. f_equal. f_equal. lia.
    + apply phrase_no_sep; try reflexivity. destruct (_ =? 1); reflexivity.
Qed.

Example uptime_human_roundtrip_witness :
  0 <= 7325 /\ exists human, uptime_of_seconds 7325 = Some (7325, human) /\
    parse_human human = Some (7325 / 3600, (7325 mod 3600) / 60).
Proof. split; [lia | apply uptime_human_roundtrip; lia]. Defined.

Example uptime_decomposition_witness :
  0 <= 3725 /\ 0 <= hours_of 3725 /\ 0 <= minutes_of 3725 < 60 /\
  exists r, 0 <= r < 60 /\ 3725 = 3600 * hours_of 3725 + 60 * minutes_of 3725 + r.
Proof. split; [lia | apply uptime_decomposition; lia]. Defined.

End Uptime.
