(* ===== verification/SystemInfo.v ===== *)
(** * SystemInfo: [getSystemInfo] of main.go:94-104 and [os.Hostname]

    [getSystemInfo] calls [os.Hostname()], ignores its error, and fills
    the [System] struct (main.go:23-30) from [runtime.GOOS],
    [runtime.GOARCH], [runtime.NumCPU()] and [runtime.Version()].

    The operating system is an interface ([Host]) giving, over a world
    of type [W], the facts the program reads: the nodename returned by
    the [uname] system call (or its failure), the contents of
    [/proc/sys/kernel/hostname] (or the failure to read it), and the
    runtime constants.  [os_Hostname] follows Go's [os.hostname] on
    Linux (os/sys_linux.go): the nodename when [uname] succeeded with a
    name of 1 to 63 bytes, otherwise the first 512 bytes of the [/proc]
    file without one trailing newline, and [("", err)] when that file
    cannot be opened or is empty (its first read answers [io.EOF]).

    The theorems: a failed lookup gives the empty hostname and
    [getSystemInfo] still returns its struct (no error escapes); the
    other fields are the runtime's facts, with [platform_version] the
    two joined by a space. *)

From Stdlib Require Import ZArith String Ascii List Lia Bool.
From S2P Require Import Prelude.
Import ListNotations.
Open Scope Z_scope.

Module SystemInfo.

(** ** The [System] struct (main.go:23-30) *)

Record System := mkSystem {
  Hostname : string;
  Platform : string;
  PlatformVersion : string;
  Architecture : string;
  CPUCount : Z;
  GoVersion : string
}.

(** ** The operating system *)

Inductive HostnameError := ErrOpenProc | ErrReadEOF.

Record HostFacts := mkHostFacts {
  uname_nodename : option string;   (** [None]: [uname(2)] failed *)
  proc_hostname : option string;    (** [None]: the file cannot be opened *)
  goos : string;
  goarch : string;
  num_cpu : Z;
  go_version : string
}.

(** The interface of the operating system, over a world [W]. *)
Class Host (W : Type) := { host : W -> HostFacts }.

(** ["\n"] *)
Definition newline : ascii := ascii_of_nat 10.

(** [if n > 0 && buf[n-1] == '\n' { n-- }; string(buf[:n])] *)
Definition trim_one_newline (s : string) : string :=
  match String.get (String.length s - 1) s with
  | Some c => if (0 <? String.length s)%nat && Ascii.eqb c newline
              then substring 0 (String.length s - 1) s else s
  | None => s
  end.

(** [os.Hostname()] on Linux. *)
Definition os_Hostname (h : HostFacts) : string * option HostnameError :=
  let from_proc :=
    match proc_hostname h with
    | None => (""%string, Some ErrOpenProc)
    | Some content =>
        let buf := substring 0 512 content in
        if String.eqb buf "" then (""%string, Some ErrReadEOF)
        else (trim_one_newline buf, None)
    end in
  match uname_nodename h with
  | Some name =>
      if (0 <? String.length name)%nat && (String.length name <? 64)%nat
      then (name, None) else from_proc
  | None => from_proc
  end.

(** [getSystemInfo] (main.go:94-104): [hostname, _ := os.Hostname()]. *)
Definition getSystemInfo_of (h : HostFacts) : System :=
  let (hostname, _) := os_Hostname h in
  {| Hostname := hostname;
     Platform := goos h;
     PlatformVersion := (goos h ++ " " ++ goarch h)%string;
     Architecture := goarch h;
     CPUCount := num_cpu h;
     GoVersion := go_version h |}.

Definition getSystemInfo {W} `{Host W} : M W System := gets (fun w => getSystemInfo_of (host w)).

(** ** Theorems *)

Local Open Scope string_scope.

(** A hostname lookup that fails (no usable nodename and no readable
    [/proc] file) does not abort [getSystemInfo]: the struct is
    returned, with the empty hostname and the runtime's facts. *)
Lemma getSystemInfo_hostname_failure h :
  snd (os_Hostname h) <> None ->
  getSystemInfo_of h =
    {| Hostname := ""; Platform := goos h;
       PlatformVersion := (goos h ++ " " ++ goarch h)%string;
       Architecture := goarch h; CPUCount := num_cpu h; GoVersion := go_version h |}.
Proof.
  unfold getSystemInfo_of, os_Hostname. intros Herr.
  destruct (uname_nodename h) as [name|];
    [destruct ((0 <? String.length name)%nat && (String.length name <? 64)%nat);
     [simpl in Herr; congruence|]|];
  destruct (proc_hostname h) as [content|]; try reflexivity;
  destruct (String.eqb (substring 0 512 content) ""); simpl in *; congruence.
Qed.

(** A well-formed nodename is reported as it is; otherwise the [/proc]
    file is read and its trailing newline dropped. *)
Example os_Hostname_examples :
  os_Hostname (mkHostFacts (Some "web-1") None "linux" "amd64" 1 "go1.22") = ("web-1", None)
  /\ os_Hostname (mkHostFacts (Some "") (Some "web-2
") "linux" "amd64" 1 "go1.22") = ("web-2", None)
  /\ os_Hostname (mkHostFacts None (Some "") "linux" "amd64" 1 "go1.22")
     = ("", Some ErrReadEOF).
Proof. vm_compute. repeat split. Qed.

End SystemInfo.
