(* ===== verification/Echo.v ===== *)
(** * Echo: the request facts of [mainHandler] (main.go:110-113, 129-134)

    [mainHandler] takes the client address from Echo's [c.RealIP()] and
    falls back to the raw [RemoteAddr] when that is empty; it also reads
    the [User-Agent] header, the method and the URL path.

    Echo's [RealIP] (echo v4, context.go), with no [IPExtractor]
    configured as in this program, trusts the request's own headers:
    the first entry of [X-Forwarded-For] (up to the first comma, spaces
    and brackets trimmed) when the header is set, else [X-Real-IP]
    (brackets trimmed), else the host part of [RemoteAddr] as
    [net.SplitHostPort] splits it (the empty string when it fails).
    [SplitHostPort] follows net/ipsock.go.  Headers are a list of
    (canonical key, value) pairs as [http.Header] holds them after the
    server's parsing; [Header.Get] answers the first value of the key or
    [""].  [TrimSpace] trims the ASCII white space (the bytes Go's
    fast path trims; multi-byte Unicode spaces are not modelled).

    The raw query ([URL.RawQuery]) is read as [c.QueryParams()] reads
    it: [url.ParseQuery] (net/url/url.go, Go 1.17 and later) splits it
    at [&], drops an item holding [;], splits an item at its first [=]
    and unescapes both parts ([%XX], [+] as a space), dropping an item
    that does not unescape.

    The theorems: the reported client address is never empty when the
    connection has a remote address; for a direct connection it is the
    host part of [RemoteAddr]; and a client-supplied [X-Forwarded-For]
    decides it whatever the peer's address is (a finding); the loop of
    [parseQuery] ends within the length of the query, where it equals
    the map over the items of [strings.Split(query, "&")]. *)

From Stdlib Require Import ZArith String Ascii List Lia Bool.
From S2P Require Import Prelude.
Import ListNotations.
Open Scope Z_scope.

Module Echo.

(** ** Strings as Go's [strings] and [bytealg] see them *)

(** [strings.IndexByte(s, c)]: the first position of [c]. *)
Fixpoint index_byte (c : ascii) (s : string) : option nat :=
  match s with
  | EmptyString => None
  | String x s' => if Ascii.eqb x c then Some O else option_map S (index_byte c s')
  end.

(** [strings.LastIndexByte(s, c)]. *)
Fixpoint last_index_byte (c : ascii) (s : string) : option nat :=
  match s with
  | EmptyString => None
  | String x s' =>
      match last_index_byte c s' with
      | Some i => Some (S i)
      | None => if Ascii.eqb x c then Some O else None
      end
  end.

(** [s[i:]] *)
Definition slice_from (i : nat) (s : string) : string := substring i (String.length s - i) s.

(** [s[i:j]] *)
Definition slice (i j : nat) (s : string) : string := substring i (j - i) s.

Definition is_ascii_space (c : ascii) : bool :=
  let n := nat_of_ascii c in
  (n =? 32)%nat || (n =? 9)%nat || (n =? 10)%nat || (n =? 11)%nat || (n =? 12)%nat
  || (n =? 13)%nat.

Fixpoint trim_left (s : string) : string :=
  match s with
  | String c s' => if is_ascii_space c then trim_left s' else s
  | EmptyString => EmptyString
  end.

Definition string_rev (s : string) : string := string_of_list_ascii (rev (list_ascii_of_string s)).

(** [strings.TrimSpace] on ASCII white space. *)
Definition TrimSpace (s : string) : string := string_rev (trim_left (string_rev (trim_left s))).

(** [strings.TrimPrefix(s, "[")] and [strings.TrimSuffix(s, "]")]. *)
Definition TrimPrefixBracket (s : string) : string :=
  match s with
  | String c s' => if Ascii.eqb c "["%char then s' else s
  | EmptyString => s
  end.

Definition TrimSuffixBracket (s : string) : string :=
  match String.get (String.length s - 1) s with
  | Some c => if (0 <? String.length s)%nat && Ascii.eqb c "]"%char
              then substring 0 (String.length s - 1) s else s
  | None => s
  end.

(** ** [net.SplitHostPort] (net/ipsock.go); [None] is an [AddrError]. *)
Definition SplitHostPort (hostport : string) : option (string * string) :=
  match last_index_byte ":" hostport with
  | None => None
  | Some i =>
      let split :=
        match hostport with
        | String c _ =>
            if Ascii.eqb c "["%char then
              match index_byte "]" hostport with
              | None => None
              | Some e =>
                  if (S e =? String.length hostport)%nat then None
                  else if (S e =? i)%nat then Some (slice 1 e hostport, 1%nat, S e)
                  else None
              end
            else
              let host := slice 0 i hostport in
              if has_char ":" host then None else Some (host, O, O)
        | EmptyString => None
        end in
      match split with
      | None => None
      | Some (host, j, k) =>
          if has_char "[" (slice_from j hostport) then None
          else if has_char "]" (slice_from k hostport) then None
          else Some (host, slice_from (S i) hostport)
      end
  end.

(** ** The inbound request *)

(** The fields of an [*http.Request] the program reads: [Method],
    [URL.Path], [URL.RawQuery], [Header], [Host] (here [ReqHost]),
    [RemoteAddr] and the unmodified request target [RequestURI]. *)
Record HttpRequest := mkRequest {
  Method : string;
  URLPath : string;
  RawQuery : string;
  Header : list (string * string);
  ReqHost : string;
  RemoteAddr : string;
  RequestURI : string
}.

(** [r.Header.Get(key)] for a canonical key. *)
Fixpoint header_get (h : list (string * string)) (key : string) : string :=
  match h with
  | [] => ""%string
  | (k, v) :: h' => if String.eqb k key then v else header_get h' key
  end.

Definition UserAgent (r : HttpRequest) : string := header_get (Header r) "User-Agent".

(** Echo's [RealIP] without an [IPExtractor]. *)
Definition RealIP (r : HttpRequest) : string :=
  let xff := header_get (Header r) "X-Forwarded-For" in
  if negb (String.eqb xff "") then
    match index_byte ","%char xff with
    | Some (S _ as i) => TrimSuffixBracket (TrimPrefixBracket (TrimSpace (slice 0 i xff)))
    | _ => xff
    end
  else
    let xri := header_get (Header r) "X-Real-IP" in
    if negb (String.eqb xri "") then TrimSuffixBracket (TrimPrefixBracket xri)
    else match SplitHostPort (RemoteAddr r) with
         | Some (host, _) => host
         | None => ""%string
         end.

(** main.go:110-113. *)
Definition clientIP (r : HttpRequest) : string :=
  let ip := RealIP r in
  if String.eqb ip "" then RemoteAddr r else ip.

(** ** The query string (net/url) *)

(** [strings.Cut(s, sep)] for a one-byte separator: the text before
    the first [sep], the text after it, and whether it was found. *)
Definition Cut (c : ascii) (s : string) : string * string * bool :=
  match index_byte c s with
  | Some i => (substring 0 i s, slice_from (S i) s, true)
  | None => (s, EmptyString, false)
  end.

(** [strings.Split(s, sep)] for a one-byte separator: the pieces
    between the separators, [[""]] for the empty string. *)
Fixpoint Split (c : ascii) (s : string) : list string :=
  match s with
  | EmptyString => [EmptyString]
  | String x s' =>
      if Ascii.eqb x c then EmptyString :: Split c s'
      else match Split c s' with
           | [] => [String x EmptyString]
           | h :: t => String x h :: t
           end
  end.

(** [ishex] and [unhex] (net/url/url.go). *)
Definition ishex (c : ascii) : bool :=
  let b := byte_of c in
  ((48 <=? b) && (b <=? 57)) || ((97 <=? b) && (b <=? 102)) || ((65 <=? b) && (b <=? 70)).

Definition unhex (c : ascii) : Z :=
  let b := byte_of c in
  if (48 <=? b) && (b <=? 57) then b - 48
  else if (97 <=? b) && (b <=? 102) then b - 87
  else if (65 <=? b) && (b <=? 70) then b - 55
  else 0.

(** [url.QueryUnescape(s)], i.e. [unescape(s, encodeQueryComponent)]:
    [%XX] is the byte of its two hex digits, [+] is a space, any other
    byte is itself; a [%] not followed by two hex digits is an error. *)
Fixpoint QueryUnescape (s : string) : option string :=
  match s with
  | EmptyString => Some EmptyString
  | String c rest =>
      if Ascii.eqb c "%" then
        match rest with
        | String h1 (String h2 rest') =>
            if ishex h1 && ishex h2
            then option_map (String (ascii_of_Z (unhex h1 * 16 + unhex h2))) (QueryUnescape rest')
            else None
        | _ => None
        end
      else if Ascii.eqb c "+" then option_map (String " ") (QueryUnescape rest)
      else option_map (String c) (QueryUnescape rest)
  end.

(** One [key=value] item of the loop of [parseQuery] (Go 1.17 and
    later): an item holding a semicolon, an empty item and an item
    whose key or value does not unescape are dropped. *)
Definition query_pair (kv : string) : option (string * string) :=
  if has_char ";" kv then None
  else if String.eqb kv "" then None
  else
    let '(key, value, _) := Cut "=" kv in
    match QueryUnescape key, QueryUnescape value with
    | Some k, Some v => Some (k, v)
    | _, _ => None
    end.

(** The pairs of a list of items, in order, the dropped items left
    out: what [parseQuery] collects, read as a map over the items
    [strings.Split(query, "&")] gives. *)
Fixpoint pairs_of (items : list string) : list (string * string) :=
  match items with
  | [] => []
  | item :: items' =>
      match query_pair item with
      | Some kv => kv :: pairs_of items'
      | None => pairs_of items'
      end
  end.

(** The loop of [parseQuery(m, query)]: the pairs in order, as
    [url.Values] collects them; [fuel] bounds the iterations (the
    length of the query and one are enough, [parse_query_fuel]). *)
Fixpoint parse_query (fuel : nat) (query : string) : list (string * string) :=
  match fuel with
  | O => []
  | S f =>
      if String.eqb query "" then []
      else
        let '(item, rest, _) := Cut "&" query in
        match query_pair item with
        | Some kv => kv :: parse_query f rest
        | None => parse_query f rest
        end
  end.

(** [c.QueryParams()], i.e. [r.URL.Query()] with its error ignored. *)
Definition QueryParams (r : HttpRequest) : list (string * string) :=
  parse_query (S (String.length (RawQuery r))) (RawQuery r).

(** [_, ok := values[key]]: the key has at least one value. *)
Definition has_key (params : list (string * string)) (key : string) : bool :=
  existsb (fun kv => String.eqb (fst kv) key) params.

(** ** Lemmas on the string functions *)

Lemma index_byte_none c s : has_char c s = false -> index_byte c s = None.
Proof.
  induction s as [|x s IH]; simpl; intros H; [reflexivity|].
  apply orb_false_iff in H as [Hx Hs]. rewrite Hx, IH by exact Hs. reflexivity.
Qed.

Lemma last_index_byte_none c s : has_char c s = false -> last_index_byte c s = None.
Proof.
  induction s as [|x s IH]; simpl; intros H; [reflexivity|].
  apply orb_false_iff in H as [Hx Hs]. rewrite IH, Hx by exact Hs. reflexivity.
Qed.

Lemma last_index_byte_app c a b :
  has_char c b = false -> last_index_byte c (a ++ String c b) = Some (String.length a).
Proof.
  intros Hb. induction a as [|x a IH]; simpl.
  - rewrite last_index_byte_none by exact Hb. rewrite Ascii.eqb_refl. reflexivity.
  - rewrite IH. reflexivity.
Qed.

Lemma slice_from_app a c b : slice_from (S (String.length a)) (a ++ String c b) = b.
Proof.
  unfold slice_from. rewrite string_app_length. simpl.
  replace (String.length a + S (String.length b) - S (String.length a))%nat
    with (String.length b) by lia.
  induction a as [|x a IH]; simpl; [apply substring_full | exact IH].
Qed.

Lemma slice_from_0 s : slice_from 0 s = s.
Proof. unfold slice_from. rewrite Nat.sub_0_r. apply substring_full. Qed.

(** ** Theorems *)

Local Open Scope string_scope.

(** C28: the client address [mainHandler] reports is never empty when
    the connection has a remote address: an empty [RealIP] falls back to
    [RemoteAddr] (main.go:111-113). *)
Theorem clientIP_nonempty r : RemoteAddr r <> "" -> clientIP r <> "".
Proof.
  intros Hra. unfold clientIP.
  destruct (String.eqb_spec (RealIP r) "") as [_|Hne]; assumption.
Qed.

Example clientIP_nonempty_witness :
  let r := mkRequest "GET" "/" "" [] "localhost" "noport" "/" in RemoteAddr r <> "" /\ clientIP r <> "".
Proof.
  cbv zeta. split; [discriminate|].
  apply (clientIP_nonempty (mkRequest "GET" "/" "" [] "localhost" "noport" "/")). discriminate.
Defined.

(** [net.SplitHostPort] on ["host:port"] with a plain host. *)
Lemma SplitHostPort_plain host port :
  has_char ":" host = false -> has_char "[" host = false -> has_char "]" host = false ->
  has_char ":" port = false -> has_char "[" port = false -> has_char "]" port = false ->
  host <> "" ->
  SplitHostPort (host ++ String ":" port) = Some (host, port).
Proof.
  intros Hc Hlb Hrb Pc Plb Prb Hne.
  assert (Hl : has_char "[" (host ++ String ":" port) = false)
    by (rewrite has_char_app; cbn [has_char]; rewrite Hlb, Plb; reflexivity).
  assert (Hr : has_char "]" (host ++ String ":" port) = false)
    by (rewrite has_char_app; cbn [has_char]; rewrite Hrb, Prb; reflexivity).
  assert (Hs : slice 0 (String.length host) (host ++ String ":" port) = host)
    by (unfold slice; rewrite Nat.sub_0_r; apply substring_app_l).
  pose proof (slice_from_app host ":"%char port) as Hp.
  pose proof (last_index_byte_app ":"%char host port Pc) as Hi.
  pose proof (slice_from_0 (host ++ String ":" port)) as H0.
  destruct host as [|x host']; [congruence|].
  simpl in Hlb. apply orb_false_iff in Hlb as [Hx _].
  cbn [append String.length] in *.
  unfold SplitHostPort. rewrite Hi. cbv zeta. rewrite Hx, Hs, Hc, H0, Hl, Hr, Hp.
  reflexivity.
Qed.

(** C29: for a direct connection (no [X-Forwarded-For], no [X-Real-IP])
    from ["host:port"], the reported client address is the host part. *)
Theorem clientIP_direct meth path q hdrs rh uri host port :
  header_get hdrs "X-Forwarded-For" = "" -> header_get hdrs "X-Real-IP" = "" ->
  has_char ":" host = false -> has_char "[" host = false -> has_char "]" host = false ->
  has_char ":" port = false -> has_char "[" port = false -> has_char "]" port = false ->
  host <> "" ->
  clientIP (mkRequest meth path q hdrs rh (host ++ String ":" port) uri) = host.
Proof.
  intros Hx Hr Hc Hlb Hrb Pc Plb Prb Hne. unfold clientIP, RealIP. cbn [Header RemoteAddr].
  rewrite Hx, Hr. simpl. rewrite SplitHostPort_plain by assumption.
  destruct (String.eqb_spec host ""); congruence.
Qed.

Example clientIP_direct_witness :
  header_get [("User-Agent", "curl/8.5.0")] "X-Forwarded-For" = "" /\
  clientIP (mkRequest "GET" "/" "" [("User-Agent", "curl/8.5.0")] "localhost:8080" ("10.0.0.7" ++ String ":" "51234") "/")
  = "10.0.0.7".
Proof.
  split; [reflexivity|].
  apply clientIP_direct; try reflexivity. discriminate.
Defined.

(** C30: a client-supplied [X-Forwarded-For] without a comma is reported
    as the client address whatever the connection's peer is: Echo's
    default [RealIP] trusts the header, with no proxy configured. *)
Theorem clientIP_forwarded_for meth path q hdrs rh ra uri v :
  header_get hdrs "X-Forwarded-For" = v -> v <> "" -> has_char "," v = false ->
  clientIP (mkRequest meth path q hdrs rh ra uri) = v.
Proof.
  intros Hx Hne Hc. unfold clientIP, RealIP. cbn [Header].
  rewrite Hx. destruct (String.eqb_spec v "") as [|_]; [congruence|]. simpl.
  rewrite index_byte_none by exact Hc.
  destruct (String.eqb_spec v ""); congruence.
Qed.

Example clientIP_forwarded_for_witness :
  clientIP (mkRequest "GET" "/" "" [("X-Forwarded-For", "203.0.113.9")] "localhost:8080" "10.0.0.7:51234" "/")
  = "203.0.113.9".
Proof. apply clientIP_forwarded_for; [reflexivity | discriminate | reflexivity]. Defined.

(** ** The query string *)

Lemma index_byte_lt c s i : index_byte c s = Some i -> (i < String.length s)%nat.
Proof.
  revert i. induction s as [|x s IH]; intros i; cbn; [discriminate|].
  destruct (Ascii.eqb x c); [intros E; injection E as <-; lia|].
  destruct (index_byte c s) as [j|]; cbn; [intros E; injection E as <-; specialize (IH j eq_refl); lia | discriminate].
Qed.

(** What follows the separator is shorter than the cut string. *)
Lemma Cut_rest_length c s item rest found : s <> EmptyString -> Cut c s = (item, rest, found) ->
  (String.length rest < String.length s)%nat.
Proof.
  intros Hne. unfold Cut. destruct (index_byte c s) as [i|] eqn:E; intros H; injection H as <- <- <-.
  - pose proof (index_byte_lt c s i E). unfold slice_from. rewrite substring_length by lia. lia.
  - destruct s; [congruence | cbn; lia].
Qed.

(** The loop of [parseQuery] ends: each iteration consumes an
    item and its separator, so the length of the query plus one
    iterations reach the end, and any larger bound gives the same
    pairs. *)
Lemma parse_query_fuel f1 f2 q : (String.length q < f1)%nat -> (String.length q < f2)%nat ->
  parse_query f1 q = parse_query f2 q.
Proof.
  revert f2 q. induction f1 as [|f1 IH]; intros f2 q H1 H2; [lia|]. destruct f2 as [|f2]; [lia|].
  cbn [parse_query]. destruct (String.eqb_spec q "") as [->|Hne]; [reflexivity|].
  destruct (Cut "&" q) as [[item rest] found] eqn:E.
  pose proof (Cut_rest_length _ _ _ _ _ Hne E).
  rewrite (IH f2 rest) by lia. reflexivity.
Qed.

(** [strings.Cut] on a string with one more byte in front. *)
Lemma Cut_cons c x s :
  Cut c (String x s) =
    if Ascii.eqb x c then (EmptyString, s, true)
    else let '(a, b, f) := Cut c s in (String x a, b, f).
Proof.
  unfold Cut. cbn [index_byte]. destruct (Ascii.eqb x c).
  - cbn. rewrite Nat.sub_0_r, substring_full. reflexivity.
  - destruct (index_byte c s); reflexivity.
Qed.

(** Cutting at the first separator takes the first piece of [Split];
    the rest of the pieces are the pieces of what follows it. *)
Lemma Split_Cut c s item rest found : Cut c s = (item, rest, found) ->
  Split c s = item :: (if found then Split c rest else []) /\ (found = false -> rest = EmptyString).
Proof.
  revert item rest found. induction s as [|x s IH]; intros item rest found.
  - intros [= <- <- <-]. split; reflexivity.
  - rewrite Cut_cons. cbn [Split]. destruct (Ascii.eqb x c).
    + intros [= <- <- <-]. split; [reflexivity | discriminate].
    + destruct (Cut c s) as [[a b] f]. intros [= <- <- <-].
      destruct (IH a b f eq_refl) as [-> Hb]. split; [reflexivity | exact Hb].
Qed.

(** The loop of [parseQuery] with enough fuel collects the pairs of the
    items of [strings.Split(query, "&")]. *)
Lemma parse_query_Split f q : (String.length q < f)%nat -> parse_query f q = pairs_of (Split "&" q).
Proof.
  revert q. induction f as [|f IH]; intros q Hf; [lia|]. cbn [parse_query].
  destruct (String.eqb_spec q "") as [->|Hne]; [reflexivity|].
  destruct (Cut "&" q) as [[item rest] found] eqn:E.
  pose proof (Cut_rest_length _ _ _ _ _ Hne E).
  destruct (Split_Cut _ _ _ _ _ E) as [-> Hr]. cbn [pairs_of].
  rewrite IH by lia. destruct found.
  - reflexivity.
  - rewrite (Hr eq_refl). destruct (query_pair item); reflexivity.
Qed.

(** [c.QueryParams()] is the pairs of the [&]-separated items of the raw
    query. *)
Lemma QueryParams_Split r : QueryParams r = pairs_of (Split "&" (RawQuery r)).
Proof. apply parse_query_Split. lia. Qed.

End Echo.
