(* ===== verification/World.v ===== *)
(** * World: a concrete operating system for the handlers

    The handlers are written against two interfaces, [GoTime.Clock]
    (with its laws [GoTime.ClockLaws]) and [SystemInfo.Host].  [World]
    implements both: the clock keeps its last monotonic reading, its
    wall-clock reading, and the future ticks, each tick advancing the
    wall clock by any amount (the wall clock may be set back) and the
    monotonic clock by a non-negative amount; with no tick left the
    clock reads the same instant again.  The monotonic counter is an
    [int64] of nanoseconds; a tick that would pass [int64_max] stops
    there (the counter starts near zero at boot and needs 292 years to
    get there).  The host facts do not change while the program runs.

    The instance proofs discharge the clock laws; the handlers'
    theorems are then available on [World] and their witnesses are
    evaluated on it. *)

From Stdlib Require Import ZArith String List Lia Bool.
From S2P Require Import Prelude GoTime SystemInfo.
Import ListNotations.
Open Scope Z_scope.

Module World.
Import GoTime SystemInfo.

Record World := mkWorld {
  w_last : Z;                 (** last monotonic reading, ns *)
  w_wall : Z;                 (** wall clock, Unix ns *)
  w_ticks : list (Z * N);     (** future (wall step, monotonic step) *)
  w_host : HostFacts
}.

Definition world_now (w : World) : Time * World :=
  match w_ticks w with
  | [] => (mkTime (w_wall w) (Some (w_last w)), w)
  | (dw, dm) :: rest =>
      let m := Z.max (w_last w) (Z.min int64_max (w_last w + Z.of_N dm)) in
      let wl := w_wall w + dw in
      (mkTime wl (Some m), mkWorld m wl rest (w_host w))
  end.

#[export] Instance World_Clock : Clock World := {
  now := world_now;
  last := w_last
}.

#[export] Instance World_Host : Host World := { host := w_host }.

#[export] Instance World_ClockLaws : ClockLaws World.
Proof.
  split; intros w; cbn [now last World_Clock]; unfold world_now;
    destruct (w_ticks w) as [|[dw dm] rest]; simpl; try reflexivity; try lia;
    rewrite ?in_int64_iff; unfold int64_min, int64_max; lia.
Qed.

End World.
