(* ===== verification/Handlers.v ===== *)
(** * Handlers: the response structs and the two handlers (main.go:16-64, 106-153)

    Each Go struct is a [Record] in a module of its name, so that the
    field names of the source ([Path], [Method], [Description],
    [UptimeSeconds], ...) are kept although several structs share them.
    A handler is a computation of the state monad [M W] over a world
    that provides the clock ([GoTime.Clock]) and the operating system
    ([SystemInfo.Host]); it reads them in the order the Go code does:
    [mainHandler] reads the clock for [getUptime], then the system
    facts, then the clock again for [CurrentTime]; [healthHandler]
    reads the clock for [getUptime], then again for [Timestamp].

    [c.JSON(http.StatusOK, v)] is modelled by the [Response] it starts:
    the status code and the value [v] given to the JSON serializer.  A
    panic inside a handler (the [parts[0]] of [getUptime] is the only
    operation that could panic) is caught by Echo's [Recover]
    middleware, registered in [main], and answered with status 500 and
    Echo's error body; [recovered_panic] is that answer.

    The theorems are proved against the interfaces, for every lawful
    clock and every host: both handlers answer 200; the health body says
    ["healthy"] and carries the uptime of the first clock read; the
    info body carries the constant service descriptor, the two
    endpoints, the request's method, path and user agent, the timezone
    ["UTC"], a timestamp taken after the uptime; and a failing hostname
    lookup still gives 200 with an empty hostname. *)

From Stdlib Require Import ZArith String Ascii List Lia Bool.
From S2P Require Import Prelude GoFmt GoTime TimeFormat Uptime SystemInfo Echo World.
Import ListNotations.
Open Scope Z_scope.
Open Scope go_scope.

Module Handlers.
Import GoTime TimeFormat Uptime SystemInfo Echo World.

(** ** The structs of main.go *)

Module Service.
Record Service := mkService {
  Name : string; Version : string; Description : string; Framework : string }.
End Service.

Module Runtime.
Record Runtime := mkRuntime {
  UptimeSeconds : Z; UptimeHuman : string; CurrentTime : string; Timezone : string }.
End Runtime.

Module Request.
Record Request := mkRequest {
  ClientIP : string; UserAgent : string; Method : string; Path : string }.
End Request.

Module Endpoint.
Record Endpoint := mkEndpoint { Path : string; Method : string; Description : string }.
End Endpoint.

Module ServiceInfo.
Record ServiceInfo := mkServiceInfo {
  Service : Service.Service;
  System : System;
  Runtime : Runtime.Runtime;
  Request : Request.Request;
  Endpoints : list Endpoint.Endpoint }.
End ServiceInfo.

Module HealthResponse.
Record HealthResponse := mkHealthResponse {
  Status : string; Timestamp : string; UptimeSeconds : Z }.
End HealthResponse.

(** ** Responses *)

(** The value handed to [c.JSON], or Echo's error body. *)
Inductive Payload :=
| InfoPayload (info : ServiceInfo.ServiceInfo)
| HealthPayload (h : HealthResponse.HealthResponse)
| ErrorPayload (message : string).

Record Response := mkResponse { Code : Z; Body : Payload }.

Definition StatusOK : Z := 200.
Definition StatusInternalServerError : Z := 500.

(** What Echo's [Recover] middleware answers for a panic. *)
Definition recovered_panic : Response :=
  mkResponse StatusInternalServerError (ErrorPayload "Internal Server Error").

(** ** The constants of [mainHandler] *)

(** main.go:116-121. *)
Definition service_descriptor : Service.Service :=
  Service.mkService "devops-info-service" "1.0.0" "DevOps course info service" "Go (Echo)".

(** main.go:135-138. *)
Definition endpoints : list Endpoint.Endpoint :=
  [Endpoint.mkEndpoint "/" "GET" "Service information";
   Endpoint.mkEndpoint "/health" "GET" "Health check"].

(** ** The handlers *)

Section Handlers.
Context {W : Type} `{Clock W} `{Host W}.

(** [mainHandler] (main.go:106-142). *)
Definition mainHandler (startTime : Time) (r : HttpRequest) : M W Response :=
  up <- getUptime startTime ;;
  match up with
  | None => ret recovered_panic
  | Some (uptimeSeconds, uptimeHuman) =>
      systemInfo <- getSystemInfo ;;
      let clientIP := Echo.clientIP r in
      t <- Now ;;
      ret (mkResponse StatusOK (InfoPayload
        {| ServiceInfo.Service := service_descriptor;
           ServiceInfo.System := systemInfo;
           ServiceInfo.Runtime :=
             {| Runtime.UptimeSeconds := uptimeSeconds;
                Runtime.UptimeHuman := uptimeHuman;
                Runtime.CurrentTime := FormatRFC3339 t;
                Runtime.Timezone := "UTC" |};
           ServiceInfo.Request :=
             {| Request.ClientIP := clientIP;
                Request.UserAgent := Echo.UserAgent r;
                Request.Method := Echo.Method r;
                Request.Path := Echo.URLPath r |};
           ServiceInfo.Endpoints := endpoints |}))
  end.

(** [healthHandler] (main.go:144-153). *)
Definition healthHandler (startTime : Time) : M W Response :=
  up <- getUptime startTime ;;
  match up with
  | None => ret recovered_panic
  | Some (uptimeSeconds, _) =>
      t <- Now ;;
      ret (mkResponse StatusOK (HealthPayload
        {| HealthResponse.Status := "healthy";
           HealthResponse.Timestamp := FormatRFC3339 t;
           HealthResponse.UptimeSeconds := uptimeSeconds |}))
  end.

(** ** Theorems *)

Lemma now_eval w : Now w = now w.
Proof. reflexivity. Qed.

(** One run of [healthHandler]: two clock reads. *)
Lemma healthHandler_eval startTime w :
  let w1 := snd (now w) in
  healthHandler startTime w =
    (mkResponse StatusOK (HealthPayload
       {| HealthResponse.Status := "healthy";
          HealthResponse.Timestamp := FormatRFC3339 (fst (now w1));
          HealthResponse.UptimeSeconds := whole_seconds (Sub (fst (now w)) startTime) |}),
     snd (now w1)).
Proof.
  cbv zeta. unfold healthHandler. go_run. rewrite getUptime_eval.
  destruct (uptime_of_seconds_total (whole_seconds (Sub (fst (now w)) startTime)))
    as [human ->].
  rewrite now_eval. destruct (now (snd (now w))). reflexivity.
Qed.

(** C1: [GET /health] always answers 200 with the body
    [{"status": "healthy", "timestamp": T, "uptime_seconds": S}], where
    [S] is [int(time.Since(startTime).Seconds())] at the first clock
    read and [T] the RFC 3339 form of the second clock read; the handler
    reads the clock exactly twice. *)
Theorem healthHandler_ok startTime w :
  let w1 := snd (now w) in
  healthHandler startTime w =
    (mkResponse 200 (HealthPayload
       {| HealthResponse.Status := "healthy";
          HealthResponse.Timestamp := FormatRFC3339 (fst (now w1));
          HealthResponse.UptimeSeconds := whole_seconds (Sub (fst (now w)) startTime) |}),
     snd (now w1)).
Proof. exact (healthHandler_eval startTime w). Qed.

(** One run of [mainHandler]: the clock is read, then the host, then
    the clock again. *)
Lemma mainHandler_eval startTime r w :
  let w1 := snd (now w) in
  let s := whole_seconds (Sub (fst (now w)) startTime) in
  exists human, uptime_of_seconds s = Some (s, human) /\
  mainHandler startTime r w =
    (mkResponse StatusOK (InfoPayload
       {| ServiceInfo.Service := service_descriptor;
          ServiceInfo.System := getSystemInfo_of (host w1);
          ServiceInfo.Runtime :=
            {| Runtime.UptimeSeconds := s; Runtime.UptimeHuman := human;
               Runtime.CurrentTime := FormatRFC3339 (fst (now w1));
               Runtime.Timezone := "UTC" |};
          ServiceInfo.Request :=
            {| Request.ClientIP := Echo.clientIP r; Request.UserAgent := Echo.UserAgent r;
               Request.Method := Echo.Method r; Request.Path := Echo.URLPath r |};
          ServiceInfo.Endpoints := endpoints |}),
     snd (now w1)).
Proof.
  cbv zeta. destruct (uptime_of_seconds_total (whole_seconds (Sub (fst (now w)) startTime)))
    as [human Hh].
  exists human. split; [exact Hh|].
  unfold mainHandler. go_run. rewrite getUptime_eval, Hh.
  unfold getSystemInfo. go_run. rewrite now_eval.
  destruct (now (snd (now w))). reflexivity.
Qed.

(** C2: [GET /] always answers 200 with a [ServiceInfo] whose service
    descriptor is the constant of main.go:116-121, whose system facts
    are those of the host, whose runtime carries the uptime of the first
    clock read, its human form, the RFC 3339 form of a later clock read
    and the timezone ["UTC"], whose request facts are the client address
    of [clientIP], the [User-Agent] header, the method and the path of
    the request, and whose endpoints are exactly [/] and [/health]. *)
Theorem mainHandler_ok startTime r w :
  let w1 := snd (now w) in
  let s := whole_seconds (Sub (fst (now w)) startTime) in
  exists human, uptime_of_seconds s = Some (s, human) /\
  mainHandler startTime r w =
    (mkResponse 200 (InfoPayload
       {| ServiceInfo.Service :=
            Service.mkService "devops-info-service" "1.0.0" "DevOps course info service"
              "Go (Echo)";
          ServiceInfo.System := getSystemInfo_of (host w1);
          ServiceInfo.Runtime :=
            {| Runtime.UptimeSeconds := s; Runtime.UptimeHuman := human;
               Runtime.CurrentTime := FormatRFC3339 (fst (now w1));
               Runtime.Timezone := "UTC" |};
          ServiceInfo.Request :=
            {| Request.ClientIP := Echo.clientIP r; Request.UserAgent := Echo.UserAgent r;
               Request.Method := Echo.Method r; Request.Path := Echo.URLPath r |};
          ServiceInfo.Endpoints :=
            [Endpoint.mkEndpoint "/" "GET" "Service information";
             Endpoint.mkEndpoint "/health" "GET" "Health check"] |}),
     snd (now w1)).
Proof. exact (mainHandler_eval startTime r w). Qed.

(** C24: a failing hostname lookup does not make [GET /] fail: the
    answer is still 200, and its [system.hostname] is the empty string. *)
Theorem mainHandler_hostname_failure startTime r w :
  snd (os_Hostname (host (snd (now w)))) <> None ->
  exists info, fst (mainHandler startTime r w) = mkResponse 200 (InfoPayload info) /\
    Hostname (ServiceInfo.System info) = ""%string.
Proof.
  intros Hfail. destruct (mainHandler_eval startTime r w) as (human & _ & ->).
  eexists. split; [reflexivity|]. cbn.
  rewrite getSystemInfo_hostname_failure by exact Hfail. reflexivity.
Qed.

End Handlers.

Example mainHandler_hostname_failure_witness :
  let w := World.mkWorld 0 0 [] (mkHostFacts None None "linux" "amd64" 4 "go1.22.0") in
  snd (os_Hostname (host (snd (now w)))) <> None /\
  exists info, fst (mainHandler (mkTime 0 (Some 0)) (mkRequest "GET" "/" "" [] "localhost:8080" "10.0.0.7:5000" "/") w)
    = mkResponse 200 (InfoPayload info) /\ Hostname (ServiceInfo.System info) = ""%string.
Proof.
  cbv zeta. split; [vm_compute; discriminate|].
  apply mainHandler_hostname_failure. vm_compute. discriminate.
Defined.

End Handlers.
