(* ===== verification/Server.v ===== *)
(** * Server: [main] and the server's life (main.go:14, 155-177)

    [var startTime = time.Now()] (main.go:14) reads the clock once when
    the package is initialised.  [main] creates the Echo instance,
    wraps it in the [Logger] and [Recover] middleware, registers [GET /]
    and [GET /health] (main.go:161-162), reads [PORT] and [HOST] with the
    defaults ["8080"] and ["0.0.0.0"] (main.go:164-172) and listens on
    [fmt.Sprintf("%s:%s", host, port)] (main.go:174-176).

    - [routes] is the route table of main.go:161-162 and [dispatch]
      Echo's router on it: a registered path and method find their
      handler, a registered path with another method answers 405, any
      other path 404.
    - The environment is a [gmap string string] ([os.Getenv] answers
      [""] for an unset variable); [listen_addr] is main.go:164-174.
    - [boot] is the package initialisation and [main]; [serve] handles
      one request; [reachable] is the set of (server, world) states of
      any sequence of requests handled one after the other.  The server
      record never changes after [boot]: [startTime] is read-only.

    The theorems: the route table answers exactly the two routes; the
    listen address splits back into the host and port for a plain host,
    and cannot be split (so [net.Listen] fails) for an IPv6 literal host
    (a finding); in every reachable state the duration
    [time.Since(startTime)] is non-negative, and it never decreases from
    one request to the next. *)

From Stdlib Require Import ZArith String Ascii List Lia Bool.
From stdpp Require Import gmap strings.
From S2P Require Import Prelude GoTime Float64 TimeFormat Rfc3339 Uptime SystemInfo Echo World Handlers.
Open Scope Z_scope.
Open Scope go_scope.

Module Server.
Import GoTime Float64 TimeFormat Rfc3339 Uptime SystemInfo Echo Handlers.

(** ** Routes *)

Inductive HandlerId := MainHandler | HealthHandler.

Record Route := mkRoute { route_method : string; route_path : string; route_handler : HandlerId }.

(** main.go:161-162. *)
Definition routes : list Route :=
  [mkRoute "GET" "/" MainHandler; mkRoute "GET" "/health" HealthHandler].

Inductive Dispatch := Found (h : HandlerId) | MethodNotAllowed | NotFound.

(** Echo's router on a table of static routes. *)
Definition dispatch (rs : list Route) (meth path : string) : Dispatch :=
  match List.find (fun r => String.eqb (route_path r) path && String.eqb (route_method r) meth) rs with
  | Some r => Found (route_handler r)
  | None =>
      if List.existsb (fun r => String.eqb (route_path r) path) rs then MethodNotAllowed
      else NotFound
  end.

(** ** Configuration *)

(** [os.Getenv(key)]. *)
Definition Getenv (env : gmap string string) (key : string) : string :=
  match env !! key with Some v => v | None => ""%string end.

(** main.go:164-174. *)
Definition listen_addr (env : gmap string string) : string :=
  let port := Getenv env "PORT" in
  let port := if String.eqb port "" then "8080"%string else port in
  let host := Getenv env "HOST" in
  let host := if String.eqb host "" then "0.0.0.0"%string else host in
  (host ++ ":" ++ port)%string.

(** ** The running server *)

Record Server := mkServer { startTime : Time; srv_routes : list Route; addr : string }.

Section Run.
Context {W : Type} `{ClockLaws W} `{Host W}.

(** Package initialisation ([startTime], main.go:14) and [main]. *)
Definition boot (env : gmap string string) : M W Server :=
  t <- Now ;;
  ret (mkServer t routes (listen_addr env)).

Definition serve (srv : Server) (r : HttpRequest) : M W Response :=
  match dispatch (srv_routes srv) (Method r) (URLPath r) with
  | Found MainHandler => mainHandler (startTime srv) r
  | Found HealthHandler => healthHandler (startTime srv)
  | MethodNotAllowed => ret (mkResponse 405 (ErrorPayload "Method Not Allowed"))
  | NotFound => ret (mkResponse 404 (ErrorPayload "Not Found"))
  end.

Inductive reachable (env : gmap string string) : Server -> W -> Prop :=
| reach_boot w :
    in_int64 (last w) = true ->
    reachable env (fst (boot env w)) (snd (boot env w))
| reach_serve srv w r :
    reachable env srv w -> reachable env srv (snd (serve srv r w)).

(** The worlds a server goes through while it serves requests one after
    the other. *)
Inductive steps (srv : Server) (w : W) : W -> Prop :=
| steps_refl : steps srv w w
| steps_serve w' r : steps srv w w' -> steps srv w (snd (serve srv r w')).

(** A [GET /health] request. *)
Definition health_get (r : HttpRequest) : bool :=
  String.eqb (Method r) "GET" && String.eqb (URLPath r) "/health".

(** ** The clock along a run *)

Lemma now_last_mono w : last w <= last (snd (now w)).
Proof. apply now_advances. Qed.

Lemma now_last_int64 w : in_int64 (last w) = true -> in_int64 (last (snd (now w))) = true.
Proof. apply now_int64. Qed.

(** Serving a request moves the clock forward, to a reading within
    [int64], and a handler that runs reads it at least once. *)
Lemma serve_clock srv r w :
  let w' := snd (serve srv r w) in
  (w' = w \/ last (snd (now w)) <= last w') /\
  (in_int64 (last w) = true -> in_int64 (last w') = true).
Proof.
  cbv zeta. unfold serve.
  destruct (dispatch (srv_routes srv) (Method r) (URLPath r)) as [[|]| |].
  - destruct (mainHandler_eval (startTime srv) r w) as (human & _ & ->). simpl.
    split; [right; apply now_last_mono | intros; now do 2 apply now_last_int64].
  - rewrite healthHandler_eval. simpl.
    split; [right; apply now_last_mono | intros; now do 2 apply now_last_int64].
  - split; [left|]; reflexivity || auto.
  - split; [left|]; reflexivity || auto.
Qed.

Lemma boot_eval env w :
  boot env w = (mkServer (fst (now w)) routes (listen_addr env), snd (now w)).
Proof. unfold boot. go_run. rewrite now_eval. destruct (now w). reflexivity. Qed.

(** The invariant of reachable states: [startTime] holds a monotonic
    reading, no later than the clock's last reading, both in [int64]. *)
Lemma reachable_inv env srv w :
  reachable env srv w ->
  exists m, mono (startTime srv) = Some m /\ m <= last w /\
    in_int64 m = true /\ in_int64 (last w) = true.
Proof.
  induction 1 as [w Hw | srv w r _ (m & Hm & Hle & Hi & Hl)].
  - rewrite boot_eval. exists (last (snd (now w))). simpl.
    pose proof (now_int64 w Hw). repeat split; auto using now_mono; lia.
  - exists m. destruct (serve_clock srv r w) as [[Heq | Hge] Hint].
    + rewrite Heq. auto.
    + pose proof (now_last_mono w). repeat split; auto; lia.
Qed.

(** ** Theorems *)

(** C25: the route table of main.go:161-162 under Echo's router:
    [GET /] reaches [mainHandler], [GET /health] reaches
    [healthHandler], another method on either path answers 405 and any
    other path 404. *)
Theorem dispatch_routes meth path :
  dispatch routes meth path =
    if String.eqb path "/" then
      (if String.eqb meth "GET" then Found MainHandler else MethodNotAllowed)
    else if String.eqb path "/health" then
      (if String.eqb meth "GET" then Found HealthHandler else MethodNotAllowed)
    else NotFound.
Proof.
  unfold dispatch, routes. cbn [List.find List.existsb route_path route_method route_handler].
  rewrite (String.eqb_sym "/" path), (String.eqb_sym "/health" path),
    (String.eqb_sym "GET" meth).
  destruct (String.eqb path "/"), (String.eqb path "/health"), (String.eqb meth "GET");
    reflexivity.
Qed.

(** The listen address with plain host and port. *)
Definition plain (s : string) : bool :=
  negb (has_char ":"%char s || has_char "["%char s || has_char "]"%char s).

(** C26: the listen address of [main] splits back, as [net.Listen]
    splits it, into the host and the port: [HOST] and [PORT] when set,
    ["0.0.0.0"] and ["8080"] otherwise, for a host and a port without
    [':'], ['['] or [']']. *)
Theorem listen_addr_split env h p :
  Getenv env "HOST" = h -> Getenv env "PORT" = p -> plain h = true -> plain p = true ->
  SplitHostPort (listen_addr env) =
    Some (if String.eqb h "" then "0.0.0.0"%string else h,
          if String.eqb p "" then "8080"%string else p).
Proof.
  intros Hh Hp Ph Pp. unfold listen_addr. rewrite Hh, Hp.
  unfold plain in Ph, Pp. rewrite !negb_true_iff, !orb_false_iff in Ph, Pp.
  destruct Ph as [[Ph1 Ph2] Ph3], Pp as [[Pp1 Pp2] Pp3].
  apply SplitHostPort_plain; destruct (String.eqb_spec h ""), (String.eqb_spec p "");
    try assumption; try reflexivity; discriminate.
Qed.

Example listen_addr_split_witness :
  let env := <["PORT" := "5000"]> (∅ : gmap string string) in
  Getenv env "HOST" = "" /\ Getenv env "PORT" = "5000" /\
  SplitHostPort (listen_addr env) = Some ("0.0.0.0"%string, "5000"%string).
Proof.
  cbv zeta. split; [reflexivity|]. split; [reflexivity|].
  apply (listen_addr_split _ "" "5000"); reflexivity.
Defined.

Lemma last_index_byte_some c s :
  has_char c s = true -> exists j, last_index_byte c s = Some j.
Proof.
  induction s as [|x s IH]; simpl; intros Hs; [discriminate|].
  destruct (last_index_byte c s) as [j|]; [eauto|].
  destruct (Ascii.eqb x c) eqn:E; [eauto|].
  simpl in Hs. destruct (IH Hs) as [j Hj]. discriminate.
Qed.

(** A host that starts with [':'] gives an address that does not split. *)
Lemma listen_addr_colon env h' :
  Getenv env "HOST" = String ":" h' -> SplitHostPort (listen_addr env) = None.
Proof.
  intros Hh. unfold listen_addr. rewrite Hh. cbn [String.eqb].
  set (port := if String.eqb (Getenv env "PORT") "" then "8080"%string else Getenv env "PORT").
  set (rest := (h' ++ ":" ++ port)%string).
  assert (Hc : has_char ":" rest = true).
  { unfold rest. rewrite has_char_app. simpl. apply orb_true_r. }
  destruct (last_index_byte_some ":"%char rest Hc) as [j Hj].
  change (String ":" h' ++ ":" ++ port)%string with (String ":" rest).
  unfold SplitHostPort. cbn [last_index_byte]. rewrite Hj. reflexivity.
Qed.

(** C27: with an IPv6 literal for [HOST] (one that starts with [':'], as
    ["::"] or ["::1"]), [fmt.Sprintf("%s:%s", host, port)] gives an
    address [net.SplitHostPort] rejects ("too many colons"), so
    [e.Start] cannot listen: the address needs [net.JoinHostPort]. *)
Theorem listen_addr_ipv6 env h' :
  Getenv env "HOST" = String ":" h' -> SplitHostPort (listen_addr env) = None.
Proof. exact (listen_addr_colon env h'). Qed.

Example listen_addr_ipv6_witness :
  let env := <["HOST" := "::1"]> (<["PORT" := "8080"]> (∅ : gmap string string)) in
  Getenv env "HOST" = String ":" ":1" /\ SplitHostPort (listen_addr env) = None.
Proof. cbv zeta. split; [reflexivity | apply (listen_addr_ipv6 _ ":1"); reflexivity]. Defined.

Lemma Since_reading srv w m :
  mono (startTime srv) = Some m ->
  fst (Since (startTime srv) w) = subMono (last (snd (now w))) m.
Proof. intros Hm. rewrite Since_eval. simpl. unfold Sub. rewrite now_mono, Hm. reflexivity. Qed.

(** In every state the server reaches, [time.Since(startTime)] is
    non-negative: [startTime] is a monotonic reading taken at boot and
    every later reading is at least as large. *)
Lemma reachable_since_nonneg env srv w :
  reachable env srv w -> 0 <= fst (Since (startTime srv) w).
Proof.
  intros Hr. destruct (reachable_inv env srv w Hr) as (m & Hm & Hle & Hi & Hl).
  apply (Since_nonneg _ m); assumption.
Qed.

(** The duration [time.Since(startTime)] never decreases from one
    request to the next, whatever request is served in between. *)
Lemma since_monotone env srv w r :
  reachable env srv w ->
  fst (Since (startTime srv) w) <= fst (Since (startTime srv) (snd (serve srv r w))).
Proof.
  intros Hr. destruct (reachable_inv env srv w Hr) as (m & Hm & Hle & Hi & Hl).
  rewrite !(Since_reading srv _ m Hm).
  destruct (serve_clock srv r w) as [[Heq | Hge] Hint].
  - rewrite Heq. lia.
  - pose proof (now_last_mono (snd (serve srv r w))).
    apply subMono_mono_l; auto using now_last_int64; lia.
Qed.

Lemma subMono_range t u : subMono t u <= int64_max.
Proof.
  unfold subMono. pose proof (wrap64_range (t - u)).
  destruct (_ && _); [unfold maxDuration; lia|]. destruct (_ && _); unfold minDuration, int64_min in *; lia.
Qed.

Lemma reachable_since_range env srv w :
  reachable env srv w -> 0 <= fst (Since (startTime srv) w) <= int64_max.
Proof.
  intros Hr. split; [exact (reachable_since_nonneg env srv w Hr)|].
  destruct (reachable_inv env srv w Hr) as (m & Hm & _).
  rewrite (Since_reading srv w m Hm). apply subMono_range.
Qed.

(** Along the requests served after a reachable state, the states stay
    reachable and [time.Since(startTime)] does not decrease. *)
Lemma reachable_routes env srv w : reachable env srv w -> srv_routes srv = routes.
Proof. induction 1; [rewrite boot_eval; reflexivity | assumption]. Qed.

Lemma steps_since env srv w w' : reachable env srv w -> steps srv w w' ->
  reachable env srv w' /\ fst (Since (startTime srv) w) <= fst (Since (startTime srv) w').
Proof.
  intros Hr. induction 1 as [|w' r _ [Hr' Hle]]; [split; [exact Hr | lia]|].
  split; [apply reach_serve, Hr'|]. pose proof (since_monotone env srv w' r Hr'). lia.
Qed.

(** [GET /health] runs [healthHandler]: its uptime is
    [int(time.Since(startTime).Seconds())] at the first clock read, its
    timestamp the RFC 3339 form of the second. *)
Lemma serve_health srv r w : srv_routes srv = routes -> health_get r = true ->
  fst (serve srv r w) = mkResponse 200 (HealthPayload
    {| HealthResponse.Status := "healthy";
       HealthResponse.Timestamp := FormatRFC3339 (fst (now (snd (now w))));
       HealthResponse.UptimeSeconds := whole_seconds (fst (Since (startTime srv) w)) |}).
Proof.
  unfold health_get. rewrite andb_true_iff, !String.eqb_eq. intros Hroutes [Hm Hp].
  unfold serve. rewrite Hroutes, Hm, Hp. unfold dispatch, routes. cbn -[healthHandler].
  rewrite healthHandler_eval, Since_eval. reflexivity.
Qed.

(** C7: the contract of [GET /health] (spec 4.5 and 6): in every state
    the server reaches it answers 200 with status ["healthy"], a
    timestamp that is the RFC 3339 UTC form of an instant and parses
    back to that instant's Unix second (for the years 0 to 9999), and a
    non-negative [uptime_seconds]. *)
Theorem health_contract env srv w r : reachable env srv w -> health_get r = true ->
  exists h t, fst (serve srv r w) = mkResponse 200 (HealthPayload h) /\
    HealthResponse.Status h = "healthy"%string /\
    HealthResponse.Timestamp h = FormatRFC3339 t /\
    (four_digit_year t = true -> Rfc3339.parse (HealthResponse.Timestamp h) = Some (unix_seconds t)) /\
    0 <= HealthResponse.UptimeSeconds h.
Proof.
  intros Hr Hq. rewrite (serve_health srv r w (reachable_routes env srv w Hr) Hq).
  eexists _, _. split; [reflexivity|]. split; [reflexivity|]. split; [reflexivity|].
  cbn [HealthResponse.Timestamp HealthResponse.UptimeSeconds].
  split; [apply parse_FormatRFC3339|].
  pose proof (reachable_since_range env srv w Hr) as Hd.
  pose proof (whole_seconds_range _ Hd). pose proof (Z.div_pos (fst (Since (startTime srv) w)) Second).
  unfold Second in *. lia.
Qed.

(** C8: [uptime_seconds] never decreases from one [GET /health] to a
    later one, whatever requests the server answers in between. *)
Theorem health_uptime_monotone env srv w w' r r' :
  reachable env srv w -> health_get r = true -> health_get r' = true ->
  steps srv (snd (serve srv r w)) w' ->
  exists h h', fst (serve srv r w) = mkResponse 200 (HealthPayload h) /\
    fst (serve srv r' w') = mkResponse 200 (HealthPayload h') /\
    HealthResponse.UptimeSeconds h <= HealthResponse.UptimeSeconds h'.
Proof.
  intros Hr Hq Hq' Hs. pose proof (reachable_routes env srv w Hr) as Hroutes.
  rewrite (serve_health srv r w Hroutes Hq), (serve_health srv r' w' Hroutes Hq').
  eexists _, _. split; [reflexivity|]. split; [reflexivity|].
  cbn [HealthResponse.UptimeSeconds].
  pose proof (since_monotone env srv w r Hr) as Hm1.
  destruct (steps_since env srv _ w' (reach_serve env srv w r Hr) Hs) as [Hr' H2].
  pose proof (reachable_since_range env srv w Hr). pose proof (reachable_since_range env srv w' Hr').
  apply whole_seconds_le; lia.
Qed.

End Run.

Import World.

Definition demo_world : World.World :=
  World.mkWorld 1000 1762650000000000000 [(5000000000, 5000000000%N); (1, 1%N); (7, 7%N)]
    (mkHostFacts (Some "web-1") None "linux" "amd64" 4 "go1.22.0").

Definition health_request : HttpRequest := mkRequest "GET" "/health" "" [] "localhost:8080" "10.0.0.7:5000" "/health".

Example health_contract_witness :
  let srv := fst (boot ∅ demo_world) in
  let w := snd (boot ∅ demo_world) in
  health_get health_request = true /\
  exists h t, fst (serve srv health_request w) = mkResponse 200 (HealthPayload h) /\
    HealthResponse.Status h = "healthy"%string /\
    HealthResponse.Timestamp h = FormatRFC3339 t /\
    (four_digit_year t = true -> Rfc3339.parse (HealthResponse.Timestamp h) = Some (unix_seconds t)) /\
    0 <= HealthResponse.UptimeSeconds h.
Proof.
  cbv zeta. split; [reflexivity|]. apply (health_contract ∅ _ _ health_request).
  - apply reach_boot. reflexivity.
  - reflexivity.
Defined.

Example health_uptime_monotone_witness :
  let srv := fst (boot ∅ demo_world) in
  let w := snd (boot ∅ demo_world) in
  let w1 := snd (serve srv health_request w) in
  let w' := snd (serve srv (mkRequest "GET" "/" "" [] "localhost:8080" "10.0.0.8:6000" "/") w1) in
  steps srv w1 w' /\
  exists h h', fst (serve srv health_request w) = mkResponse 200 (HealthPayload h) /\
    fst (serve srv health_request w') = mkResponse 200 (HealthPayload h') /\
    HealthResponse.UptimeSeconds h <= HealthResponse.UptimeSeconds h'.
Proof.
  cbv zeta. split; [apply steps_serve, steps_refl|].
  apply (health_uptime_monotone ∅ _ _ _ health_request health_request).
  - apply reach_boot. reflexivity.
  - reflexivity.
  - reflexivity.
  - apply steps_serve, steps_refl.
Defined.

End Server.
