(* ===== verification/Startup.v ===== *)
(** * Startup: the steps of [main] (main.go:155-177)

    [main] builds the Echo instance in memory ([echo.New], two [e.Use]
    and two [e.GET], main.go:156-162), reads [PORT] and [HOST]
    (main.go:164-172), prints its banner line (main.go:175) and hands
    the address to [e.Logger.Fatal(e.Start(addr))] (main.go:176).

    - [EchoInstance] holds what [main] sets in an [*echo.Echo]: the
      middleware chain, in the order of [e.Use], and the routes, in the
      order of [e.GET]; [New], [Use] and [GET] are those three methods
      and [setup] is main.go:156-162.
    - [MainProg] is the tree of effects [main] performs after that:
      [os.Getenv], [fmt.Printf], [net.Listen] (its error, if any) and
      [http.Server.Serve], which blocks while the server runs and
      returns only with an error; [FatalE] is [e.Logger.Fatal], which
      logs its argument and calls [os.Exit(1)], so it has no
      continuation.  [Start] is Echo's [e.Start]: listen on the
      address, give back the error of a failed listen, or serve.
    - An [OS] answers the effects: the environment, the outcome of
      [net.Listen] on each address, and whether [Serve] ever returns.
      [exec] runs [main] against it to an [Outcome]: still serving,
      with what was printed and the address and instance served, or
      exited, with the status, what was printed and the fatal message.
      [exec] is structural on the tree: each effect is answered once.

    The theorems: [main] builds the route table [Server.routes] under
    the Logger and Recover middleware, prints its banner and then serves
    on [Server.listen_addr] or exits; it ends exactly when listening
    fails or [Serve] returns, and then always with status 1; and with
    an IPv6 literal host it exits 1 without serving, since [net.Listen]
    cannot split the address. *)

From Stdlib Require Import ZArith String Ascii List Lia Bool.
From stdpp Require Import gmap strings.
From S2P Require Import Prelude Echo Server.
Open Scope Z_scope.

Module Startup.
Import Echo Server.

(** ** The Echo instance *)

(** The middleware [main] installs (echo/middleware). *)
Inductive Middleware := Logger | Recover.

Record EchoInstance := mkEcho { middleware : list Middleware; router : list Route }.

(** [echo.New()]: no middleware, no route. *)
Definition New : EchoInstance := mkEcho [] [].

(** [e.Use(m)] appends [m] to the chain. *)
Definition Use (e : EchoInstance) (m : Middleware) : EchoInstance :=
  mkEcho (middleware e ++ [m]) (router e).

(** [e.GET(path, h)] adds the route [GET path]. *)
Definition GET (e : EchoInstance) (path : string) (h : HandlerId) : EchoInstance :=
  mkEcho (middleware e) (router e ++ [mkRoute "GET" path h]).

(** main.go:156-162. *)
Definition setup : EchoInstance :=
  let e := New in
  let e := Use e Logger in
  let e := Use e Recover in
  let e := GET e "/" MainHandler in
  GET e "/health" HealthHandler.

(** ** The effects of [main] *)

Inductive MainProg :=
| GetenvE (key : string) (k : string -> MainProg)
| PrintfE (out : string) (k : MainProg)
| ListenE (address : string) (k : option string -> MainProg)
| ServeE (address : string) (e : EchoInstance) (k : string -> MainProg)
| FatalE (msg : string).

(** [e.Start(address)]: [net.Listen("tcp", address)]; its error is
    returned, or the server serves on the listener until [Serve]
    returns its error. *)
Definition Start (e : EchoInstance) (address : string) (k : string -> MainProg) : MainProg :=
  ListenE address (fun r =>
    match r with
    | Some err => k err
    | None => ServeE address e k
    end).

Definition lf : string := String (ascii_of_nat 10) EmptyString.

(** main.go:155-177. *)
Definition main : MainProg :=
  let e := setup in
  GetenvE "PORT" (fun port =>
  let port := if String.eqb port "" then "8080"%string else port in
  GetenvE "HOST" (fun host =>
  let host := if String.eqb host "" then "0.0.0.0"%string else host in
  let addr := (host ++ ":" ++ port)%string in
  PrintfE ("Starting DevOps Info Service on " ++ addr ++ lf)%string
    (Start e addr FatalE))).

(** ** Running [main] *)

Record OS := mkOS {
  env : gmap string string;
  listen : string -> option string;
  serve_result : option string
}.

Inductive Outcome :=
| Serving (out : string) (address : string) (e : EchoInstance)
| Exited (code : Z) (out : string) (msg : string).

Definition printed (s : string) (o : Outcome) : Outcome :=
  match o with
  | Serving out a e => Serving (s ++ out) a e
  | Exited c out m => Exited c (s ++ out) m
  end.

Fixpoint exec (os : OS) (p : MainProg) : Outcome :=
  match p with
  | GetenvE key k => exec os (k (Getenv (env os) key))
  | PrintfE s k => printed s (exec os k)
  | ListenE a k => exec os (k (listen os a))
  | ServeE a e k =>
      match serve_result os with
      | None => Serving EmptyString a e
      | Some err => exec os (k err)
      end
  | FatalE msg => Exited 1 EmptyString msg
  end.

(** The line [main] prints before it starts the server. *)
Definition banner (os : OS) : string :=
  ("Starting DevOps Info Service on " ++ listen_addr (env os) ++ lf)%string.

(** ** Lemmas *)

Lemma exec_Start os e a k :
  exec os (Start e a k) =
    match listen os a with
    | Some err => exec os (k err)
    | None => match serve_result os with
              | None => Serving EmptyString a e
              | Some err => exec os (k err)
              end
    end.
Proof. unfold Start. cbn [exec]. destruct (listen os a); reflexivity. Qed.

Lemma exec_main_eq os :
  exec os main =
    printed (banner os)
      (match listen os (listen_addr (env os)) with
       | Some err => Exited 1 EmptyString err
       | None => match serve_result os with
                 | None => Serving EmptyString (listen_addr (env os)) setup
                 | Some err => Exited 1 EmptyString err
                 end
       end).
Proof. unfold main, banner. cbn [exec]. rewrite exec_Start. reflexivity. Qed.

(** ** Theorems *)

(** C17: [main] registers [GET /] and [GET /health], in that order, as
    the route table [Server.routes] the router dispatches on, behind
    the Logger and then the Recover middleware; it prints the banner
    with [Server.listen_addr] and, when listening succeeds and the
    server keeps running, serves that instance on that address. *)
Theorem main_serves os :
  router setup = routes /\ middleware setup = [Logger; Recover] /\
  (listen os (listen_addr (env os)) = None -> serve_result os = None ->
   exec os main = Serving (banner os) (listen_addr (env os)) setup).
Proof.
  split; [reflexivity|]. split; [reflexivity|].
  intros Hl Hs. rewrite exec_main_eq, Hl, Hs. cbn. rewrite string_app_nil_r. reflexivity.
Qed.

(** C14: [main] never returns normally: the process ends exactly when
    [net.Listen] fails or [Serve] returns, and then with status 1 after
    the banner, the message being the error [e.Start] returned. *)
Theorem main_terminates os :
  (forall c out msg, exec os main = Exited c out msg ->
     c = 1 /\ out = banner os /\
     (listen os (listen_addr (env os)) = Some msg \/
      (listen os (listen_addr (env os)) = None /\ serve_result os = Some msg))) /\
  ((exists c out msg, exec os main = Exited c out msg) <->
   (listen os (listen_addr (env os)) <> None \/ serve_result os <> None)).
Proof.
  rewrite exec_main_eq.
  destruct (listen os (listen_addr (env os))) as [e1|], (serve_result os) as [e2|];
    cbn [printed]; rewrite ?string_app_nil_r; split.
  all: try (intros c out msg [= <- <- <-]; split; [reflexivity | split; [reflexivity | intuition congruence]]).
  all: try (intros c out msg [=]).
  all: split; [intros (c & out & msg & E) | intros H]; try discriminate; eauto.
  all: try (left; congruence); try (right; congruence).
  destruct H as [H | H]; congruence.
Qed.

(** C18: with an IPv6 literal as [HOST] (one starting with [':']), an
    operating system whose [net.Listen] rejects the addresses
    [net.SplitHostPort] cannot split makes [main] exit with status 1,
    after the banner, without serving. *)
Theorem main_ipv6_exits os h' :
  (forall a, SplitHostPort a = None -> listen os a <> None) ->
  Getenv (env os) "HOST" = String ":" h' ->
  exists msg, exec os main = Exited 1 (banner os) msg.
Proof.
  intros Hlisten Hh. rewrite exec_main_eq.
  pose proof (Hlisten _ (listen_addr_colon _ _ Hh)) as Hl.
  destruct (listen os (listen_addr (env os))) as [err|]; [|congruence].
  exists err. cbn. rewrite string_app_nil_r. reflexivity.
Qed.

(** An operating system with [HOST=::1]: [net.Listen] fails on the
    addresses that do not split and succeeds on the others. *)
Definition ipv6_os : OS :=
  mkOS (<["HOST" := "::1"]> ∅)
    (fun a => match SplitHostPort a with
              | None => Some ("listen tcp: address " ++ a ++ ": too many colons in address")%string
              | Some _ => None
              end)
    None.

Example main_ipv6_exits_witness :
  (forall a, SplitHostPort a = None -> listen ipv6_os a <> None) /\
  Getenv (env ipv6_os) "HOST" = String ":" ":1" /\
  exists msg, exec ipv6_os main = Exited 1 (banner ipv6_os) msg.
Proof.
  assert (H : forall a, SplitHostPort a = None -> listen ipv6_os a <> None).
  { intros a Ha. cbn. rewrite Ha. discriminate. }
  split; [exact H|]. split; [reflexivity|].
  apply (main_ipv6_exits ipv6_os ":1"); [exact H | reflexivity].
Defined.

Example main_serves_witness :
  let os := mkOS ∅ (fun _ => None) None in
  listen os (listen_addr (env os)) = None /\ serve_result os = None /\
  exec os main = Serving (banner os) "0.0.0.0:8080" setup.
Proof.
  cbv zeta. split; [reflexivity|]. split; [reflexivity|].
  change "0.0.0.0:8080"%string with (listen_addr (env (mkOS ∅ (fun _ => None) None))).
  apply (proj2 (proj2 (main_serves (mkOS ∅ (fun _ => None) None)))); reflexivity.
Defined.

End Startup.
