(* ===== verification/Concurrency.v ===== *)
(** * Concurrency: requests served at the same time (spec 5)

    Echo's [net/http] server runs the handler of every request in a
    goroutine of its own, so the effects of concurrent handlers
    interleave.  A handler's only effects are its reads of the clock
    ([time.Now] in [getUptime] and in the handler's body) and of the host
    ([getSystemInfo]); no handler writes shared state, and [startTime]
    is read-only after initialisation.

    - [Prog] is a handler as a program over these two effects (a free
      monad): [ReadClock] and [ReadHost] suspend it until the effect is
      performed.  [mainHandlerP], [healthHandlerP] and [serveP] are
      main.go's handlers and Echo's dispatch written over [Prog], in the
      words of [Handlers] and [Server]; [run] performs a program's
      effects one after the other on a world, and [run (serveP srv r)]
      is [Server.serve srv r] ([run_serveP]).
    - The machine is generic in the program each request runs
      ([Section Machine], [handler : Server -> HttpRequest -> Prog R]):
      here [serveP], in [Logger] the chain with the Logger middleware.
      [Config] is a running server: the world, the requests received
      (numbered in arrival order), the handlers in flight, the answers
      sent and the log of effects in the order they happened.  [cstep]
      is one step of any interleaving: a request arrives, a handler in
      flight reads the clock or the host, or a handler returns;
      [creach] is the set of configurations of any interleaving after
      [boot].

    Every answer of a reachable configuration is the one its handler
    computes from the effects it performed itself ([creach_feeds]), the
    lemma the theorems build on.  The theorems: in every interleaving
    the [uptime_seconds] of two [GET /health] answers follow the order
    of their handlers' first clock reads; and no handler blocks: each
    performs at most three effects ([bounded]), so the scheduler
    [drain] answers every request in flight within four steps each. *)

From Stdlib Require Import ZArith String List Lia Bool.
From stdpp Require Import gmap strings.
From S2P Require Import Prelude GoTime Float64 TimeFormat Uptime SystemInfo Echo World Handlers Server.
Import ListNotations.
Open Scope Z_scope.

Module Concurrency.
Import GoTime Float64 TimeFormat SystemInfo Echo Handlers Server.

(** ** Handlers as programs over their effects *)

Inductive Prog (A : Type) : Type :=
| Ret (a : A)
| ReadClock (k : Time -> Prog A)
| ReadHost (k : HostFacts -> Prog A).
Arguments Ret {A} a.
Arguments ReadClock {A} k.
Arguments ReadHost {A} k.

Fixpoint bindP {A B} (p : Prog A) (k : A -> Prog B) : Prog B :=
  match p with
  | Ret a => k a
  | ReadClock f => ReadClock (fun t => bindP (f t) k)
  | ReadHost f => ReadHost (fun h => bindP (f h) k)
  end.

Declare Scope prog_scope.
Delimit Scope prog_scope with prog.
Notation "x <- p ;; k" := (bindP p (fun x => k))
  (at level 100, p at next level, right associativity) : prog_scope.
Local Open Scope prog_scope.

(** [time.Now()]. *)
Definition NowP : Prog Time := ReadClock Ret.

(** [time.Since(t)]. *)
Definition SinceP (t : Time) : Prog Duration := n <- NowP ;; Ret (Sub n t).

(** [getUptime] (main.go:66-92). *)
Definition getUptimeP (startTime : Time) : Prog (option (Z * string)) :=
  delta <- SinceP startTime ;; Ret (Uptime.uptime_of_seconds (whole_seconds delta)).

(** [getSystemInfo] (main.go:94-104). *)
Definition getSystemInfoP : Prog System := ReadHost (fun h => Ret (getSystemInfo_of h)).

(** [mainHandler] (main.go:106-142). *)
Definition mainHandlerP (startTime : Time) (r : HttpRequest) : Prog Response :=
  up <- getUptimeP startTime ;;
  match up with
  | None => Ret recovered_panic
  | Some (uptimeSeconds, uptimeHuman) =>
      systemInfo <- getSystemInfoP ;;
      let clientIP := Echo.clientIP r in
      t <- NowP ;;
      Ret (mkResponse StatusOK (InfoPayload
        {| ServiceInfo.Service := service_descriptor;
           ServiceInfo.System := systemInfo;
           ServiceInfo.Runtime :=
             {| Runtime.UptimeSeconds := uptimeSeconds;
                Runtime.UptimeHuman := uptimeHuman;
                Runtime.CurrentTime := FormatRFC3339 t;
                Runtime.Timezone := "UTC" |};
           ServiceInfo.Request :=
             {| Request.ClientIP := clientIP;
                Request.UserAgent := Echo.UserAgent r;
                Request.Method := Echo.Method r;
                Request.Path := Echo.URLPath r |};
           ServiceInfo.Endpoints := endpoints |}))
  end.

(** [healthHandler] (main.go:144-153). *)
Definition healthHandlerP (startTime : Time) : Prog Response :=
  up <- getUptimeP startTime ;;
  match up with
  | None => Ret recovered_panic
  | Some (uptimeSeconds, _) =>
      t <- NowP ;;
      Ret (mkResponse StatusOK (HealthPayload
        {| HealthResponse.Status := "healthy";
           HealthResponse.Timestamp := FormatRFC3339 t;
           HealthResponse.UptimeSeconds := uptimeSeconds |}))
  end.

(** Echo's router and the handler it runs, as [Server.serve]. *)
Definition serveP (srv : Server) (r : HttpRequest) : Prog Response :=
  match dispatch (srv_routes srv) (Method r) (URLPath r) with
  | Found MainHandler => mainHandlerP (startTime srv) r
  | Found HealthHandler => healthHandlerP (startTime srv)
  | MethodNotAllowed => Ret (mkResponse 405 (ErrorPayload "Method Not Allowed"))
  | NotFound => Ret (mkResponse 404 (ErrorPayload "Not Found"))
  end.

(** ** Interleavings *)

(** An effect a handler performed, with what it read. *)
Inductive Event := EClock (t : Time) | EHost (h : HostFacts).

(** A program resumed with the readings [evs], in order; [None] when a
    reading does not answer the effect the program waits for. *)
Fixpoint feed {A} (p : Prog A) (evs : list Event) {struct evs} : option (Prog A) :=
  match evs with
  | [] => Some p
  | e :: evs' =>
      match p, e with
      | ReadClock k, EClock t => feed (k t) evs'
      | ReadHost k, EHost h => feed (k h) evs'
      | _, _ => None
      end
  end.

(** The effects of the handler of request [i] in a log. *)
Definition events_of (i : nat) (l : list (nat * Event)) : list Event :=
  map snd (filter (fun e => Nat.eqb (fst e) i) l).

(** A program that performs at most [n] effects before it returns. *)
Inductive bounded {A} : nat -> Prog A -> Prop :=
| bounded_ret n a : bounded n (Ret a)
| bounded_clock n k : (forall t, bounded n (k t)) -> bounded (S n) (ReadClock k)
| bounded_host n k : (forall h, bounded n (k h)) -> bounded (S n) (ReadHost k).

Section Interleaving.
Context {W : Type} `{ClockLaws W} `{Host W}.

(** A program run alone: its effects performed one after the other. *)
Fixpoint run {A} (p : Prog A) : M W A :=
  match p with
  | Ret a => ret a
  | ReadClock k => fun w => let (t, w') := now w in run (k t) w'
  | ReadHost k => fun w => run (k (host w)) w
  end.


(** The readings a program takes when it runs alone on [w]. *)
Fixpoint events_run {A} (p : Prog A) (w : W) : list Event :=
  match p with
  | Ret _ => []
  | ReadClock k => let (t, w') := now w in EClock t :: events_run (k t) w'
  | ReadHost k => EHost (host w) :: events_run (k (host w)) w
  end.

(** The machine runs, for each request, the program [handler srv r]
    answering an [R]: [serveP], the handlers as Echo's router calls
    them, or the whole chain of middleware around it. *)
Section Machine.
Context {R : Type} (handler : Server -> HttpRequest -> Prog R).

(** A running server: request [i] is the [i]-th of [received]; a
    handler in flight is the rest of its program. *)
Record Config := mkConfig {
  world : W;
  received : list HttpRequest;
  inflight : list (nat * Prog R);
  answered : list (nat * R);
  log : list (nat * Event)
}.

Inductive cstep (srv : Server) : Config -> Config -> Prop :=
| cs_arrive c r :
    cstep srv c (mkConfig (world c) (received c ++ [r])
                   (inflight c ++ [(length (received c), handler srv r)]) (answered c) (log c))
| cs_clock c pre i k post :
    inflight c = pre ++ (i, ReadClock k) :: post ->
    cstep srv c (mkConfig (snd (now (world c))) (received c)
                   (pre ++ (i, k (fst (now (world c)))) :: post) (answered c)
                   (log c ++ [(i, EClock (fst (now (world c))))]))
| cs_host c pre i k post :
    inflight c = pre ++ (i, ReadHost k) :: post ->
    cstep srv c (mkConfig (world c) (received c) (pre ++ (i, k (host (world c))) :: post)
                   (answered c) (log c ++ [(i, EHost (host (world c)))]))
| cs_return c pre i resp post :
    inflight c = pre ++ (i, Ret resp) :: post ->
    cstep srv c (mkConfig (world c) (received c) (pre ++ post) (answered c ++ [(i, resp)]) (log c)).

Inductive creach (env : gmap string string) (srv : Server) : Config -> Prop :=
| creach_boot w :
    in_int64 (last w) = true -> srv = fst (boot env w) ->
    creach env srv (mkConfig (snd (boot env w)) [] [] [] [])
| creach_step c c' : creach env srv c -> cstep srv c c' -> creach env srv c'.

(** A schedule: a request arrives, or the handler at position [n] of
    those in flight performs its next effect or returns. *)
Inductive Action := Arrive (r : HttpRequest) | Resume (n : nat).

(** One action of a schedule; [None] when no handler is at [n]. *)
Definition exec (srv : Server) (c : Config) (act : Action) : option Config :=
  match act with
  | Arrive r =>
      Some (mkConfig (world c) (received c ++ [r])
              (inflight c ++ [(length (received c), handler srv r)]) (answered c) (log c))
  | Resume n =>
      match nth_error (inflight c) n with
      | None => None
      | Some (i, p) =>
          let pre := firstn n (inflight c) in
          let post := skipn (S n) (inflight c) in
          match p with
          | Ret resp => Some (mkConfig (world c) (received c) (pre ++ post) (answered c ++ [(i, resp)]) (log c))
          | ReadClock k =>
              Some (mkConfig (snd (now (world c))) (received c)
                      (pre ++ (i, k (fst (now (world c)))) :: post) (answered c)
                      (log c ++ [(i, EClock (fst (now (world c))))]))
          | ReadHost k =>
              Some (mkConfig (world c) (received c) (pre ++ (i, k (host (world c))) :: post)
                      (answered c) (log c ++ [(i, EHost (host (world c)))]))
          end
      end
  end.

Fixpoint exec_all (srv : Server) (c : Config) (acts : list Action) : option Config :=
  match acts with
  | [] => Some c
  | act :: acts' => match exec srv c act with Some c' => exec_all srv c' acts' | None => None end
  end.

(** A clock reading of the log is a monotonic reading in [int64]
    between [m0] and [L]. *)
Definition reading_in (m0 L : Z) (e : nat * Event) : Prop :=
  match snd e with
  | EClock t => exists m, mono t = Some m /\ m0 <= m <= L /\ in_int64 m = true
  | EHost _ => True
  end.

(** The clock reading of [e] is no later than that of [e']. *)
Definition before (e e' : nat * Event) : Prop :=
  match snd e, snd e' with
  | EClock t, EClock u => forall m n, mono t = Some m -> mono u = Some n -> m <= n
  | _, _ => True
  end.

(** The clock readings of a log, in the order it lists them, never go back. *)
Fixpoint sorted_log (l : list (nat * Event)) : Prop :=
  match l with
  | [] => True
  | e :: l' => Forall (before e) l' /\ sorted_log l'
  end.

(** The scheduler that always resumes the oldest handler in flight,
    until none is left or [fuel] runs out. *)
Fixpoint drain (srv : Server) (fuel : nat) (c : Config) : option Config :=
  match inflight c with
  | [] => Some c
  | _ =>
      match fuel with
      | O => None
      | S f => match exec srv c (Resume 0) with Some c' => drain srv f c' | None => None end
      end
  end.

(** The request numbers of the handlers in flight and of the answers. *)
Definition ids (c : Config) : list nat := map fst (inflight c) ++ map fst (answered c).

(** Handler [i] of [rcv] has become [p] after the effects of [l]. *)
Definition feeds (srv : Server) (rcv : list HttpRequest) (l : list (nat * Event)) (i : nat)
    (p : Prog R) : Prop :=
  exists r, nth_error rcv i = Some r /\ feed (handler srv r) (events_of i l) = Some p.

(** ** Running a program alone *)

Lemma run_bind {A B} (p : Prog A) (k : A -> Prog B) w :
  run (bindP p k) w = let (a, w') := run p w in run (k a) w'.
Proof.
  revert w. induction p as [a | f IH | f IH]; intros w; cbn [bindP run]; [reflexivity| |apply IH].
  destruct (now w) as [t w']. apply IH.
Qed.

Lemma run_getUptimeP startTime w : run (getUptimeP startTime) w = Uptime.getUptime startTime w.
Proof. unfold getUptimeP, SinceP, NowP. rewrite run_bind, Uptime.getUptime_eval. cbn. destruct (now w). reflexivity. Qed.

(** Run alone, [mainHandlerP] is [Handlers.mainHandler]. *)
Lemma run_mainHandlerP startTime r w : run (mainHandlerP startTime r) w = mainHandler startTime r w.
Proof.
  unfold mainHandlerP, mainHandler. rewrite run_bind, run_getUptimeP. unfold bind at 1.
  destruct (Uptime.getUptime startTime w) as [[[s human]|] w1]; [|reflexivity].
  cbn [bindP run getSystemInfoP NowP]. go_run. unfold getSystemInfo. go_run. unfold Now.
  destruct (now w1). reflexivity.
Qed.

Lemma run_healthHandlerP startTime w : run (healthHandlerP startTime) w = healthHandler startTime w.
Proof.
  unfold healthHandlerP, healthHandler. rewrite run_bind, run_getUptimeP. unfold bind at 1.
  destruct (Uptime.getUptime startTime w) as [[[s human]|] w1]; [|reflexivity].
  cbn [bindP run NowP]. go_run. unfold Now. destruct (now w1). reflexivity.
Qed.

(** Run alone, the program of a request is [Server.serve]. *)
Lemma run_serveP srv r w : run (serveP srv r) w = serve srv r w.
Proof.
  unfold serveP, serve. destruct (dispatch _ _ _) as [[|]| |];
    [apply run_mainHandlerP | apply run_healthHandlerP | reflexivity | reflexivity].
Qed.

(** ** The requests' numbers *)

Lemma map_fst_update {A} (pre post : list (nat * A)) i (x y : A) :
  map fst (pre ++ (i, x) :: post) = map fst (pre ++ (i, y) :: post).
Proof. rewrite !map_app. reflexivity. Qed.


Lemma in_map_fst_middle {A} (pre post : list (nat * A)) i x : In i (map fst (pre ++ (i, x) :: post)).
Proof. rewrite map_app, in_app_iff. right. left. reflexivity. Qed.

Lemma ids_return_perm {A B} (pre post : list (nat * A)) (ans : list (nat * B)) i x y :
  map fst (pre ++ post) ++ map fst (ans ++ [(i, y)]) ≡ₚ map fst (pre ++ (i, x) :: post) ++ map fst ans.
Proof. rewrite !map_app. cbn. solve_Permutation. Qed.

(** Every handler and every answer belongs to a distinct request that
    was received, and so does every effect of the log. *)
Lemma creach_ids env srv c : creach env srv c ->
  NoDup (ids c) /\ (forall i, In i (ids c) -> (i < length (received c))%nat) /\
  (forall e, In e (log c) -> (fst e < length (received c))%nat).
Proof.
  unfold ids. induction 1 as [w _ _ | c c' _ (Hnd & Hids & Hlog) Hs].
  - cbn. split; [constructor|]. split; intros; contradiction.
  - destruct Hs as [c r | c pre i k post E | c pre i k post E | c pre i resp post E]; cbn;
      rewrite ?E in *; rewrite ?length_app in *.
    + split; [|split].
      * rewrite map_app. cbn.
        assert (Hp : (map fst (inflight c) ++ [length (received c)]) ++ map fst (answered c) ≡ₚ
                     length (received c) :: map fst (inflight c) ++ map fst (answered c))
          by (rewrite <- app_assoc; symmetry; apply Permutation_middle).
        rewrite Hp. apply NoDup_cons; split; [intros Hin; apply list_elem_of_In in Hin; specialize (Hids _ Hin); lia | exact Hnd].
      * intros j. rewrite map_app, <- app_assoc, in_app_iff. cbn. intros [Hj|[<-|Hj]];
          [specialize (Hids j (in_or_app _ _ _ (or_introl Hj)))
          | | specialize (Hids j (in_or_app _ _ _ (or_intror Hj)))]; lia.
      * intros e He. specialize (Hlog e He). lia.
    + rewrite (map_fst_update pre post i (k _) (ReadClock k)). split; [exact Hnd|]. split; [exact Hids|].
      intros e. rewrite in_app_iff. intros [He|[<-|[]]]; [exact (Hlog e He)|].
      apply Hids, in_or_app. left. apply in_map_fst_middle.
    + rewrite (map_fst_update pre post i (k _) (ReadHost k)). split; [exact Hnd|]. split; [exact Hids|].
      intros e. rewrite in_app_iff. intros [He|[<-|[]]]; [exact (Hlog e He)|].
      apply Hids, in_or_app. left. apply in_map_fst_middle.
    + rewrite (ids_return_perm pre post (answered c) i (Ret resp) resp). split; [exact Hnd|].
      split; [intros j Hj; apply Hids; rewrite <- list_elem_of_In in *; by rewrite <- ids_return_perm|].
      exact Hlog.
Qed.

(** ** Each handler sees only its own effects *)

Lemma feed_app {A} (p : Prog A) evs e :
  feed p (evs ++ [e]) = match feed p evs with Some q => feed q [e] | None => None end.
Proof.
  revert p. induction evs as [|e' evs IH]; intros p; [reflexivity|].
  destruct p, e'; cbn [app feed]; try apply IH; reflexivity.
Qed.

Lemma events_of_snoc i l j e :
  events_of i (l ++ [(j, e)]) = events_of i l ++ (if Nat.eqb j i then [e] else []).
Proof. unfold events_of. rewrite filter_app, map_app. cbn. destruct (Nat.eqb j i); reflexivity. Qed.

Lemma events_of_fresh n l : (forall e, In e l -> (fst e < n)%nat) -> events_of n l = [].
Proof.
  intros Hl. unfold events_of. induction l as [|[j e] l IH]; [reflexivity|]. cbn.
  destruct (Nat.eqb_spec j n) as [->|_]; [specialize (Hl _ (or_introl eq_refl)); cbn in Hl; lia|].
  apply IH. intros e' He'. apply Hl. right. exact He'.
Qed.

Lemma feeds_other srv rcv l i j e p : j <> i -> feeds srv rcv l j p -> feeds srv rcv (l ++ [(i, e)]) j p.
Proof.
  intros Hji (r & Hr & Hf). exists r. split; [exact Hr|].
  rewrite events_of_snoc. destruct (Nat.eqb_spec i j); [congruence|]. rewrite app_nil_r. exact Hf.
Qed.

Lemma feeds_self srv rcv l i e p q :
  feeds srv rcv l i p -> feed p [e] = Some q -> feeds srv rcv (l ++ [(i, e)]) i q.
Proof.
  intros (r & Hr & Hf) Hq. exists r. split; [exact Hr|].
  rewrite events_of_snoc, Nat.eqb_refl, feed_app, Hf. exact Hq.
Qed.

Lemma feeds_received srv rcv l i p r' :
  (i < length rcv)%nat -> feeds srv rcv l i p -> feeds srv (rcv ++ [r']) l i p.
Proof. intros Hi (r & Hr & Hf). exists r. split; [rewrite nth_error_app1; assumption | exact Hf]. Qed.

Lemma nodup_middle {A B} (pre post : list (nat * A)) (ans : list (nat * B)) i x :
  NoDup (map fst (pre ++ (i, x) :: post) ++ map fst ans) ->
  (forall j y, In (j, y) (pre ++ post) -> j <> i) /\ (forall j b, In (j, b) ans -> j <> i).
Proof.
  rewrite !map_app. cbn. intros Hnd.
  assert (Hp : map fst pre ++ i :: map fst post ++ map fst ans ≡ₚ i :: map fst (pre ++ post) ++ map fst ans)
    by (rewrite map_app; solve_Permutation).
  rewrite <- app_assoc in Hnd. cbn in Hnd. rewrite Hp, NoDup_cons, list_elem_of_In in Hnd.
  destruct Hnd as [Hi _]. split; intros j y Hj ->; apply Hi, in_or_app;
    [left; apply (in_map fst) in Hj | right; apply (in_map fst) in Hj]; exact Hj.
Qed.

(** One effect of handler [i] moves it on and leaves every other
    handler and answer as it was. *)
Lemma feeds_effect srv rcv l (ans : list (nat * R)) pre post i p e q :
  NoDup (map fst (pre ++ (i, p) :: post) ++ map fst ans) ->
  (forall j x, In (j, x) (pre ++ (i, p) :: post) -> feeds srv rcv l j x) ->
  (forall j a, In (j, a) ans -> feeds srv rcv l j (Ret a)) ->
  feed p [e] = Some q ->
  (forall j x, In (j, x) (pre ++ (i, q) :: post) -> feeds srv rcv (l ++ [(i, e)]) j x) /\
  (forall j a, In (j, a) ans -> feeds srv rcv (l ++ [(i, e)]) j (Ret a)).
Proof.
  intros Hnd Hin Hans Hq. destruct (nodup_middle pre post ans i p Hnd) as [Hpp Ha].
  split; [|intros j a Hj; apply feeds_other; eauto].
  intros j x Hj. rewrite in_app_iff in Hj. destruct Hj as [Hj|[E|Hj]].
  - apply feeds_other; [eapply Hpp, in_or_app; eauto | apply Hin, in_or_app; left; exact Hj].
  - injection E as <- <-. eapply feeds_self; [apply Hin, in_or_app; right; left; reflexivity | exact Hq].
  - apply feeds_other; [eapply Hpp, in_or_app; eauto | apply Hin, in_or_app; right; right; exact Hj].
Qed.

(** In every interleaving, every handler in flight is its request's
    program resumed with its own effects only, and every answer is what
    that program returns after them. *)
Lemma creach_feeds env srv c : creach env srv c ->
  (forall i p, In (i, p) (inflight c) -> feeds srv (received c) (log c) i p) /\
  (forall i a, In (i, a) (answered c) -> feeds srv (received c) (log c) i (Ret a)).
Proof.
  induction 1 as [w _ _ | c c' Hc (Hin & Hans) Hs]; [cbn; split; intros; contradiction|].
  destruct (creach_ids env srv c Hc) as (Hnd & Hids & Hlog). unfold ids in *.
  destruct Hs as [c r | c pre i k post E | c pre i k post E | c pre i resp post E]; cbn;
    rewrite ?E in *.
  - split.
    + intros i p Hi. apply in_app_iff in Hi as [Hi|[E|[]]].
      * apply feeds_received; [apply Hids, in_or_app; left; exact (in_map fst _ _ Hi) | exact (Hin i p Hi)].
      * injection E as <- <-. exists r. split; [rewrite nth_error_app2, Nat.sub_diag by lia; reflexivity|].
        rewrite (events_of_fresh _ _ Hlog). reflexivity.
    + intros i a Hi. apply feeds_received; [apply Hids, in_or_app; right; exact (in_map fst _ _ Hi) | exact (Hans i a Hi)].
  - exact (feeds_effect srv _ _ _ pre post i _ (EClock _) _ Hnd Hin Hans eq_refl).
  - exact (feeds_effect srv _ _ _ pre post i _ (EHost _) _ Hnd Hin Hans eq_refl).
  - split.
    + intros j x Hj. apply Hin. rewrite in_app_iff in *. cbn. tauto.
    + intros j a Hj. apply in_app_iff in Hj as [Hj|[Ej|[]]]; [exact (Hans j a Hj)|].
      injection Ej as <- <-. apply Hin, in_or_app. right. left. reflexivity.
Qed.

(** The readings a program takes alone resume it to its result. *)
Lemma feed_events_run {A} (p : Prog A) w : feed p (events_run p w) = Some (Ret (fst (run p w))).
Proof.
  revert w. induction p as [a | k IH | k IH]; intros w; [reflexivity| |apply IH].
  cbn [events_run run]. destruct (now w) as [t w']. apply IH.
Qed.

(** ** Schedules *)

Lemma nth_error_split_at {A} (l : list A) n x :
  nth_error l n = Some x -> l = firstn n l ++ x :: skipn (S n) l.
Proof.
  revert n. induction l as [|y l IH]; intros [|n] Hn; cbn in *; try discriminate.
  - injection Hn as ->. reflexivity.
  - f_equal. apply IH, Hn.
Qed.

(** Every action of a schedule is a step of the interleaving semantics. *)
Lemma exec_cstep srv c act c' : exec srv c act = Some c' -> cstep srv c c'.
Proof.
  destruct act as [r | n]; cbn; [intros E; injection E as <-; apply cs_arrive|].
  destruct (nth_error (inflight c) n) as [[i p]|] eqn:Hn; [|discriminate].
  pose proof (nth_error_split_at _ _ _ Hn) as Hsplit.
  destruct p as [resp | k | k]; intros E; injection E as <-;
    [apply cs_return | apply cs_clock | apply cs_host]; exact Hsplit.
Qed.

Lemma exec_all_creach env srv c acts c' :
  creach env srv c -> exec_all srv c acts = Some c' -> creach env srv c'.
Proof.
  revert c. induction acts as [|act acts IH]; intros c Hc; cbn; [congruence|].
  destruct (exec srv c act) as [c1|] eqn:E; [|discriminate].
  apply IH. exact (creach_step env srv c c1 Hc (exec_cstep srv c act c1 E)).
Qed.

(** ** The clock readings of the log *)

Lemma sorted_log_snoc l e : sorted_log l -> Forall (fun e' => before e' e) l -> sorted_log (l ++ [e]).
Proof.
  induction l as [|e0 l IH]; cbn; [auto|]. intros [Hf Hs] Hb. inversion Hb as [|? ? Hb0 Hbl]; subst.
  split; [apply Forall_app; split; [exact Hf | constructor; [exact Hb0 | constructor]] | apply IH; assumption].
Qed.

Lemma sorted_log_app l1 l2 : sorted_log (l1 ++ l2) ->
  forall x y, In x l1 -> In y l2 -> before x y.
Proof.
  induction l1 as [|e l1 IH]; cbn; [contradiction|]. intros [Hf Hs] x y [<-|Hx] Hy.
  - rewrite Forall_forall in Hf. apply Hf, list_elem_of_In, in_or_app. right. exact Hy.
  - exact (IH Hs x y Hx Hy).
Qed.

Lemma reading_in_mono m0 L L' e : L <= L' -> reading_in m0 L e -> reading_in m0 L' e.
Proof. unfold reading_in. destruct (snd e); [|auto]. intros HL (m & Hm & Hr & Hi). exists m. split; [|split]; auto; lia. Qed.

(** Every clock reading of the log lies between the reading of
    [startTime] and the clock's last reading, and the log lists them in
    the order they were taken. *)
Lemma creach_clock env srv c : creach env srv c ->
  exists m0, mono (startTime srv) = Some m0 /\ in_int64 m0 = true /\ m0 <= last (world c) /\
    in_int64 (last (world c)) = true /\
    Forall (reading_in m0 (last (world c))) (log c) /\ sorted_log (log c).
Proof.
  induction 1 as [w Hw -> | c c' _ (m0 & Hm0 & Hi0 & Hle & Hl & Hr & Hs) Hst].
  - rewrite boot_eval. cbn. exists (last (snd (now w))). rewrite now_mono.
    pose proof (now_int64 w Hw). repeat split; auto; lia.
  - exists m0. split; [exact Hm0|]. split; [exact Hi0|].
    destruct Hst as [c r | c pre i k post _ | c pre i k post _ | c pre i resp post _]; cbn;
      [repeat split; assumption | | | repeat split; assumption].
    + pose proof (now_advances (world c)) as Hadv. pose proof (now_int64 _ Hl).
      pose proof (now_mono (world c)) as Hmono.
      split; [lia|]. split; [assumption|]. split.
      * apply Forall_app. split; [eapply Forall_impl; [exact Hr|]; intros e; apply reading_in_mono; exact Hadv|].
        constructor; [|constructor]. exists (last (snd (now (world c)))). cbn. repeat split; auto; lia.
      * apply sorted_log_snoc; [exact Hs|]. eapply Forall_impl; [exact Hr|].
        intros [j [t|h]]; unfold reading_in, before; cbn; [|auto].
        intros (m & Hm & Hb & _) m' n Hm' Hn. rewrite Hmono in Hn. injection Hn as <-.
        rewrite Hm in Hm'. injection Hm' as <-. lia.
    + split; [lia|]. split; [assumption|]. split.
      * apply Forall_app. split; [exact Hr | constructor; [exact I | constructor]].
      * apply sorted_log_snoc; [exact Hs|]. eapply Forall_impl; [exact Hr|].
        intros [j [t|h]] _; exact I.
Qed.

(** ** The answers of [GET /health] *)

Lemma events_of_app i l1 l2 : events_of i (l1 ++ l2) = events_of i l1 ++ events_of i l2.
Proof. unfold events_of. rewrite filter_app, map_app. reflexivity. Qed.

Lemma events_of_head i l e evs : events_of i l = e :: evs -> In (i, e) l.
Proof.
  unfold events_of. induction l as [|[j e'] l IH]; cbn; [discriminate|].
  destruct (Nat.eqb_spec j i) as [->|_]; cbn; [intros E; injection E as -> _; left; reflexivity|].
  intros E. right. exact (IH E).
Qed.


Lemma creach_routes env srv c : creach env srv c -> srv_routes srv = routes.
Proof. induction 1 as [w _ -> | ]; [rewrite boot_eval; reflexivity | assumption]. Qed.

(** Two readings taken in order after [startTime] give uptimes in order. *)
Lemma uptime_readings_le st t u m0 m n :
  mono st = Some m0 -> mono t = Some m -> mono u = Some n ->
  in_int64 m0 = true -> in_int64 m = true -> in_int64 n = true -> m0 <= m <= n ->
  whole_seconds (Sub t st) <= whole_seconds (Sub u st).
Proof.
  intros Hs Ht Hu Hi0 Hm Hn Hle. unfold Sub. rewrite Hs, Ht, Hu.
  pose proof (subMono_nonneg m m0 Hm Hi0 ltac:(lia)). pose proof (subMono_mono_l m n m0 Hm Hn Hi0 ltac:(lia)).
  pose proof (subMono_range n m0). apply whole_seconds_le; lia.
Qed.


Lemma reading_of m0 L l i t : Forall (reading_in m0 L) l -> In (i, EClock t) l ->
  exists m, mono t = Some m /\ m0 <= m <= L /\ in_int64 m = true.
Proof. rewrite Forall_forall. intros Hl Hin. exact (Hl _ (proj2 (list_elem_of_In _ _) Hin)). Qed.

(** ** Every handler finishes *)

Lemma bounded_mono {A} n m (p : Prog A) : bounded n p -> (n <= m)%nat -> bounded m p.
Proof.
  intros Hb. revert m. induction Hb as [n a | n k _ IH | n k _ IH]; intros m Hm; [constructor| |];
    (destruct m as [|m]; [lia|]); constructor; intros; apply IH; lia.
Qed.


Section Bounded.
Variable b : nat.
Hypothesis handler_bounded : forall srv r, bounded b (handler srv r).

Lemma creach_bounded env srv c : creach env srv c ->
  forall i p, In (i, p) (inflight c) -> bounded b p.
Proof.
  induction 1 as [w _ _ | c c' _ IH Hs]; [cbn; contradiction|].
  destruct Hs as [c r | c pre i k post E | c pre i k post E | c pre i resp post E]; cbn; intros j q Hj.
  - apply in_app_iff in Hj as [Hj|[Hj|[]]]; [exact (IH j q Hj)|]. injection Hj as <- <-. apply handler_bounded.
  - apply in_app_iff in Hj as [Hj|[Hj|Hj]]; try (apply (IH j q); rewrite E; apply in_or_app; cbn; tauto).
    injection Hj as <- <-. assert (Hk : bounded b (ReadClock k)) by (apply (IH i); rewrite E; apply in_or_app; cbn; tauto).
    inversion Hk; subst. eapply bounded_mono; [eauto | lia].
  - apply in_app_iff in Hj as [Hj|[Hj|Hj]]; try (apply (IH j q); rewrite E; apply in_or_app; cbn; tauto).
    injection Hj as <- <-. assert (Hk : bounded b (ReadHost k)) by (apply (IH i); rewrite E; apply in_or_app; cbn; tauto).
    inversion Hk; subst. eapply bounded_mono; [eauto | lia].
  - apply (IH j q). rewrite E. apply in_app_iff in Hj. apply in_or_app. cbn. tauto.
Qed.

Lemma drain_creach env srv f c c' : creach env srv c -> drain srv f c = Some c' -> creach env srv c'.
Proof.
  revert c. induction f as [|f IH]; intros c Hc Hd; cbn [drain] in Hd.
  - destruct (inflight c); [injection Hd as <-; exact Hc | discriminate].
  - destruct (inflight c); [injection Hd as <-; exact Hc|].
    destruct (exec srv c (Resume 0)) as [c1|] eqn:E; [|discriminate].
    apply (IH c1); [exact (creach_step env srv c c1 Hc (exec_cstep srv c _ c1 E)) | exact Hd].
Qed.

End Bounded.

(** The oldest handler, with at most [n] effects left, is answered
    within [n + 1] steps; the others then drain by [IH]; each handler
    performs at most [b] effects. *)
Lemma drain_head b srv i rest
  (IH : forall c f, inflight c = rest -> (S b * length rest <= f)%nat ->
        exists c', drain srv f c = Some c' /\ inflight c' = [] /\
          (forall j q, In (j, q) rest -> exists a, In (j, a) (answered c')) /\
          (forall x, In x (answered c) -> In x (answered c'))) :
  forall n p, bounded n p -> forall c f, inflight c = (i, p) :: rest -> (S b * length rest + S n <= f)%nat ->
  exists c', drain srv f c = Some c' /\ inflight c' = [] /\ (exists a, In (i, a) (answered c')) /\
    (forall j q, In (j, q) rest -> exists a, In (j, a) (answered c')) /\
    (forall x, In x (answered c) -> In x (answered c')).
Proof.
  induction 1 as [n a | n k _ IHk | n k _ IHk]; intros c f Hl Hf;
    (destruct f as [|f]; [lia|]); cbn [drain]; rewrite Hl; unfold exec; rewrite Hl; cbn.
  - destruct (IH (mkConfig (world c) (received c) rest (answered c ++ [(i, a)]) (log c)) f eq_refl
                ltac:(lia)) as (c' & Hd & He & Hr & Ha).
    exists c'. split; [exact Hd|]. split; [exact He|]. split; [|split; [exact Hr|]].
    + exists a. apply Ha. cbn. apply in_or_app. right. left. reflexivity.
    + intros x Hx. apply Ha. cbn. apply in_or_app. left. exact Hx.
  - match goal with |- exists c', drain srv f ?c1 = _ /\ _ =>
      edestruct (IHk (fst (now (world c))) c1 f) as (c' & Hd & He & Ha & Hr & Hs); [reflexivity | lia |] end.
    exists c'. split; [exact Hd|]. split; [exact He|]. split; [exact Ha|]. split; [exact Hr | exact Hs].
  - match goal with |- exists c', drain srv f ?c1 = _ /\ _ =>
      edestruct (IHk (host (world c)) c1 f) as (c' & Hd & He & Ha & Hr & Hs); [reflexivity | lia |] end.
    exists c'. split; [exact Hd|]. split; [exact He|]. split; [exact Ha|]. split; [exact Hr | exact Hs].
Qed.

Lemma drain_all b srv : forall l c f, inflight c = l -> Forall (fun ip => bounded b (snd ip)) l ->
  (S b * length l <= f)%nat ->
  exists c', drain srv f c = Some c' /\ inflight c' = [] /\
    (forall i p, In (i, p) l -> exists a, In (i, a) (answered c')) /\
    (forall x, In x (answered c) -> In x (answered c')).
Proof.
  induction l as [|[i p] rest IH]; intros c f Hl Hb Hf.
  - exists c. split; [destruct f; cbn; rewrite Hl; reflexivity|]. split; [exact Hl|].
    split; [intros ? ? []|auto].
  - inversion Hb as [|? ? Hp Hrest]; subst. cbn [snd length] in *. rewrite Nat.mul_succ_r in Hf.
    destruct (drain_head b srv i rest (fun c f Hc Hf => IH c f Hc Hrest Hf) b p Hp c f Hl ltac:(lia))
      as (c' & Hd & He & (a & Ha) & Hr & Hsub).
    exists c'. split; [exact Hd|]. split; [exact He|]. split; [|exact Hsub].
    intros j q [E|Hj]; [injection E as <- <-; eauto | exact (Hr j q Hj)].
Qed.

End Machine.

(** A [GET /health] handler resumed to its answer has read the clock
    twice; its uptime is that of the first reading. *)
Lemma feed_health srv r evs a : srv_routes srv = routes -> health_get r = true ->
  feed (serveP srv r) evs = Some (Ret a) ->
  exists t1 t2, evs = [EClock t1; EClock t2] /\
    a = mkResponse 200 (HealthPayload
          {| HealthResponse.Status := "healthy";
             HealthResponse.Timestamp := FormatRFC3339 t2;
             HealthResponse.UptimeSeconds := whole_seconds (Sub t1 (startTime srv)) |}).
Proof.
  unfold health_get. rewrite andb_true_iff, !String.eqb_eq. intros Hroutes [Hm Hp].
  unfold serveP. rewrite Hroutes, Hm, Hp. cbn -[healthHandlerP].
  unfold healthHandlerP, getUptimeP, SinceP, NowP. cbn [bindP].
  destruct evs as [|[t1|h] evs]; cbn [feed]; try discriminate.
  destruct (Uptime.uptime_of_seconds_total (whole_seconds (Sub t1 (startTime srv)))) as [human ->].
  cbn [bindP]. destruct evs as [|[t2|h] evs]; cbn [feed]; try discriminate.
  destruct evs; cbn [feed]; [|destruct e; discriminate].
  intros E. injection E as <-. exists t1, t2. split; reflexivity.
Qed.

(** A [GET /health] answer: its handler read the clock twice, its
    uptime is that of the first reading, which lies in [l1] if the
    handler performed an effect in [l1] and in [l2] otherwise. *)
Lemma health_first_reading env srv c l1 l2 i r a :
  creach serveP env srv c -> log c = l1 ++ l2 -> nth_error (received c) i = Some r ->
  health_get r = true -> In (i, a) (answered c) ->
  exists t1 t2,
    (events_of i l1 <> [] -> In (i, EClock t1) l1) /\
    (events_of i l1 = [] -> In (i, EClock t1) l2) /\
    a = mkResponse 200 (HealthPayload
          {| HealthResponse.Status := "healthy";
             HealthResponse.Timestamp := FormatRFC3339 t2;
             HealthResponse.UptimeSeconds := whole_seconds (Sub t1 (startTime srv)) |}).
Proof.
  intros Hc Hlog Hr Hq Ha. destruct (proj2 (creach_feeds serveP env srv c Hc) i a Ha) as (r' & Hr' & Hf).
  rewrite Hr in Hr'. injection Hr' as <-.
  destruct (feed_health srv r _ a (creach_routes serveP env srv c Hc) Hq Hf) as (t1 & t2 & E & ->).
  rewrite Hlog, events_of_app in E. exists t1, t2. split; [|split; [|reflexivity]].
  - destruct (events_of i l1) as [|e rest] eqn:E1; [congruence|]. intros _.
    injection E as -> _. exact (events_of_head _ _ _ _ E1).
  - intros E1. rewrite E1 in E. exact (events_of_head _ _ _ _ E).
Qed.

(** A handler performs at most three effects: [mainHandler] reads the
    clock, the host and the clock again, [healthHandler] the clock
    twice, Echo's error answers none. *)
Lemma serveP_bounded srv r : bounded 3 (serveP srv r).
Proof.
  unfold serveP. destruct (dispatch _ _ _) as [[|]| |]; [| |constructor | constructor].
  - unfold mainHandlerP, getUptimeP, SinceP, NowP, getSystemInfoP. cbn [bindP].
    constructor. intros t. destruct (Uptime.uptime_of_seconds _) as [[u h]|]; [|constructor].
    cbn [bindP]. constructor. intros hf. constructor. intros t'. constructor.
  - unfold healthHandlerP, getUptimeP, SinceP, NowP. cbn [bindP].
    constructor. intros t. destruct (Uptime.uptime_of_seconds _) as [[u h]|]; [|constructor].
    cbn [bindP]. apply (bounded_mono 1); [|lia]. constructor. intros t'. constructor.
Qed.

(** ** Theorems *)

(** C9: [uptime_seconds] is monotone under concurrency (spec 3 and 5):
    of two [GET /health] requests served at the same time, if the first
    had performed an effect before the second performed any (the log
    splits into [l1 ++ l2] with an effect of [a] and none of [b] in
    [l1]), the first answers an uptime no larger than the second. *)
Theorem concurrent_health_monotone env srv c l1 l2 a b ra rb resp_a resp_b :
  creach serveP env srv c -> log c = l1 ++ l2 ->
  nth_error (received c) a = Some ra -> health_get ra = true ->
  nth_error (received c) b = Some rb -> health_get rb = true ->
  In (a, resp_a) (answered c) -> In (b, resp_b) (answered c) ->
  events_of a l1 <> [] -> events_of b l1 = [] ->
  exists ha hb, resp_a = mkResponse 200 (HealthPayload ha) /\
    resp_b = mkResponse 200 (HealthPayload hb) /\
    HealthResponse.UptimeSeconds ha <= HealthResponse.UptimeSeconds hb.
Proof.
  intros Hc Hlog Hra Hqa Hrb Hqb Ha Hb Hpa Hpb.
  destruct (health_first_reading env srv c l1 l2 a ra resp_a Hc Hlog Hra Hqa Ha) as (t1 & t2 & Ha1 & _ & ->).
  destruct (health_first_reading env srv c l1 l2 b rb resp_b Hc Hlog Hrb Hqb Hb) as (u1 & u2 & _ & Hb1 & ->).
  eexists _, _. split; [reflexivity|]. split; [reflexivity|]. cbn [HealthResponse.UptimeSeconds].
  destruct (creach_clock serveP env srv c Hc) as (m0 & Hm0 & Hi0 & _ & _ & Hr & Hs). rewrite Hlog in Hr, Hs.
  pose proof (sorted_log_app l1 l2 Hs _ _ (Ha1 Hpa) (Hb1 Hpb)) as Hbef. unfold before in Hbef. cbn in Hbef.
  destruct (reading_of _ _ _ a t1 Hr (in_or_app _ _ _ (or_introl (Ha1 Hpa)))) as (m & Hm & Hmr & Hmi).
  destruct (reading_of _ _ _ b u1 Hr (in_or_app _ _ _ (or_intror (Hb1 Hpb)))) as (n & Hn & Hnr & Hni).
  specialize (Hbef m n Hm Hn). apply (uptime_readings_le _ _ _ m0 m n); auto; lia.
Qed.

(** C10: no handler blocks or loops (spec 5, "every request is handled
    independently and immediately"): from every configuration of every
    interleaving, resuming the oldest handler in flight again and again
    answers every request in flight within four steps each, in a
    configuration the interleavings reach. *)
Theorem handlers_finish env srv c : creach serveP env srv c ->
  exists c', drain serveP srv (4 * length (inflight c)) c = Some c' /\ creach serveP env srv c' /\
    inflight c' = [] /\ forall i p, In (i, p) (inflight c) -> exists a, In (i, a) (answered c').
Proof.
  intros Hc.
  assert (Hb : Forall (fun ip => bounded 3 (snd ip)) (inflight c)).
  { apply Forall_forall. intros [i p] Hi. apply list_elem_of_In in Hi. exact (creach_bounded serveP 3 serveP_bounded env srv c Hc i p Hi). }
  destruct (drain_all serveP 3 srv (inflight c) c _ eq_refl Hb (le_n _)) as (c' & Hd & He & Ha & _).
  exists c'. split; [exact Hd|]. split; [exact (drain_creach serveP env srv _ c c' Hc Hd)|]. auto.
Qed.

End Interleaving.

Import World.

(** Two [GET /health] requests served at the same time: the first
    handler reads the clock, the second reads it twice, the first reads
    it again, and both return. *)
Definition demo_server : Server := fst (boot ∅ demo_world).
Definition demo_start : @Config World.World Response := mkConfig (snd (boot ∅ demo_world)) [] [] [] [].
Definition demo_schedule : list Action :=
  [Arrive health_request; Arrive health_request; Resume 0; Resume 1; Resume 1; Resume 0; Resume 0; Resume 0].
Definition demo_run : @Config World.World Response :=
  match exec_all serveP demo_server demo_start demo_schedule with Some c => c | None => demo_start end.

Lemma demo_run_creach : creach serveP ∅ demo_server demo_run.
Proof.
  unfold demo_run. destruct (exec_all serveP demo_server demo_start demo_schedule) as [c|] eqn:E;
    [eapply exec_all_creach; [|exact E]|]; apply creach_boot; reflexivity.
Qed.

Example concurrent_health_monotone_witness :
  exists resp_a resp_b, In (0%nat, resp_a) (answered demo_run) /\ In (1%nat, resp_b) (answered demo_run) /\
  exists ha hb, resp_a = mkResponse 200 (HealthPayload ha) /\
    resp_b = mkResponse 200 (HealthPayload hb) /\
    HealthResponse.UptimeSeconds ha <= HealthResponse.UptimeSeconds hb.
Proof.
  eexists _, _. split; [vm_compute; left; reflexivity|]. split; [vm_compute; right; left; reflexivity|].
  apply (concurrent_health_monotone ∅ demo_server demo_run (firstn 1 (log demo_run))
           (skipn 1 (log demo_run)) 0 1 health_request health_request).
  - exact demo_run_creach.
  - symmetry. apply firstn_skipn.
  - reflexivity.
  - reflexivity.
  - reflexivity.
  - reflexivity.
  - vm_compute. left. reflexivity.
  - vm_compute. right. left. reflexivity.
  - vm_compute. discriminate.
  - reflexivity.
Defined.

Definition demo_mid : @Config World.World Response :=
  match exec_all serveP demo_server demo_start (firstn 4 demo_schedule) with Some c => c | None => demo_start end.

Example handlers_finish_witness :
  exists c', drain serveP demo_server (4 * length (inflight demo_mid)) demo_mid = Some c' /\
    creach serveP ∅ demo_server c' /\ inflight c' = [] /\
    forall i p, In (i, p) (inflight demo_mid) -> exists a, In (i, a) (answered c').
Proof.
  apply handlers_finish. unfold demo_mid.
  destruct (exec_all serveP demo_server demo_start (firstn 4 demo_schedule)) as [c|] eqn:E;
    [eapply exec_all_creach; [|exact E]|]; apply creach_boot; reflexivity.
Defined.

End Concurrency.
