(* ===== verification/Json.v ===== *)
(** * Json: Go's [encoding/json] encoder, as Echo's [c.JSON] runs it

    [c.JSON(http.StatusOK, v)] (main.go:141, 152) hands [v] to Echo's
    [DefaultJSONSerializer], which runs [json.NewEncoder(w).Encode(v)]:
    the value is encoded without white space (or indented with two
    spaces when the request has a [pretty] query parameter), followed by
    a newline.  A Go struct is encoded as an object with its fields in
    declaration order, under the names of their [json] tags; an [int]
    as its decimal numeral ([strconv.AppendInt], the same digits as
    [%d]); a slice as an array; a string by [appendString] of
    encoding/json/encode.go with [escapeHTML] set (the encoder's
    default):
    - the ASCII bytes other than the double quote, the backslash, the
      characters < > & and the control bytes below 0x20 are copied;
    - the double quote and the backslash are escaped with a backslash;
      the bytes 8, 12, 10, 13 and 9 use the short escapes b, f, n, r and
      t (Go 1.22 and later); every other byte among those is written as
      a backslash, [u00] and two lower-case hex digits;
    - a byte that does not start a valid UTF-8 sequence is replaced by
      the escape of U+FFFD; U+2028 and U+2029 are written as the escapes
      of their code points; every other valid UTF-8 sequence is copied.

    [decode_rune] is [utf8.DecodeRuneInString] (unicode/utf8/utf8.go):
    the code point and the length of the sequence, or [(0xFFFD, 1)] for
    an invalid one. *)

From Stdlib Require Import ZArith String Ascii List Lia Bool.
From S2P Require Import Prelude GoFmt.
Import ListNotations.
Open Scope Z_scope.

Module Json.
Import GoFmt.

(** ** UTF-8 *)

Definition RuneError : Z := 65533.

Definition byte_at (s : string) (i : nat) : Z :=
  match String.get i s with Some c => byte_of c | None => -1 end.

Definition is_cont (b : Z) (lo hi : Z) : bool := (lo <=? b) && (b <=? hi).

(** [utf8.DecodeRuneInString] on a non-empty string. *)
Definition decode_rune (s : string) : Z * nat :=
  let b0 := byte_at s 0 in
  let b1 := byte_at s 1 in
  let b2 := byte_at s 2 in
  let b3 := byte_at s 3 in
  if b0 <? 128 then (b0, 1%nat)
  else if b0 <? 194 then (RuneError, 1%nat)
  else if b0 <? 224 then
    if is_cont b1 128 191 then (Z.lor (Z.shiftl (Z.land b0 31) 6) (Z.land b1 63), 2%nat)
    else (RuneError, 1%nat)
  else if b0 <? 240 then
    let lo := if b0 =? 224 then 160 else 128 in
    let hi := if b0 =? 237 then 159 else 191 in
    if is_cont b1 lo hi && is_cont b2 128 191 then
      (Z.lor (Z.lor (Z.shiftl (Z.land b0 15) 12) (Z.shiftl (Z.land b1 63) 6)) (Z.land b2 63),
       3%nat)
    else (RuneError, 1%nat)
  else if b0 <? 245 then
    let lo := if b0 =? 240 then 144 else 128 in
    let hi := if b0 =? 244 then 143 else 191 in
    if is_cont b1 lo hi && is_cont b2 128 191 && is_cont b3 128 191 then
      (Z.lor (Z.lor (Z.lor (Z.shiftl (Z.land b0 7) 18) (Z.shiftl (Z.land b1 63) 12))
                    (Z.shiftl (Z.land b2 63) 6)) (Z.land b3 63),
       4%nat)
    else (RuneError, 1%nat)
  else (RuneError, 1%nat).

(** ** Escaping *)

Definition chr (n : Z) : ascii := ascii_of_Z n.
Definition str1 (n : Z) : string := String (chr n) EmptyString.

Definition quote : ascii := chr 34.
Definition backslash : ascii := chr 92.

Definition hex_digit (d : Z) : ascii := if d <? 10 then chr (48 + d) else chr (87 + d).

(** The ASCII bytes [appendString] copies when escaping HTML. *)
Definition html_safe (b : Z) : bool :=
  (32 <=? b) && (b <? 128) && negb (b =? 34) && negb (b =? 92) &&
  negb (b =? 60) && negb (b =? 62) && negb (b =? 38).

(** [\u] followed by four lower-case hex digits of [n < 65536]. *)
Definition u_escape (n : Z) : string :=
  String backslash (String "u" (String (hex_digit (n / 4096))
    (String (hex_digit (n / 256 mod 16)) (String (hex_digit (n / 16 mod 16))
      (String (hex_digit (n mod 16)) EmptyString))))).

(** The escape of an ASCII byte that is not [html_safe]. *)
Definition escape_ascii (b : Z) : string :=
  if (b =? 92) || (b =? 34) then String backslash (str1 b)
  else if b =? 8 then String backslash "b"
  else if b =? 12 then String backslash "f"
  else if b =? 10 then String backslash "n"
  else if b =? 13 then String backslash "r"
  else if b =? 9 then String backslash "t"
  else u_escape b.

(** The loop of [appendString]; the fuel is the length of the input,
    each step consuming at least one byte. *)
Fixpoint escape (fuel : nat) (s : string) : string :=
  match fuel, s with
  | O, _ => EmptyString
  | _, EmptyString => EmptyString
  | S f, String c rest =>
      let b := byte_of c in
      if b <? 128 then
        if html_safe b then String c (escape f rest)
        else append (escape_ascii b) (escape f rest)
      else
        let '(r, size) := decode_rune s in
        let next := substring size (String.length s - size) s in
        if (r =? RuneError) && (size =? 1)%nat then append (u_escape RuneError) (escape f rest)
        else if (r =? 8232) || (r =? 8233) then append (u_escape r) (escape f next)
        else append (substring 0 size s) (escape f next)
  end.

(** [appendString(dst, s, true)]: the quoted, escaped string. *)
Definition encode_string (s : string) : string :=
  String quote (append (escape (String.length s) s) (String quote EmptyString)).

(** ** Reading a JSON string back *)

(** The reader below is the inverse the theorems use: an RFC 8259
    string reader (escapes, [\u] with surrogate pairs, control bytes
    refused), not a model of Go's decoder. *)

Definition hex_val (c : ascii) : option Z :=
  let b := byte_of c in
  if (48 <=? b) && (b <=? 57) then Some (b - 48)
  else if (97 <=? b) && (b <=? 102) then Some (b - 87)
  else if (65 <=? b) && (b <=? 70) then Some (b - 55)
  else None.

(** Four hex digits. *)
Definition hex4 (s : string) : option (Z * string) :=
  match s with
  | String a (String b (String c (String d rest))) =>
      match hex_val a, hex_val b, hex_val c, hex_val d with
      | Some x, Some y, Some z, Some w => Some (((x * 16 + y) * 16 + z) * 16 + w, rest)
      | _, _, _, _ => None
      end
  | _ => None
  end.

(** [utf8.EncodeRune] of a code point up to U+10FFFF. *)
Definition utf8_encode (cp : Z) : string :=
  if cp <? 128 then str1 cp
  else if cp <? 2048 then
    String (chr (192 + cp / 64)) (str1 (128 + cp mod 64))
  else if cp <? 65536 then
    String (chr (224 + cp / 4096)) (String (chr (128 + cp / 64 mod 64)) (str1 (128 + cp mod 64)))
  else
    String (chr (240 + cp / 262144)) (String (chr (128 + cp / 4096 mod 64))
      (String (chr (128 + cp / 64 mod 64)) (str1 (128 + cp mod 64)))).

(** The byte of a one-letter escape. *)
Definition simple_unescape (e : Z) : option Z :=
  if (e =? 34) || (e =? 92) || (e =? 47) then Some e
  else if e =? 98 then Some 8
  else if e =? 102 then Some 12
  else if e =? 110 then Some 10
  else if e =? 114 then Some 13
  else if e =? 116 then Some 9
  else None.

Definition prepend (p : string) (r : string * string) : string * string :=
  (append p (fst r), snd r).

(** The code point of [\uXXXX] read as [cp], followed by [rest]: a
    surrogate pair is combined, a lone surrogate gives U+FFFD. *)
Definition surrogate_pair (cp : Z) (rest : string) : Z * string :=
  if (55296 <=? cp) && (cp <? 57344) then
    match rest with
    | String bs (String u rest') =>
        if (byte_of bs =? 92) && (byte_of u =? 117) && (cp <? 56320) then
          match hex4 rest' with
          | Some (lo, rest'') =>
              if (56320 <=? lo) && (lo <? 57344)
              then (65536 + (cp - 55296) * 1024 + (lo - 56320), rest'')
              else (RuneError, rest)
          | None => (RuneError, rest)
          end
        else (RuneError, rest)
    | _ => (RuneError, rest)
    end
  else (cp, rest).

(** The characters of a string after its opening quote, up to and
    without its closing quote, and what follows. *)
Fixpoint unescape (fuel : nat) (s : string) : option (string * string) :=
  match fuel with
  | O => None
  | S f =>
      match s with
      | EmptyString => None
      | String c rest =>
          let b := byte_of c in
          if b =? 34 then Some (EmptyString, rest)
          else if b =? 92 then
            match rest with
            | EmptyString => None
            | String e rest' =>
                if byte_of e =? 117 then
                  match hex4 rest' with
                  | Some (cp, rest'') =>
                      let '(r, rest3) := surrogate_pair cp rest'' in
                      option_map (prepend (utf8_encode r)) (unescape f rest3)
                  | None => None
                  end
                else
                  match simple_unescape (byte_of e) with
                  | Some ch => option_map (prepend (str1 ch)) (unescape f rest')
                  | None => None
                  end
            end
          else if b <? 32 then None
          else option_map (prepend (String c EmptyString)) (unescape f rest)
      end
  end.

Definition decode_string (s : string) : option (string * string) :=
  match s with
  | String q rest => if byte_of q =? 34 then unescape (String.length s) rest else None
  | EmptyString => None
  end.

(** What the encoder keeps of a string: every byte that does not start
    a valid UTF-8 sequence becomes U+FFFD. *)
Fixpoint repair (fuel : nat) (s : string) : string :=
  match fuel, s with
  | O, _ => EmptyString
  | _, EmptyString => EmptyString
  | S f, String c rest =>
      if byte_of c <? 128 then String c (repair f rest)
      else
        let '(r, size) := decode_rune s in
        if (r =? RuneError) && (size =? 1)%nat then append (utf8_encode RuneError) (repair f rest)
        else append (substring 0 size s) (repair f (substring size (String.length s - size) s))
  end.

Definition utf8_repair (s : string) : string := repair (String.length s) s.

(** The bytes of a string are all outside ASCII. *)
Fixpoint all_high (u : string) : bool :=
  match u with EmptyString => true | String c u' => (128 <=? byte_of c) && all_high u' end.

(** Every byte of a string is ASCII. *)
Fixpoint all_ascii (u : string) : bool :=
  match u with EmptyString => true | String c u' => (byte_of c <? 128) && all_ascii u' end.

(** ** JSON values and their compact encoding *)

Inductive json :=
| JNull
| JBool (b : bool)
| JInt (z : Z)
| JString (s : string)
| JArray (l : list json)
| JObject (l : list (string * json)).

(** The elements of an array or the members of an object, separated
    by commas. *)
Fixpoint join_comma (l : list string) : string :=
  match l with
  | [] => EmptyString
  | [x] => x
  | x :: l' => append x (String "," (join_comma l'))
  end.

(** [e.marshal] without indentation. *)
Fixpoint encode (j : json) : string :=
  match j with
  | JNull => "null"
  | JBool true => "true"
  | JBool false => "false"
  | JInt z => formatInt z
  | JString s => encode_string s
  | JArray l => String "[" (append (join_comma (map encode l)) "]")
  | JObject kvs =>
      String "{" (append (join_comma (map (fun kv => append (encode_string (fst kv))
                                               (String ":" (encode (snd kv)))) kvs)) "}")
  end%string.

(** [json.NewEncoder(w).Encode(v)]: the encoding and a newline. *)
Definition Encode (j : json) : string := append (encode j) (str1 10).

(** ** Reading a JSON value back

    A reader of the compact form [encode] writes (RFC 8259 without
    white space): the literals, a numeral read by [GoFmt.parseInt],
    strings by [decode_string], arrays and objects by mutual recursion.
    The fuel bounds the nesting and the number of elements; the length
    of the input is enough ([Decode]). *)

Definition strip_prefix (p s : string) : option string :=
  if String.prefix p s then Some (substring (String.length p) (String.length s - String.length p) s)
  else None.

(** The longest prefix of decimal digits and what follows it. *)
Fixpoint span_digits (s : string) : string * string :=
  match s with
  | String c s' => if is_digit c then let '(d, r) := span_digits s' in (String c d, r) else ("", s)
  | EmptyString => ("", "")
  end%string.

Definition starts_digit (s : string) : bool :=
  match s with String c _ => is_digit c | EmptyString => false end.

(** An optional minus sign and the digits after it. *)
Definition parse_number (s : string) : option (Z * string) :=
  let '(sign, body) := match s with
                       | String c r => if byte_of c =? 45 then ("-"%string, r) else (EmptyString, s)
                       | EmptyString => (EmptyString, s)
                       end in
  let '(d, r) := span_digits body in
  match parseInt (sign ++ d) with Some z => Some (z, r) | None => None end.

(** The character after a value inside an array or object. *)
Definition next_byte (s : string) : option (Z * string) :=
  match s with String c r => Some (byte_of c, r) | EmptyString => None end.

Fixpoint parse_value (fuel : nat) (s : string) : option (json * string) :=
  match fuel with
  | O => None
  | S f =>
      match next_byte s with
      | None => None
      | Some (b, rest) =>
          if b =? 110 then option_map (fun r => (JNull, r)) (strip_prefix "ull" rest)
          else if b =? 116 then option_map (fun r => (JBool true, r)) (strip_prefix "rue" rest)
          else if b =? 102 then option_map (fun r => (JBool false, r)) (strip_prefix "alse" rest)
          else if b =? 34 then option_map (fun p => (JString (fst p), snd p)) (decode_string s)
          else if b =? 91 then
            match next_byte rest with
            | Some (b', r) =>
                if b' =? 93 then Some (JArray [], r)
                else option_map (fun p => (JArray (fst p), snd p)) (parse_elems f rest)
            | None => None
            end
          else if b =? 123 then
            match next_byte rest with
            | Some (b', r) =>
                if b' =? 125 then Some (JObject [], r)
                else option_map (fun p => (JObject (fst p), snd p)) (parse_members f rest)
            | None => None
            end
          else option_map (fun p => (JInt (fst p), snd p)) (parse_number s)
      end
  end
(** The elements of a non-empty array and its closing bracket. *)
with parse_elems (fuel : nat) (s : string) : option (list json * string) :=
  match fuel with
  | O => None
  | S f =>
      match parse_value f s with
      | Some (v, r) =>
          match next_byte r with
          | Some (b, r') =>
              if b =? 44 then option_map (fun p => (v :: fst p, snd p)) (parse_elems f r')
              else if b =? 93 then Some ([v], r')
              else None
          | None => None
          end
      | None => None
      end
  end
(** The members of a non-empty object and its closing brace. *)
with parse_members (fuel : nat) (s : string) : option (list (string * json) * string) :=
  match fuel with
  | O => None
  | S f =>
      match decode_string s with
      | Some (k, r) =>
          match next_byte r with
          | Some (b, r1) =>
              if b =? 58 then
                match parse_value f r1 with
                | Some (v, r2) =>
                    match next_byte r2 with
                    | Some (b', r') =>
                        if b' =? 44 then
                          option_map (fun p => ((k, v) :: fst p, snd p)) (parse_members f r')
                        else if b' =? 125 then Some ([(k, v)], r')
                        else None
                    | None => None
                    end
                | None => None
                end
              else None
          | None => None
          end
      | None => None
      end
  end.

Definition Decode (s : string) : option (json * string) := parse_value (S (String.length s)) s.

(** What the encoder keeps of a value: its strings, keys included,
    with invalid UTF-8 replaced. *)
Fixpoint repair_json (j : json) : json :=
  match j with
  | JString s => JString (utf8_repair s)
  | JArray l => JArray (map repair_json l)
  | JObject kvs => JObject (map (fun kv => (utf8_repair (fst kv), repair_json (snd kv))) kvs)
  | _ => j
  end.

(** [j] is read back from its encoding, whatever follows that does not
    continue a numeral, given more fuel than the encoding's length. *)
Definition reads_back (j : json) : Prop :=
  forall f rest, (String.length (encode j) < f)%nat -> starts_digit rest = false ->
  parse_value f (encode j ++ rest) = Some (repair_json j, rest).

(** Induction on values, with the hypothesis on every element of an
    array and every member of an object. *)
Section JsonInd.
Variable P : json -> Prop.
Hypothesis HNull : P JNull.
Hypothesis HBool : forall b, P (JBool b).
Hypothesis HInt : forall z, P (JInt z).
Hypothesis HString : forall s, P (JString s).
Hypothesis HArray : forall l, Forall P l -> P (JArray l).
Hypothesis HObject : forall kvs, Forall (fun kv => P (snd kv)) kvs -> P (JObject kvs).

Fixpoint json_ind' (j : json) : P j :=
  match j with
  | JNull => HNull
  | JBool b => HBool b
  | JInt z => HInt z
  | JString s => HString s
  | JArray l =>
      HArray l ((fix go (l : list json) : Forall P l :=
                   match l with
                   | [] => Forall_nil _
                   | x :: l' => Forall_cons _ (json_ind' x) (go l')
                   end) l)
  | JObject kvs =>
      HObject kvs ((fix go (kvs : list (string * json)) : Forall (fun kv => P (snd kv)) kvs :=
                      match kvs with
                      | [] => Forall_nil _
                      | (k, v) :: l' => Forall_cons (P := fun kv => P (snd kv)) (k, v) (json_ind' v) (go l')
                      end) kvs)
  end.
End JsonInd.

(** ** The string encoder is read back by the string reader *)

Lemma chr_byte c : chr (byte_of c) = c.
Proof. apply ascii_of_Z_byte. Qed.

Lemma str_byte c : str1 (byte_of c) = String c EmptyString.
Proof. unfold str1. rewrite chr_byte. reflexivity. Qed.

Lemma is_cont_spec b lo hi : is_cont b lo hi = true <-> lo <= b <= hi.
Proof. unfold is_cont. rewrite andb_true_iff, !Z.leb_le. tauto. Qed.

Lemma dec2 b0 b1 : 194 <= b0 < 224 -> 128 <= b1 <= 191 ->
  Z.lor (Z.shiftl (Z.land b0 31) 6) (Z.land b1 63) = (b0 - 192) * 64 + (b1 - 128).
Proof.
  intros. rewrite (land_field b0 5 192 31), (land_field b1 6 128 63) by (reflexivity || (cbn; lia)).
  apply lor_shiftl_add; simpl; lia.
Qed.

Lemma dec3 b0 b1 b2 : 224 <= b0 < 240 -> 128 <= b1 <= 191 -> 128 <= b2 <= 191 ->
  Z.lor (Z.lor (Z.shiftl (Z.land b0 15) 12) (Z.shiftl (Z.land b1 63) 6)) (Z.land b2 63)
  = ((b0 - 224) * 64 + (b1 - 128)) * 64 + (b2 - 128).
Proof.
  intros. rewrite (land_field b0 4 224 15), (land_field b1 6 128 63), (land_field b2 6 128 63) by (reflexivity || (cbn; lia)).
  replace (Z.shiftl (b0 - 224) 12) with (Z.shiftl (Z.shiftl (b0 - 224) 6) 6)
    by (rewrite Z.shiftl_shiftl; reflexivity || lia).
  rewrite <- Z.shiftl_lor, !lor_shiftl_add; simpl; lia.
Qed.

Lemma dec4 b0 b1 b2 b3 : 240 <= b0 < 245 -> 128 <= b1 <= 191 -> 128 <= b2 <= 191 -> 128 <= b3 <= 191 ->
  Z.lor (Z.lor (Z.lor (Z.shiftl (Z.land b0 7) 18) (Z.shiftl (Z.land b1 63) 12))
                    (Z.shiftl (Z.land b2 63) 6)) (Z.land b3 63)
  = (((b0 - 240) * 64 + (b1 - 128)) * 64 + (b2 - 128)) * 64 + (b3 - 128).
Proof.
  intros. rewrite (land_field b0 3 240 7), (land_field b1 6 128 63), (land_field b2 6 128 63),
    (land_field b3 6 128 63) by (reflexivity || (cbn; lia)).
  replace (Z.shiftl (b0 - 240) 18) with (Z.shiftl (Z.shiftl (Z.shiftl (b0 - 240) 6) 6) 6)
    by (rewrite !Z.shiftl_shiftl; reflexivity || lia).
  replace (Z.shiftl (b1 - 128) 12) with (Z.shiftl (Z.shiftl (b1 - 128) 6) 6)
    by (rewrite !Z.shiftl_shiftl; reflexivity || lia).
  rewrite <- !Z.shiftl_lor, !lor_shiftl_add; simpl; lia.
Qed.

Lemma utf8_encode_2 b0 b1 : 194 <= b0 < 224 -> 128 <= b1 <= 191 ->
  utf8_encode ((b0 - 192) * 64 + (b1 - 128)) = String (chr b0) (str1 b1).
Proof.
  intros. unfold utf8_encode.
  destruct (Z.ltb_spec ((b0 - 192) * 64 + (b1 - 128)) 128); [lia|].
  destruct (Z.ltb_spec ((b0 - 192) * 64 + (b1 - 128)) 2048); [|lia].
  rewrite <- (Z.div_unique ((b0 - 192) * 64 + (b1 - 128)) 64 (b0 - 192) (b1 - 128)) by lia.
  rewrite <- (Z.mod_unique ((b0 - 192) * 64 + (b1 - 128)) 64 (b0 - 192) (b1 - 128)) by lia.
  unfold str1. repeat f_equal; lia.
Qed.

Lemma div64_digit a x : 0 <= x < 64 -> (a * 64 + x) / 64 = a.
Proof. intros. symmetry. apply (Z.div_unique _ 64 a x); lia. Qed.
Lemma mod64_digit a x : 0 <= x < 64 -> (a * 64 + x) mod 64 = x.
Proof. intros. symmetry. apply (Z.mod_unique _ 64 a x); lia. Qed.

Lemma utf8_encode_3 x0 x1 x2 : 0 <= x0 < 16 -> 0 <= x1 < 64 -> 0 <= x2 < 64 ->
  2048 <= (x0 * 64 + x1) * 64 + x2 ->
  utf8_encode ((x0 * 64 + x1) * 64 + x2) =
    String (chr (224 + x0)) (String (chr (128 + x1)) (str1 (128 + x2))).
Proof.
  intros. unfold utf8_encode.
  destruct (Z.ltb_spec ((x0 * 64 + x1) * 64 + x2) 128); [lia|].
  destruct (Z.ltb_spec ((x0 * 64 + x1) * 64 + x2) 2048); [lia|].
  destruct (Z.ltb_spec ((x0 * 64 + x1) * 64 + x2) 65536); [|lia].
  replace 4096 with (64 * 64) by reflexivity. rewrite <- Z.div_div by lia.
  rewrite !div64_digit, !mod64_digit by lia. reflexivity.
Qed.

Lemma utf8_encode_4 x0 x1 x2 x3 : 0 <= x0 < 5 -> 0 <= x1 < 64 -> 0 <= x2 < 64 -> 0 <= x3 < 64 ->
  65536 <= ((x0 * 64 + x1) * 64 + x2) * 64 + x3 ->
  utf8_encode (((x0 * 64 + x1) * 64 + x2) * 64 + x3) =
    String (chr (240 + x0)) (String (chr (128 + x1)) (String (chr (128 + x2)) (str1 (128 + x3)))).
Proof.
  intros. unfold utf8_encode.
  destruct (Z.ltb_spec (((x0 * 64 + x1) * 64 + x2) * 64 + x3) 128); [lia|].
  destruct (Z.ltb_spec (((x0 * 64 + x1) * 64 + x2) * 64 + x3) 2048); [lia|].
  destruct (Z.ltb_spec (((x0 * 64 + x1) * 64 + x2) * 64 + x3) 65536); [lia|].
  replace 262144 with (64 * 64 * 64) by reflexivity. replace 4096 with (64 * 64) by reflexivity.
  rewrite <- !Z.div_div by lia.
  rewrite !div64_digit, !mod64_digit by lia. reflexivity.
Qed.

Lemma chr_plus c k : k = byte_of c -> chr k = c.
Proof. intros ->. apply chr_byte. Qed.

Ltac split_ifs H :=
  repeat match type of H with
  | context [if ?b then _ else _] => let E := fresh "E" in destruct b eqn:E
  end.

Ltac arith_hyps :=
  repeat match goal with
  | E : (_ <? _) = true |- _ => apply Z.ltb_lt in E
  | E : (_ <? _) = false |- _ => apply Z.ltb_ge in E
  | E : (_ =? _) = true |- _ => apply Z.eqb_eq in E
  | E : (_ =? _) = false |- _ => apply Z.eqb_neq in E
  | E : (_ && _) = true |- _ => apply andb_true_iff in E as [? ?]
  | E : is_cont _ _ _ = true |- _ => apply is_cont_spec in E
  end.

Lemma decode_rune_valid c rest r size :
  128 <= byte_of c -> decode_rune (String c rest) = (r, size) -> (r, size) <> (RuneError, 1%nat) ->
  (size <= String.length (String c rest))%nat /\
  substring 0 size (String c rest) = utf8_encode r /\
  all_high (substring 0 size (String c rest)) = true.
Proof.
  intros Hb H Hne. pose proof (byte_of_range c) as Rc.
  destruct rest as [|c1 [|c2 [|c3 rest3]]]; unfold decode_rune in H; cbn [byte_at String.get] in H;
    split_ifs H; arith_hyps; try (injection H as <- <-; congruence); try lia.
  all: clear Hne;
    repeat match goal with E : context [if ?b then _ else _] |- _ => destruct b eqn:? end; arith_hyps; try (exfalso; lia);
    repeat match goal with c' : ascii |- _ =>
      lazymatch goal with _ : 0 <= byte_of c' < 256 |- _ => fail | _ => pose proof (byte_of_range c') end end;
    first [rewrite dec2 in H by lia; injection H as <- <-; rewrite utf8_encode_2 by lia
          | rewrite dec3 in H by lia; injection H as <- <-; rewrite utf8_encode_3 by lia
          | rewrite dec4 in H by lia; injection H as <- <-; rewrite utf8_encode_4 by lia];
    cbn [substring String.length all_high]; rewrite ?substring_0_0; unfold str1;
    (split; [lia|split; [repeat f_equal; symmetry; apply chr_plus; lia|]]);
    repeat (apply andb_true_intro; split); try reflexivity; apply Z.leb_le; lia.
Qed.

Lemma prepend_prepend a b x :
  option_map (prepend a) (option_map (prepend b) x) = option_map (prepend (a ++ b)) x.
Proof. destruct x as [[u v]|]; unfold prepend; cbn; [rewrite string_app_assoc|]; reflexivity. Qed.

Lemma hex_digit_check :
  all_range (fun d => match hex_val (hex_digit d) with Some x => x =? d | None => false end)
    0 16 = true.
Proof. vm_compute. reflexivity. Qed.

Lemma hex_val_digit d : 0 <= d < 16 -> hex_val (hex_digit d) = Some d.
Proof.
  intros Hd. pose proof (all_range_spec _ _ _ hex_digit_check d ltac:(cbn; lia)) as Hc.
  cbv beta in Hc. destruct (hex_val (hex_digit d)); [|discriminate].
  apply Z.eqb_eq in Hc. congruence.
Qed.

Lemma d16 y : y / 16 * 16 + y mod 16 = y.
Proof. pose proof (Z.div_mod y 16). lia. Qed.

Lemma hex4_value cp : ((cp / 4096 * 16 + cp / 256 mod 16) * 16 + cp / 16 mod 16) * 16 + cp mod 16 = cp.
Proof.
  replace (cp / 4096) with (cp / 16 / 16 / 16) by (rewrite !Z.div_div by lia; reflexivity).
  replace (cp / 256) with (cp / 16 / 16) by (rewrite !Z.div_div by lia; reflexivity).
  rewrite !d16. reflexivity.
Qed.

Lemma unescape_u_escape f cp rest : 0 <= cp < 65536 -> ~ (55296 <= cp < 57344) ->
  unescape (S f) (u_escape cp ++ rest) = option_map (prepend (utf8_encode cp)) (unescape f rest).
Proof.
  intros Hr Hs. unfold u_escape. cbn [append unescape]. cbn - [hex_digit hex4 surrogate_pair].
  unfold hex4. rewrite !hex_val_digit
    by (split; [apply Z.div_pos || apply Z.mod_pos_bound | apply Z.div_lt_upper_bound || apply Z.mod_pos_bound]; lia).
  rewrite hex4_value. unfold surrogate_pair.
  replace ((55296 <=? cp) && (cp <? 57344)) with false
    by (symmetry; apply Bool.not_true_iff_false; rewrite andb_true_iff, Z.leb_le, Z.ltb_lt; tauto).
  reflexivity.
Qed.

Lemma unescape_plain f c rest : 32 <= byte_of c -> byte_of c <> 34 -> byte_of c <> 92 ->
  unescape (S f) (String c rest) = option_map (prepend (String c EmptyString)) (unescape f rest).
Proof.
  intros H1 H2 H3. cbn [unescape].
  rewrite (proj2 (Z.eqb_neq _ _) H2), (proj2 (Z.eqb_neq _ _) H3).
  destruct (Z.ltb_spec (byte_of c) 32); [lia|reflexivity].
Qed.

Lemma unescape_high f u rest : all_high u = true ->
  unescape (String.length u + f) (u ++ rest) = option_map (prepend u) (unescape f rest).
Proof.
  induction u as [|c u IH]; intros Hu.
  - cbn [String.length Nat.add append]. destruct (unescape f rest) as [[a b]|]; reflexivity.
  - cbn [all_high] in Hu. apply andb_true_iff in Hu as [Hc Hu]. apply Z.leb_le in Hc.
    cbn [String.length append Nat.add]. rewrite unescape_plain by lia.
    rewrite IH by exact Hu. rewrite prepend_prepend. reflexivity.
Qed.

Lemma escape_ascii_length b : (1 <= String.length (escape_ascii b))%nat.
Proof. unfold escape_ascii. repeat destruct (_ =? _); cbn; lia. Qed.

Lemma unescape_escape_ascii f c rest : byte_of c < 128 -> html_safe (byte_of c) = false ->
  unescape (S f) (escape_ascii (byte_of c) ++ rest)
  = option_map (prepend (String c EmptyString)) (unescape f rest).
Proof.
  intros Hlt Hs. pose proof (byte_of_range c) as Rc.
  rewrite <- (chr_byte c) at 2. set (b := byte_of c) in *. clearbody b.
  unfold escape_ascii.
  destruct (Z.eqb_spec b 92); [subst; reflexivity|].
  destruct (Z.eqb_spec b 34); [subst; reflexivity|].
  destruct (Z.eqb_spec b 8); [subst; reflexivity|].
  destruct (Z.eqb_spec b 12); [subst; reflexivity|].
  destruct (Z.eqb_spec b 10); [subst; reflexivity|].
  destruct (Z.eqb_spec b 13); [subst; reflexivity|].
  destruct (Z.eqb_spec b 9); [subst; reflexivity|].
  cbn [orb]. rewrite unescape_u_escape by lia.
  unfold utf8_encode. destruct (Z.ltb_spec b 128); [reflexivity|lia].
Qed.

Lemma u_escape_length cp : String.length (u_escape cp) = 6%nat.
Proof. reflexivity. Qed.

Lemma html_safe_plain b : html_safe b = true -> 32 <= b /\ b <> 34 /\ b <> 92.
Proof.
  unfold html_safe. rewrite !andb_true_iff, !negb_true_iff, !Z.eqb_neq, Z.leb_le. tauto.
Qed.

Lemma unescape_escape n s rest f :
  (String.length (escape n s) < f)%nat ->
  unescape f (escape n s ++ String quote rest) = Some (repair n s, rest).
Proof.
  revert s f. induction n as [|n IH]; intros s f Hf.
  - destruct f; [cbn in Hf; lia|]. reflexivity.
  - destruct s as [|c r]; [destruct f; [cbn in Hf; lia|]; reflexivity|].
    destruct f as [|f]; [lia|]. cbn [escape repair] in Hf |- *.
    destruct (Z.ltb_spec (byte_of c) 128) as [Hlt|Hge].
    + destruct (html_safe (byte_of c)) eqn:Hs.
      * cbn [String.length] in Hf. apply html_safe_plain in Hs as (H1 & H2 & H3).
        cbn [append]. rewrite unescape_plain, IH by lia. reflexivity.
      * rewrite string_app_length in Hf. pose proof (escape_ascii_length (byte_of c)).
        rewrite string_app_assoc, unescape_escape_ascii, IH by (assumption || lia). reflexivity.
    + destruct (decode_rune (String c r)) as [r0 size] eqn:D.
      destruct ((r0 =? RuneError) && (size =? 1)%nat) eqn:Hinv.
      * rewrite string_app_length in Hf.
        rewrite u_escape_length in Hf.
        rewrite string_app_assoc, unescape_u_escape, IH by (unfold RuneError; lia).
        reflexivity.
      * assert (Hne : (r0, size) <> (RuneError, 1%nat)).
        { intros E. injection E as -> ->. rewrite Z.eqb_refl in Hinv. discriminate. }
        destruct (decode_rune_valid c r r0 size ltac:(lia) D Hne) as (Hsz & Hsub & Hhigh).
        destruct ((r0 =? 8232) || (r0 =? 8233)) eqn:H28; rewrite string_app_length in Hf.
        -- assert (r0 = 8232 \/ r0 = 8233) by (apply orb_true_iff in H28; rewrite !Z.eqb_eq in H28; tauto).
           rewrite u_escape_length in Hf.
           rewrite string_app_assoc, unescape_u_escape, IH, Hsub by lia.
           reflexivity.
        -- rewrite string_app_assoc.
           replace (S f) with (String.length (substring 0 size (String c r)) + (S f - String.length (substring 0 size (String c r))))%nat by lia.
           rewrite unescape_high, IH by (assumption || lia). reflexivity.
Qed.

(** Every string, valid UTF-8 or not, is encoded by [appendString] as a
    JSON string that reads back as the string with its invalid bytes
    replaced by U+FFFD, whatever follows it. *)
Lemma decode_encode_string s rest :
  decode_string (encode_string s ++ rest) = Some (utf8_repair s, rest).
Proof.
  unfold encode_string, decode_string. cbn [append]. rewrite string_app_assoc. cbn [append].
  replace (byte_of quote =? 34) with true by reflexivity.
  apply unescape_escape. cbn [String.length]. rewrite !string_app_length. cbn. lia.
Qed.

(** ** The value reader reads back what the encoder writes *)

Lemma prefix_app p r : String.prefix p (p ++ r) = true.
Proof.
  induction p as [|c p IH]; [destruct r; reflexivity|].
  cbn. destruct (ascii_dec c c); [exact IH | congruence].
Qed.

Lemma strip_prefix_app p r : strip_prefix p (p ++ r) = Some r.
Proof. unfold strip_prefix. rewrite prefix_app, substring_app_r. reflexivity. Qed.

Lemma span_digits_app d r :
  all_digits d = true -> starts_digit r = false -> span_digits (d ++ r) = (d, r).
Proof.
  induction d as [|c d IH]; intros Hd Hr.
  - destruct r as [|c r]; [reflexivity|]. cbn in Hr |- *. rewrite Hr. reflexivity.
  - cbn in Hd |- *. apply andb_true_iff in Hd as [Hc Hd]. rewrite Hc, IH by assumption.
    reflexivity.
Qed.

(** The numeral of [formatUint] starts with a digit. *)
Lemma formatUint_head u : 0 <= u ->
  exists c t, formatUint u = String c t /\ 48 <= byte_of c <= 57 /\ all_digits (String c t) = true.
Proof.
  intros Hu. destruct (formatUint_digits u Hu) as [Hall [Hlen _]].
  destruct (formatUint u) as [|c t]; [cbn in Hlen; lia|].
  exists c, t. split; [reflexivity|]. split; [|exact Hall].
  cbn in Hall. apply andb_true_iff in Hall as [Hc _].
  unfold is_digit in Hc. rewrite andb_true_iff, !Z.leb_le in Hc. exact Hc.
Qed.

Lemma parse_number_formatInt z r :
  starts_digit r = false -> parse_number (formatInt z ++ r) = Some (z, r).
Proof.
  intros Hr. pose proof (parseInt_formatInt z) as Hp. unfold formatInt in *.
  destruct (Z.ltb_spec z 0).
  - destruct (formatUint_head (- z) ltac:(lia)) as (c & t & Ht & _ & Hall).
    unfold parse_number. cbn [append]. replace (byte_of "-"%char =? 45) with true by reflexivity.
    rewrite span_digits_app by (rewrite ?Ht; assumption). rewrite Hp. reflexivity.
  - destruct (formatUint_head z ltac:(lia)) as (c & t & Ht & Hc & Hall).
    unfold parse_number. rewrite Ht in *. cbn [append].
    destruct (Z.eqb_spec (byte_of c) 45); [lia|].
    change (String c (t ++ r)) with (String c t ++ r)%string.
    rewrite span_digits_app by assumption. cbn [append]. rewrite Hp. reflexivity.
Qed.

(** The first byte of every encoding: a letter of a literal, a digit or
    the minus sign, a quote, or an opening bracket or brace. *)
Lemma encode_head j : exists c t, encode j = String c t /\
  (byte_of c = 110 \/ byte_of c = 116 \/ byte_of c = 102 \/ byte_of c = 34 \/
   byte_of c = 91 \/ byte_of c = 123 \/ byte_of c = 45 \/ 48 <= byte_of c <= 57).
Proof.
  destruct j as [| [|] | z | s | l | kvs]; cbn [encode]; unfold encode_string;
    try (eexists _, _; split; [reflexivity | cbn; lia]).
  unfold formatInt. destruct (Z.ltb_spec z 0).
  - eexists _, _; split; [reflexivity | cbn; lia].
  - destruct (formatUint_head z ltac:(lia)) as (c & t & -> & Hc & _).
    exists c, t. split; [reflexivity | lia].
Qed.

Lemma encode_length_pos j : (1 <= String.length (encode j))%nat.
Proof. destruct (encode_head j) as (c & t & -> & _). cbn. lia. Qed.

Lemma formatInt_head z : exists c t, formatInt z = String c t /\
  (byte_of c = 45 \/ 48 <= byte_of c <= 57).
Proof.
  unfold formatInt. destruct (Z.ltb_spec z 0).
  - eexists _, _. split; [reflexivity | left; reflexivity].
  - destruct (formatUint_head z ltac:(lia)) as (c & t & -> & Hc & _). eauto.
Qed.

Ltac eqb_false :=
  repeat match goal with |- context [?a =? ?b] =>
    let E := fresh in destruct (Z.eqb_spec a b) as [E|E]; [exfalso; lia|] end.

Lemma join_comma_cons x y l :
  join_comma (x :: y :: l) = (x ++ String "," (join_comma (y :: l)))%string.
Proof. reflexivity. Qed.

Lemma parse_elems_encode l :
  Forall reads_back l -> l <> [] -> forall f rest,
  (S (String.length (join_comma (map encode l))) < f)%nat ->
  parse_elems f (join_comma (map encode l) ++ String "]" rest) = Some (map repair_json l, rest).
Proof.
  induction 1 as [|x l' Hx Hl IH]; intros Hne f rest Hf; [congruence|]; clear Hne.
  destruct f as [|f]; [lia|]. cbn [parse_elems map] in Hf |- *.
  destruct l' as [|y l''].
  - cbn [map join_comma] in Hf |- *. rewrite Hx by (reflexivity || lia). reflexivity.
  - cbn [map] in Hf |- *. rewrite join_comma_cons in Hf |- *.
    rewrite string_app_length in Hf. cbn [String.length] in Hf.
    pose proof (encode_length_pos x).
    rewrite string_app_assoc. cbn [append]. rewrite Hx by (reflexivity || lia).
    cbn [next_byte]. replace (byte_of "," =? 44) with true by reflexivity.
    cbn [map] in IH. rewrite IH by (congruence || lia). reflexivity.
Qed.

Lemma parse_members_encode kvs :
  Forall (fun kv => reads_back (snd kv)) kvs -> kvs <> [] -> forall f rest,
  let enc := map (fun kv => append (encode_string (fst kv)) (String ":" (encode (snd kv)))) kvs in
  (S (String.length (join_comma enc)) < f)%nat ->
  parse_members f (join_comma enc ++ String "}" rest)
  = Some (map (fun kv => (utf8_repair (fst kv), repair_json (snd kv))) kvs, rest).
Proof.
  induction 1 as [|[k v] l' Hv Hl IH]; intros Hne f rest enc Hf; [congruence|]; clear Hne.
  subst enc. destruct f as [|f]; [lia|]. cbn [parse_members map fst snd] in Hf |- *.
  cbn [snd] in Hv. pose proof (encode_length_pos v).
  destruct l' as [|y l''].
  - cbn [map join_comma] in Hf |- *. rewrite !string_app_length in Hf. cbn [String.length] in Hf.
    rewrite string_app_assoc, decode_encode_string. cbn [next_byte append].
    replace (byte_of ":" =? 58) with true by reflexivity.
    rewrite Hv by (reflexivity || lia). cbn [next_byte].
    replace (byte_of "}" =? 44) with false by reflexivity.
    replace (byte_of "}" =? 125) with true by reflexivity. reflexivity.
  - cbn [map fst snd] in Hf |- *. rewrite join_comma_cons in Hf |- *. rewrite !string_app_length in Hf.
    cbn [String.length] in Hf.
    rewrite !string_app_assoc, decode_encode_string. cbn [next_byte append].
    replace (byte_of ":" =? 58) with true by reflexivity.
    rewrite Hv by (reflexivity || lia). cbn [next_byte].
    replace (byte_of "," =? 44) with true by reflexivity.
    cbn [map] in IH. rewrite IH by (congruence || lia). reflexivity.
Qed.

Lemma join_comma_head a l : exists t, join_comma (a :: l) = (a ++ t)%string.
Proof.
  destruct l as [|b l]; [exists EmptyString; symmetry; apply string_app_nil_r|].
  eexists. apply join_comma_cons.
Qed.

(** The first byte after the opening bracket or brace of a non-empty
    array or object. *)
Lemma next_byte_join a l c t rest :
  a = String c t -> exists u, next_byte (join_comma (a :: l) ++ rest) = Some (byte_of c, u).
Proof.
  intros ->. destruct (join_comma_head (String c t) l) as [t' ->]. eexists. reflexivity.
Qed.

Lemma encode_reads_back j : reads_back j.
Proof.
  induction j as [| b | z | s | l Hl | kvs Hkvs] using json_ind'; intros f rest Hf Hr;
    (destruct f as [|f]; [lia|]); cbn [parse_value].
  - change (encode JNull ++ rest)%string with (String "n" ("ull" ++ rest)).
    cbn [next_byte]. rewrite strip_prefix_app. reflexivity.
  - destruct b; [change (encode (JBool true) ++ rest)%string with (String "t" ("rue" ++ rest))
                |change (encode (JBool false) ++ rest)%string with (String "f" ("alse" ++ rest))];
      cbn [next_byte]; rewrite strip_prefix_app; reflexivity.
  - cbn [encode]. destruct (formatInt_head z) as (c & t & E & Hc).
    rewrite (parse_number_formatInt z rest Hr), E. cbn [append next_byte].
    eqb_false. reflexivity.
  - cbn [encode]. unfold encode_string at 1. cbn [append next_byte].
    replace (byte_of quote) with 34 by reflexivity. cbn -[decode_string encode_string].
    rewrite decode_encode_string. reflexivity.
  - cbn [encode] in Hf |- *. cbn [append next_byte].
    replace (byte_of "[" =? 91) with true by reflexivity. cbn -[next_byte parse_elems join_comma].
    destruct l as [|x l']; [reflexivity|].
    cbn [String.length] in Hf. rewrite string_app_length in Hf. cbn [String.length] in Hf.
    rewrite string_app_assoc. cbn [append].
    destruct (encode_head x) as (c & t & E & Hc). cbn [map].
    destruct (next_byte_join _ (map encode l') c t (String "]" rest) E) as [u ->].
    eqb_false. change (encode x :: map encode l') with (map encode (x :: l')).
    rewrite parse_elems_encode by (assumption || congruence || lia). reflexivity.
  - cbn [encode] in Hf |- *. cbn [append next_byte].
    replace (byte_of "{" =? 123) with true by reflexivity. cbn -[next_byte parse_members join_comma encode_string].
    destruct kvs as [|[k v] l']; [reflexivity|].
    cbn [String.length] in Hf. rewrite string_app_length in Hf. cbn [String.length] in Hf.
    rewrite string_app_assoc. cbn [append map fst snd].
    assert (E : (encode_string k ++ String ":" (encode v))%string
      = String quote ((escape (String.length k) k ++ String quote EmptyString) ++ String ":" (encode v)))
      by reflexivity.
    destruct (next_byte_join _ (map (fun kv => append (encode_string (fst kv)) (String ":" (encode (snd kv)))) l')
      _ _ (String "}" rest) E) as [u ->].
    replace (byte_of quote) with 34 by reflexivity. eqb_false.
    rewrite (parse_members_encode ((k, v) :: l')) by (assumption || congruence || lia). reflexivity.
Qed.

Lemma all_ascii_app a b : all_ascii (a ++ b) = all_ascii a && all_ascii b.
Proof. induction a as [|c a IH]; cbn; [reflexivity|]. rewrite IH, andb_assoc. reflexivity. Qed.

Lemma all_digits_ascii s : all_digits s = true -> all_ascii s = true.
Proof.
  induction s as [|c s IH]; cbn; [reflexivity|]. rewrite !andb_true_iff.
  unfold is_digit. rewrite andb_true_iff, !Z.leb_le, Z.ltb_lt. intuition lia.
Qed.

Lemma repair_ascii n s : all_ascii s = true -> (String.length s <= n)%nat -> repair n s = s.
Proof.
  revert n. induction s as [|c s IH]; intros n Ha Hn; destruct n;
    cbn [repair all_ascii String.length] in *; try lia; try reflexivity.
  apply andb_true_iff in Ha as [Hc Ha]. rewrite Hc, IH by (assumption || lia). reflexivity.
Qed.

(** An ASCII string is kept as it is by the encoder. *)
Lemma utf8_repair_ascii s : all_ascii s = true -> utf8_repair s = s.
Proof. intros Ha. apply repair_ascii; [exact Ha | lia]. Qed.

(** Every JSON value is written by [json.NewEncoder(w).Encode] so that
    it reads back as itself, with only its invalid UTF-8 bytes replaced
    by U+FFFD, followed by the newline the encoder appends. *)
Theorem Decode_Encode j : Decode (Encode j) = Some (repair_json j, str1 10).
Proof.
  unfold Decode, Encode. apply encode_reads_back; [|reflexivity].
  rewrite string_app_length. cbn. lia.
Qed.

(** [appendString] on [<], an invalid byte, U+2028 and a quote. *)
Example encode_string_examples :
  encode_string (String (chr 60) (String (chr 255) (String (chr 226) (String (chr 128)
    (String (chr 168) (str1 34))))))
  = (str1 34 ++ "\u003c\ufffd\u2028\" ++ str1 34 ++ str1 34)%string.
Proof. vm_compute. reflexivity. Qed.

End Json.
