(* ===== verification/Body.v ===== *)
(** * Body: the JSON bodies the handlers send (main.go:16-64, 141, 152)

    [c.JSON(http.StatusOK, v)] encodes [v] with [encoding/json]: a
    struct becomes an object whose members are its exported fields in
    declaration order, each under the name of its [json] tag
    (main.go:16-64), an [int] field a number, a [string] field a string,
    the [[]Endpoint] slice an array.  [ServiceInfo_json] and the others
    are those encodings, as values of [Json.json]; [body] is the bytes
    written, [Json.Encode] of the value, for a request without a
    [pretty] query key ([Indent.response_body] covers every request).  The error body of Echo's
    [DefaultHTTPErrorHandler] is the map [{"message": m}].

    The theorems read the bodies back with [Json.Decode]: the health
    body is the object [{"status", "timestamp", "uptime_seconds"}] with
    the values of the handler, its timestamp unchanged by the encoder;
    the info body has exactly the five members of [ServiceInfo] in
    order. *)

From Stdlib Require Import ZArith String Ascii List Lia Bool.
From S2P Require Import Prelude GoFmt GoTime TimeFormat Uptime SystemInfo Echo Handlers Json.
Import ListNotations.
Open Scope Z_scope.

Module Body.
Import GoFmt GoTime TimeFormat SystemInfo Handlers Json.

Local Open Scope string_scope.

(** ** The encodings of the structs *)

(** [Service] (main.go:16-21). *)
Definition Service_json (s : Service.Service) : json :=
  JObject [("name", JString (Service.Name s)); ("version", JString (Service.Version s));
           ("description", JString (Service.Description s));
           ("framework", JString (Service.Framework s))].

(** [System] (main.go:23-30). *)
Definition System_json (s : System) : json :=
  JObject [("hostname", JString (Hostname s)); ("platform", JString (Platform s));
           ("platform_version", JString (PlatformVersion s));
           ("architecture", JString (Architecture s)); ("cpu_count", JInt (CPUCount s));
           ("go_version", JString (GoVersion s))].

(** [Runtime] (main.go:32-37). *)
Definition Runtime_json (r : Runtime.Runtime) : json :=
  JObject [("uptime_seconds", JInt (Runtime.UptimeSeconds r));
           ("uptime_human", JString (Runtime.UptimeHuman r));
           ("current_time", JString (Runtime.CurrentTime r));
           ("timezone", JString (Runtime.Timezone r))].

(** [Request] (main.go:39-44). *)
Definition Request_json (r : Request.Request) : json :=
  JObject [("client_ip", JString (Request.ClientIP r)); ("user_agent", JString (Request.UserAgent r));
           ("method", JString (Request.Method r)); ("path", JString (Request.Path r))].

(** [Endpoint] (main.go:46-50). *)
Definition Endpoint_json (e : Endpoint.Endpoint) : json :=
  JObject [("path", JString (Endpoint.Path e)); ("method", JString (Endpoint.Method e));
           ("description", JString (Endpoint.Description e))].

(** [ServiceInfo] (main.go:52-58). *)
Definition ServiceInfo_json (i : ServiceInfo.ServiceInfo) : json :=
  JObject [("service", Service_json (ServiceInfo.Service i));
           ("system", System_json (ServiceInfo.System i));
           ("runtime", Runtime_json (ServiceInfo.Runtime i));
           ("request", Request_json (ServiceInfo.Request i));
           ("endpoints", JArray (map Endpoint_json (ServiceInfo.Endpoints i)))].

(** [HealthResponse] (main.go:60-64). *)
Definition HealthResponse_json (h : HealthResponse.HealthResponse) : json :=
  JObject [("status", JString (HealthResponse.Status h));
           ("timestamp", JString (HealthResponse.Timestamp h));
           ("uptime_seconds", JInt (HealthResponse.UptimeSeconds h))].

Definition Payload_json (p : Payload) : json :=
  match p with
  | InfoPayload i => ServiceInfo_json i
  | HealthPayload h => HealthResponse_json h
  | ErrorPayload m => JObject [("message", JString m)]
  end.

(** The bytes [c.JSON] writes for a response. *)
Definition body (r : Response) : string := Encode (Payload_json (Body r)).

(** ** The bytes the encoder keeps *)

Local Close Scope string_scope.

Lemma all_ascii_digits u : 0 <= u -> all_ascii (formatUint u) = true.
Proof. intros Hu. apply all_digits_ascii, formatUint_digits, Hu. Qed.

Lemma all_ascii_formatInt z : all_ascii (formatInt z) = true.
Proof.
  unfold formatInt. destruct (Z.ltb_spec z 0);
    [cbn [append all_ascii]; rewrite all_ascii_digits by lia | apply all_ascii_digits; lia].
  reflexivity.
Qed.

Lemma all_ascii_zeros n : all_ascii (zeros n) = true.
Proof. induction n as [|n IH]; [reflexivity|]. cbn [zeros all_ascii]. rewrite IH. reflexivity. Qed.

Lemma all_ascii_appendInt x w : all_ascii (appendInt x w) = true.
Proof.
  unfold appendInt. destruct (x <? 0); rewrite ?all_ascii_app, all_ascii_zeros, all_ascii_digits
    by lia; reflexivity.
Qed.

(** The RFC 3339 form of an instant is ASCII. *)
Lemma all_ascii_FormatRFC3339 t : all_ascii (FormatRFC3339 t) = true.
Proof.
  unfold FormatRFC3339, appendFormatRFC3339. destruct (civil_from_days _) as [[y mo] d].
  rewrite !all_ascii_app, !all_ascii_appendInt. reflexivity.
Qed.

Lemma all_ascii_phrase n suffix :
  all_ascii suffix = true -> all_ascii (Uptime.sprintf_d n suffix) = true.
Proof. intros H. unfold Uptime.sprintf_d. rewrite all_ascii_app, all_ascii_formatInt, H. reflexivity. Qed.

(** The human form of the uptime is ASCII. *)
Lemma all_ascii_human s human :
  Uptime.uptime_of_seconds s = Some (s, human) -> all_ascii human = true.
Proof.
  unfold Uptime.uptime_of_seconds, Uptime.join_human, Uptime.parts_of, Uptime.index.
  assert (Hh : forall h, all_ascii (Uptime.hour_phrase h) = true)
    by (intros h; unfold Uptime.hour_phrase; destruct (h =? 1); apply all_ascii_phrase; reflexivity).
  assert (Hm : forall m, all_ascii (Uptime.minute_phrase m) = true)
    by (intros m; unfold Uptime.minute_phrase; destruct (m =? 1); apply all_ascii_phrase; reflexivity).
  destruct (0 <? Uptime.hours_of s); cbn [nth_error app length Nat.ltb Nat.leb]; intros E;
    injection E as <-;
    rewrite ?all_ascii_app; cbn [all_ascii]; rewrite ?Hh, ?Hm; reflexivity.
Qed.

(** ** The bodies of the responses *)

Section Bodies.
Context {W : Type} `{Clock W} `{Host W}.

(** C3: the body of [GET /health] is the JSON object
    [{"status":"healthy","timestamp":T,"uptime_seconds":S}], with its
    members in this order, followed by a newline: reading it back gives
    the literal ["healthy"], the RFC 3339 form [T] of the second clock
    read unchanged, and the number [S] of whole seconds of the first. *)
Theorem healthHandler_body startTime w :
  let w1 := snd (now w) in
  Decode (body (fst (healthHandler startTime w))) =
    Some (JObject [("status", JString "healthy");
                   ("timestamp", JString (FormatRFC3339 (fst (now w1))));
                   ("uptime_seconds", JInt (whole_seconds (Sub (fst (now w)) startTime)))]%string,
          str1 10).
Proof.
  cbv zeta. rewrite healthHandler_eval. unfold body. rewrite Decode_Encode. cbn [fst Body Payload_json].
  unfold HealthResponse_json. cbn [repair_json map fst snd HealthResponse.Status
    HealthResponse.Timestamp HealthResponse.UptimeSeconds].
  rewrite (utf8_repair_ascii (FormatRFC3339 _)) by apply all_ascii_FormatRFC3339. reflexivity.
Qed.

(** C4: the body of [GET /] is the JSON object with the five members
    [service], [system], [runtime], [request] and [endpoints] in this
    order: the constant service descriptor and the two endpoints
    exactly, the uptime, its human form, the RFC 3339 time and ["UTC"]
    unchanged, and the host's and the request's strings with only their
    invalid UTF-8 replaced. *)
Theorem mainHandler_body startTime r w :
  let w1 := snd (now w) in
  let s := whole_seconds (Sub (fst (now w)) startTime) in
  exists human, Uptime.uptime_of_seconds s = Some (s, human) /\
  Decode (body (fst (mainHandler startTime r w))) =
    Some (JObject [("service", Service_json service_descriptor);
                   ("system", repair_json (System_json (getSystemInfo_of (host w1))));
                   ("runtime", JObject [("uptime_seconds", JInt s); ("uptime_human", JString human);
                                        ("current_time", JString (FormatRFC3339 (fst (now w1))));
                                        ("timezone", JString "UTC")]);
                   ("request", repair_json (Request_json
                      {| Request.ClientIP := Echo.clientIP r; Request.UserAgent := Echo.UserAgent r;
                         Request.Method := Echo.Method r; Request.Path := Echo.URLPath r |}));
                   ("endpoints", JArray (map Endpoint_json endpoints))]%string,
          str1 10).
Proof.
  cbv zeta. destruct (mainHandler_eval startTime r w) as (human & Hh & E).
  exists human. split; [exact Hh|]. rewrite E. unfold body. rewrite Decode_Encode.
  cbn [fst Body Payload_json]. unfold ServiceInfo_json at 1, Runtime_json at 1.
  cbn [repair_json map fst snd
       ServiceInfo.Runtime Runtime.UptimeSeconds Runtime.UptimeHuman Runtime.CurrentTime
       Runtime.Timezone].
  rewrite (utf8_repair_ascii (FormatRFC3339 _)) by apply all_ascii_FormatRFC3339.
  rewrite (utf8_repair_ascii human) by exact (all_ascii_human _ _ Hh). reflexivity.
Qed.

End Bodies.

End Body.
