(* ===== verification/Indent.v ===== *)
(** * Indent: the indented bodies of [c.JSON] and [json.Compact]

    Echo's [c.JSON(code, i)] indents its body with two spaces when the
    request has a [pretty] query parameter (or the instance is in debug
    mode): [DefaultJSONSerializer.Serialize] then calls
    [enc.SetIndent("", "  ")], and [Encoder.Encode] passes the compact
    encoding and its newline through [appendIndent]
    (encoding/json/indent.go).  [appendIndent] and [Compact] (the
    function that removes insignificant white space) are loops over the
    bytes driven by the JSON [scanner]; they only tell apart the
    scanner's answers "inside a literal" ([scanContinue]), "white space
    between tokens" ([scanSkipSpace]), "white space after the value"
    ([scanEnd]) and the ends of objects and arrays, and otherwise look
    at the byte itself.

    [step] is the scanner reduced to what tells those answers apart on
    well-formed JSON: whether a byte is inside a string or just after a
    backslash in one, the nesting of brackets, and whether the
    top-level value has begun.  On the well-formed text the encoder
    writes it answers as the scanner does (the byte after the first
    byte of a number answers [BeginValue] here and [scanContinue] there;
    both loops copy it alike).  The scanner's error on malformed text,
    which makes [appendIndent] fail, is not modelled: the loops only
    ever see the encoder's output.

    The theorems: [appendIndent] of the encoding of a value is the
    indented layout [pretty] (one member or element per line, [": "]
    after a key, [[]] and [{}] for empty ones), and [Compact] takes
    back exactly the white space [appendIndent] adds, on any input.
    A body is indented exactly when an item of the raw query that
    [parseQuery] keeps has the key [pretty].  [content_type] is the
    [Content-Type] header [c.JSON] sets. *)

From Stdlib Require Import ZArith String Ascii List Lia Bool.
From S2P Require Import Prelude GoFmt GoTime TimeFormat SystemInfo Echo World Handlers Json Body.
Import ListNotations.
Open Scope Z_scope.

Module Indent.
Import GoFmt GoTime TimeFormat SystemInfo Echo Handlers Json Body.

(** ** The scanner *)

Inductive mode := Outside | InString | InEscape.

Record scanner := mkScanner { nest : nat; md : mode; started : bool }.

Definition scan0 : scanner := mkScanner 0 Outside false.

(** The scanner's answers, as far as [appendIndent] and [Compact] tell
    them apart. *)
Inductive op := Continue | SkipSpace | End | BeginValue | Open | Close | Punct.

(** [isSpace] of encoding/json/scanner.go. *)
Definition is_space (b : Z) : bool := (b =? 32) || (b =? 9) || (b =? 10) || (b =? 13).

(** [scanner.step] for one byte. *)
Definition step (s : scanner) (c : ascii) : op * scanner :=
  let b := byte_of c in
  match md s with
  | InEscape => (Continue, mkScanner (nest s) InString (started s))
  | InString =>
      if b =? 92 then (Continue, mkScanner (nest s) InEscape (started s))
      else if b =? 34 then (Continue, mkScanner (nest s) Outside (started s))
      else (Continue, s)
  | Outside =>
      if is_space b then ((if started s && Nat.eqb (nest s) 0 then End else SkipSpace), s)
      else if b =? 34 then (BeginValue, mkScanner (nest s) InString true)
      else if (b =? 123) || (b =? 91) then (Open, mkScanner (S (nest s)) Outside true)
      else if (b =? 125) || (b =? 93) then (Close, mkScanner (pred (nest s)) Outside true)
      else if (b =? 44) || (b =? 58) then (Punct, s)
      else (BeginValue, mkScanner (nest s) Outside true)
  end.

(** ** [appendIndent] *)

Fixpoint repeat_str (n : nat) (s : string) : string :=
  match n with O => EmptyString | S k => append s (repeat_str k s) end.

(** [appendNewline]: a newline, the prefix and [depth] indents. *)
Definition newline (prefix indent : string) (depth : nat) : string :=
  String (chr 10) (append prefix (repeat_str depth indent)).

Record ind_state := mkInd { sc : scanner; needIndent : bool; depth : nat }.

(** One iteration of the loop of [appendIndent]. *)
Definition indent_byte (prefix indent : string) (st : ind_state) (c : ascii) : string * ind_state :=
  let (v, sc') := step (sc st) c in
  match v with
  | SkipSpace => (EmptyString, mkInd sc' (needIndent st) (depth st))
  | _ =>
      let '(pre, ni, d) :=
        if needIndent st && negb (match v with Close => true | _ => false end)
        then (newline prefix indent (S (depth st)), false, S (depth st))
        else (EmptyString, needIndent st, depth st) in
      let '(out, ni', d') :=
        match v with
        | Continue => (str1 (byte_of c), ni, d)
        | _ =>
            let b := byte_of c in
            if (b =? 123) || (b =? 91) then (str1 b, true, d)
            else if b =? 44 then (String c (newline prefix indent d), ni, d)
            else if b =? 58 then (String c (str1 32), ni, d)
            else if (b =? 125) || (b =? 93) then
              if ni then (str1 b, false, d)
              else (append (newline prefix indent (pred d)) (str1 b), ni, pred d)
            else (str1 b, ni, d)
        end in
      (append pre out, mkInd sc' ni' d')
  end.

Fixpoint indent_run (prefix indent : string) (st : ind_state) (src : string) : string * ind_state :=
  match src with
  | EmptyString => (EmptyString, st)
  | String c rest =>
      let (o1, st1) := indent_byte prefix indent st c in
      let (o2, st2) := indent_run prefix indent st1 rest in
      (append o1 o2, st2)
  end.

(** [appendIndent(nil, src, prefix, indent)]. *)
Definition appendIndent (src prefix indent : string) : string :=
  fst (indent_run prefix indent (mkInd scan0 false 0) src).

(** ** [Compact] *)

Definition compact_byte (s : scanner) (c : ascii) : string * scanner :=
  let (v, s') := step s c in
  match v with SkipSpace | End => (EmptyString, s') | _ => (str1 (byte_of c), s') end.

Fixpoint compact_run (s : scanner) (src : string) : string * scanner :=
  match src with
  | EmptyString => (EmptyString, s)
  | String c rest =>
      let (o1, s1) := compact_byte s c in
      let (o2, s2) := compact_run s1 rest in
      (append o1 o2, s2)
  end.

(** [json.Compact(dst, src)] into an empty [dst]. *)
Definition Compact (src : string) : string := fst (compact_run scan0 src).

(** ** The layout of an indented value *)

(** The strings of [l] with [sep] between two of them. *)
Fixpoint join_sep (sep : string) (l : list string) : string :=
  match l with
  | [] => EmptyString
  | [x] => x
  | x :: l' => append x (append sep (join_sep sep l'))
  end.

(** [json.MarshalIndent]'s layout of a value at depth [d]: an element
    or member per line, one indent deeper than its brackets, and [": "]
    after a key. *)
Fixpoint pretty (prefix indent : string) (d : nat) (j : json) : string :=
  match j with
  | JArray [] => "[]"
  | JArray l =>
      String "[" (append (newline prefix indent (S d))
        (append (join_sep (String "," (newline prefix indent (S d))) (map (pretty prefix indent (S d)) l))
                (append (newline prefix indent d) "]")))
  | JObject [] => "{}"
  | JObject kvs =>
      String "{" (append (newline prefix indent (S d))
        (append (join_sep (String "," (newline prefix indent (S d)))
                   (map (fun kv => append (encode_string (fst kv))
                                     (String ":" (String " " (pretty prefix indent (S d) (snd kv))))) kvs))
                (append (newline prefix indent d) "}")))
  | _ => encode j
  end%string.

(** The bytes of a JSON string between its quotes, starting after a
    backslash when [esc]: no bare double quote, and a backslash always
    followed by a byte. *)
Fixpoint str_ok (esc : bool) (s : string) : bool :=
  match s with
  | EmptyString => negb esc
  | String c r =>
      if esc then str_ok false r
      else if byte_of c =? 92 then str_ok true r
      else negb (byte_of c =? 34) && str_ok false r
  end.

(** A byte of a literal or a number: none of the white space, the
    double quote or the punctuation the scanner reacts to. *)
Definition plain_byte (b : Z) : bool :=
  negb (is_space b) && negb (b =? 34) && negb ((b =? 123) || (b =? 91)) &&
  negb ((b =? 125) || (b =? 93)) && negb ((b =? 44) || (b =? 58)).

Fixpoint plain (u : string) : bool :=
  match u with EmptyString => true | String c u' => plain_byte (byte_of c) && plain u' end.

Fixpoint all_space (u : string) : bool :=
  match u with EmptyString => true | String c u' => is_space (byte_of c) && all_space u' end.

(** ** What [c.JSON] writes *)

(** Echo's [defaultIndent]. *)
Definition defaultIndent : string := "  ".

(** [DefaultJSONSerializer.Serialize(c, i, indent)]: an [Encoder] on
    the response, [SetIndent("", indent)] when [indent] is not empty,
    then [Encode(i)], which indents when the prefix or the indent is
    not empty. *)
Definition Serialize (v : json) (indent : string) : string :=
  if String.eqb indent "" then Encode v else appendIndent (Encode v) "" indent.

(** [c.JSON(code, i)]: indented when the query has a [pretty] key
    ([c.echo.Debug] is false for [echo.New()]). *)
Definition c_JSON (r : HttpRequest) (v : json) : string :=
  Serialize v (if has_key (QueryParams r) "pretty" then defaultIndent else "").

(** The body sent for a response to [r]: the handlers' [c.JSON]; for an
    error, [DefaultHTTPErrorHandler] sends no body to a [HEAD] request
    ([c.NoContent]) and [c.JSON] of [{"message": m}] to any other. *)
Definition response_body (r : HttpRequest) (resp : Response) : string :=
  match Body resp with
  | ErrorPayload _ => if String.eqb (Method r) "HEAD" then "" else c_JSON r (Payload_json (Body resp))
  | _ => c_JSON r (Payload_json (Body resp))
  end.

(** Echo's [MIMEApplicationJSON], as in echo v4.10 and later, which is
    also the header the spec names; earlier v4 releases write
    [application/json; charset=UTF-8] ([MIMEApplicationJSONCharsetUTF8]).
    The repository pins no Echo version (there is no go.mod). *)
Definition MIMEApplicationJSON : string := "application/json".

(** The [Content-Type] of the response to [r]: [c.JSON] sets it
    ([c.writeContentType(MIMEApplicationJSON)]) before it writes the
    status and the body, for the handlers' answers and the error
    handler's alike; [c.NoContent] sets none. *)
Definition content_type (r : HttpRequest) (resp : Response) : option string :=
  match Body resp with
  | ErrorPayload _ => if String.eqb (Method r) "HEAD" then None else Some MIMEApplicationJSON
  | _ => Some MIMEApplicationJSON
  end.

(** ** Running the loops on concatenations *)

Lemma indent_run_app p i st a b :
  indent_run p i st (a ++ b) =
    let (o1, st1) := indent_run p i st a in
    let (o2, st2) := indent_run p i st1 b in (append o1 o2, st2).
Proof.
  revert st. induction a as [|c a IH]; intros st; cbn [append indent_run].
  - destruct (indent_run p i st b). reflexivity.
  - destruct (indent_byte p i st c) as [o1 st1]. rewrite IH.
    destruct (indent_run p i st1 a) as [o2 st2]. destruct (indent_run p i st2 b) as [o3 st3].
    rewrite string_app_assoc. reflexivity.
Qed.

Lemma compact_run_app s a b :
  compact_run s (a ++ b) =
    let (o1, s1) := compact_run s a in
    let (o2, s2) := compact_run s1 b in (append o1 o2, s2).
Proof.
  revert s. induction a as [|c a IH]; intros s; cbn [append compact_run].
  - destruct (compact_run s b). reflexivity.
  - destruct (compact_byte s c) as [o1 s1]. rewrite IH.
    destruct (compact_run s1 a) as [o2 s2]. destruct (compact_run s2 b) as [o3 s3].
    rewrite string_app_assoc. reflexivity.
Qed.

(** ** Inside strings both loops copy *)

Lemma str_ok_app esc a b : str_ok esc a = true -> str_ok esc (a ++ b) = str_ok false b.
Proof.
  revert esc. induction a as [|c a IH]; intros esc; cbn [str_ok append].
  - destruct esc; [discriminate | reflexivity].
  - destruct esc; [apply IH|]. destruct (byte_of c =? 92); [apply IH|].
    rewrite andb_true_iff. intros [-> H]. apply IH, H.
Qed.

Definition str_mode (esc : bool) : mode := if esc then InEscape else InString.

Lemma compact_in_string esc u n b : str_ok esc u = true ->
  compact_run (mkScanner n (str_mode esc) b) u = (u, mkScanner n InString b).
Proof.
  revert esc. induction u as [|c u IH]; intros esc; cbn [str_ok compact_run].
  - destruct esc; [discriminate | reflexivity].
  - unfold compact_byte, step. destruct esc; cbn [str_mode md nest started].
    + intros H. pose proof (IH false H) as E. cbn [str_mode] in E. rewrite E, str_byte. reflexivity.
    + destruct (byte_of c =? 92) eqn:Eb.
      * intros H. pose proof (IH true H) as E. cbn [str_mode] in E. rewrite E, str_byte. reflexivity.
      * rewrite andb_true_iff, negb_true_iff. intros [-> H].
        pose proof (IH false H) as E. cbn [str_mode] in E. rewrite E, str_byte. reflexivity.
Qed.
Lemma indent_in_string p i esc u n b d : str_ok esc u = true ->
  indent_run p i (mkInd (mkScanner n (str_mode esc) b) false d) u =
    (u, mkInd (mkScanner n InString b) false d).
Proof.
  revert esc. induction u as [|c u IH]; intros esc; cbn [str_ok indent_run].
  - destruct esc; [discriminate | reflexivity].
  - unfold indent_byte, step. destruct esc; cbn [str_mode md nest started sc needIndent depth andb].
    + intros H. pose proof (IH false H) as E. cbn [str_mode] in E. rewrite E, str_byte. reflexivity.
    + destruct (byte_of c =? 92) eqn:Eb.
      * intros H. pose proof (IH true H) as E. cbn [str_mode] in E. rewrite E, str_byte. reflexivity.
      * rewrite andb_true_iff, negb_true_iff. intros [-> H].
        pose proof (IH false H) as E. cbn [str_mode] in E. rewrite E, str_byte. reflexivity.
Qed.

(** ** The string escaper writes the inside of a string *)

Lemma str_ok_plain c r : byte_of c <> 92 -> byte_of c <> 34 -> str_ok false (String c r) = str_ok false r.
Proof.
  intros H1 H2. cbn [str_ok]. apply Z.eqb_neq in H1, H2. rewrite H1, H2. reflexivity.
Qed.

Lemma str_ok_backslash c r : str_ok false (String backslash (String c r)) = str_ok false r.
Proof. reflexivity. Qed.

Lemma hex_digit_plain_check :
  all_range (fun d => negb (byte_of (hex_digit d) =? 92) && negb (byte_of (hex_digit d) =? 34)) 0 16 = true.
Proof. vm_compute. reflexivity. Qed.

Lemma str_ok_hex d r : 0 <= d < 16 -> str_ok false (String (hex_digit d) r) = str_ok false r.
Proof.
  intros Hd. pose proof (all_range_spec _ _ _ hex_digit_plain_check d ltac:(cbn; lia)) as Hc.
  cbv beta in Hc. rewrite andb_true_iff, !negb_true_iff, !Z.eqb_neq in Hc.
  apply str_ok_plain; tauto.
Qed.

Lemma str_ok_u_escape n : 0 <= n < 65536 -> str_ok false (u_escape n) = true.
Proof.
  intros Hn. unfold u_escape. rewrite str_ok_backslash.
  rewrite !str_ok_hex; try reflexivity; try (apply Z.mod_pos_bound; lia).
  split; [apply Z.div_pos | apply Z.div_lt_upper_bound]; lia.
Qed.

Lemma str_ok_escape_ascii b : 0 <= b < 128 -> str_ok false (escape_ascii b) = true.
Proof.
  intros Hb. unfold escape_ascii.
  destruct (_ || _); [reflexivity|]. do 5 (destruct (_ =? _); [reflexivity|]).
  apply str_ok_u_escape. lia.
Qed.

Lemma str_ok_high u : all_high u = true -> str_ok false u = true.
Proof.
  induction u as [|c u IH]; [reflexivity|]. cbn [all_high]. rewrite andb_true_iff, Z.leb_le.
  intros [Hc Hu]. rewrite str_ok_plain by lia. apply IH, Hu.
Qed.

(** Whatever the string, [appendString] writes bytes that stay inside
    the string: no bare double quote, no dangling backslash. *)
Lemma str_ok_escape n s : str_ok false (escape n s) = true.
Proof.
  revert s. induction n as [|n IH]; intros s; [reflexivity|].
  destruct s as [|c r]; [reflexivity|]. cbn [escape].
  destruct (Z.ltb_spec (byte_of c) 128) as [Hlt|Hge].
  - pose proof (byte_of_range c).
    destruct (html_safe (byte_of c)) eqn:Hs.
    + apply html_safe_plain in Hs as (_ & H2 & H3). rewrite str_ok_plain by assumption. apply IH.
    + rewrite str_ok_app by (apply str_ok_escape_ascii; lia). apply IH.
  - destruct (decode_rune (String c r)) as [r0 size] eqn:D.
    destruct ((r0 =? RuneError) && (size =? 1)%nat) eqn:Hinv.
    + rewrite str_ok_app by (apply str_ok_u_escape; unfold RuneError; lia). apply IH.
    + assert (Hne : (r0, size) <> (RuneError, 1%nat)).
      { intros E. injection E as -> ->. rewrite Z.eqb_refl in Hinv. discriminate. }
      destruct (decode_rune_valid c r r0 size ltac:(lia) D Hne) as (_ & _ & Hhigh).
      destruct ((r0 =? 8232) || (r0 =? 8233)) eqn:H28.
      * assert (r0 = 8232 \/ r0 = 8233) by (apply orb_true_iff in H28; rewrite !Z.eqb_eq in H28; tauto).
        rewrite str_ok_app by (apply str_ok_u_escape; lia). apply IH.
      * rewrite str_ok_app by (apply str_ok_high, Hhigh). apply IH.
Qed.

(** ** Tokens outside strings *)

Lemma step_plain s c : md s = Outside -> plain_byte (byte_of c) = true ->
  step s c = (BeginValue, mkScanner (nest s) Outside true).
Proof.
  intros Hs Hc. unfold step. rewrite Hs. unfold plain_byte in Hc.
  rewrite !andb_true_iff, !negb_true_iff in Hc. destruct Hc as ((((-> & ->) & ->) & ->) & ->).
  reflexivity.
Qed.

Lemma compact_plain u n b : u <> EmptyString -> plain u = true ->
  compact_run (mkScanner n Outside b) u = (u, mkScanner n Outside true).
Proof.
  revert b. induction u as [|c u IH]; intros b Hne; [congruence|]. cbn [plain compact_run].
  rewrite andb_true_iff. intros [Hc Hu]. unfold compact_byte. rewrite step_plain by (reflexivity || assumption).
  cbn [nest]. rewrite str_byte. destruct u as [|c' u']; [reflexivity|].
  rewrite IH by (congruence || assumption). reflexivity.
Qed.

Lemma plain_digits u : all_digits u = true -> plain u = true.
Proof.
  induction u as [|c u IH]; [reflexivity|]. cbn [all_digits plain]. unfold is_digit.
  rewrite !andb_true_iff, !Z.leb_le. intros [Hc Hu]. split; [|apply IH, Hu].
  unfold plain_byte, is_space.
  repeat match goal with |- context [?x =? ?y] => destruct (Z.eqb_spec x y); [lia|] end. reflexivity.
Qed.

(** A numeral and a literal are plain, non-empty tokens. *)
Lemma plain_scalar j : match j with JArray _ | JObject _ | JString _ => False | _ => True end ->
  encode j <> EmptyString /\ plain (encode j) = true.
Proof.
  destruct j as [| [|] | z | s | l | kvs]; intros H; try contradiction; try (split; [discriminate | reflexivity]).
  cbn [encode]. destruct (formatInt_head z) as (c & t & E & _). rewrite E. split; [discriminate|].
  rewrite <- E. unfold formatInt. destruct (Z.ltb_spec z 0).
  - cbn [append plain]. apply plain_digits, formatUint_digits. lia.
  - apply plain_digits, formatUint_digits. lia.
Qed.

Lemma step_quote_out s : md s = Outside -> step s quote = (BeginValue, mkScanner (nest s) InString true).
Proof. intros Hs. unfold step. rewrite Hs. reflexivity. Qed.

Lemma compact_encode_string str n b :
  compact_run (mkScanner n Outside b) (encode_string str) = (encode_string str, mkScanner n Outside true).
Proof.
  unfold encode_string. cbn [compact_run]. unfold compact_byte at 1. rewrite step_quote_out by reflexivity.
  cbn [nest]. rewrite compact_run_app.
  pose proof (compact_in_string false _ n true (str_ok_escape (String.length str) str)) as E.
  cbn [str_mode] in E. rewrite E. reflexivity.
Qed.

(** ** [Compact] keeps the encoder's output *)

Lemma compact_join s us : md s = Outside -> Forall (fun u => compact_run s u = (u, s)) us ->
  compact_run s (join_comma us) = (join_comma us, s).
Proof.
  intros Hs. induction 1 as [|u us Hu Hus IH]; [reflexivity|].
  destruct us as [|u' us']; [exact Hu|]. rewrite join_comma_cons, compact_run_app, Hu.
  cbn [compact_run]. unfold compact_byte at 1, step at 1. rewrite Hs. cbn -[join_comma].
  destruct s as [n m b]; cbn in Hs; subst m. rewrite IH. reflexivity.
Qed.

(** The encoder writes no white space outside strings: [Compact]
    leaves the encoding of every value as it is, and the brackets
    balance. *)
Lemma compact_encode j : forall n b,
  compact_run (mkScanner n Outside b) (encode j) = (encode j, mkScanner n Outside true).
Proof.
  induction j as [| bl | z | str | l IH | kvs IH] using json_ind'; intros n b;
    try (apply compact_plain; apply plain_scalar; exact I).
  - apply compact_encode_string.
  - cbn [encode compact_run]. unfold compact_byte at 1, step at 1. cbn -[join_comma].
    rewrite compact_run_app, compact_join by
      (reflexivity || (apply Forall_map; eapply Forall_impl; [|exact IH]; intros x Hx; apply Hx)).
    reflexivity.
  - cbn [encode compact_run]. unfold compact_byte at 1, step at 1. cbn -[join_comma encode_string].
    rewrite compact_run_app, compact_join; [reflexivity | reflexivity|].
    apply Forall_map. eapply Forall_impl; [|exact IH]. intros [k v] Hv. cbn [fst snd] in *.
    rewrite compact_run_app, compact_encode_string. cbn [compact_run]. unfold compact_byte at 1, step at 1.
    cbn -[encode]. rewrite Hv. reflexivity.
Qed.

(** [json.Compact] of [Encoder.Encode]'s output is the compact encoding
    without the newline. *)
Lemma Compact_Encode j : Compact (Encode j) = encode j.
Proof.
  unfold Compact, Encode, scan0. rewrite compact_run_app, compact_encode. cbn. apply string_app_nil_r.
Qed.

(** ** [Compact] removes what [appendIndent] adds *)

Lemma step_space s c : md s = Outside -> is_space (byte_of c) = true ->
  step s c = ((if started s && Nat.eqb (nest s) 0 then End else SkipSpace), s).
Proof. intros Hs Hc. unfold step. rewrite Hs, Hc. reflexivity. Qed.

Lemma compact_space s w : md s = Outside -> all_space w = true -> compact_run s w = (EmptyString, s).
Proof.
  intros Hs. induction w as [|c w IH]; [reflexivity|]. cbn [all_space compact_run].
  rewrite andb_true_iff. intros [Hc Hw]. unfold compact_byte. rewrite step_space by assumption.
  destruct (_ && _); cbn -[compact_run]; rewrite IH by exact Hw; reflexivity.
Qed.

Lemma compact_space_app s w r : md s = Outside -> all_space w = true ->
  compact_run s (w ++ r) = compact_run s r.
Proof.
  intros Hs Hw. rewrite compact_run_app, compact_space by assumption. cbn [append].
  destruct (compact_run s r). reflexivity.
Qed.

Lemma all_space_app a b : all_space (a ++ b) = all_space a && all_space b.
Proof. induction a as [|c a IH]; cbn; [reflexivity|]. rewrite IH, andb_assoc. reflexivity. Qed.

Lemma all_space_repeat i d : all_space i = true -> all_space (repeat_str d i) = true.
Proof. intros Hi. induction d as [|d IH]; [reflexivity|]. cbn [repeat_str]. rewrite all_space_app, Hi, IH. reflexivity. Qed.

Lemma all_space_newline p i d : all_space p = true -> all_space i = true ->
  all_space (newline p i d) = true.
Proof.
  intros Hp Hi. unfold newline. cbn [all_space]. rewrite all_space_app, Hp, all_space_repeat by exact Hi.
  reflexivity.
Qed.

Lemma space_not_punct b : is_space b = true ->
  ((b =? 123) || (b =? 91)) = false /\ (b =? 44) = false /\ (b =? 58) = false /\
  ((b =? 125) || (b =? 93)) = false /\ (b =? 34) = false.
Proof.
  unfold is_space. intros H. repeat rewrite orb_true_iff in H. rewrite !Z.eqb_eq in H.
  destruct H as [[[-> | ->] | ->] | ->]; repeat split; reflexivity.
Qed.

Ltac use_eqs :=
  repeat match goal with
  | H : ?e = true |- context [?e] => rewrite H
  | H : ?e = false |- context [?e] => rewrite H
  | H : byte_of ?c = ?k |- context [byte_of ?c] => rewrite H
  end.

(** The bytes [appendIndent] writes for one input byte, compacted from
    the scanner's state before it. *)
Ltac compact_out :=
  use_eqs; cbn -[newline compact_run]; rewrite ?str_byte;
  rewrite ?compact_space_app by (reflexivity || auto); cbn [compact_run append];
  unfold compact_byte, step; cbn [md nest started]; use_eqs; cbn -[newline];
  rewrite ?compact_space by (reflexivity || auto); cbn; rewrite ?chr_byte;
  repeat split; try reflexivity; try (intros Hf; discriminate Hf); auto;
  destruct (_ && Nat.eqb _ _); reflexivity.

(** One byte: what [Compact] makes of [appendIndent]'s output for it
    is what it makes of the byte, and both scanners move alike. *)
Lemma compact_indent_byte p i st c :
  all_space p = true -> all_space i = true -> (needIndent st = true -> md (sc st) = Outside) ->
  compact_run (sc st) (fst (indent_byte p i st c)) = compact_byte (sc st) c /\
  sc (snd (indent_byte p i st c)) = snd (step (sc st) c) /\
  (needIndent (snd (indent_byte p i st c)) = true -> md (sc (snd (indent_byte p i st c))) = Outside).
Proof.
  intros Hp Hi Hinv. destruct st as [[n m b0] ni d]. cbn [sc needIndent depth] in *.
  pose proof (all_space_newline p i) as Hnl.
  unfold indent_byte, compact_byte, step. cbn [md nest started sc needIndent depth].
  destruct m.
  - destruct (is_space (byte_of c)) eqn:Hsp.
    + destruct (space_not_punct _ Hsp) as (H1 & H2 & H3 & H4 & H5).
      destruct (b0 && Nat.eqb n 0) eqn:Hend; [|cbn; auto].
      use_eqs. destruct ni; compact_out.
    + destruct (byte_of c =? 34) eqn:Hq.
      * apply Z.eqb_eq in Hq. destruct ni; compact_out.
      * destruct ((byte_of c =? 123) || (byte_of c =? 91)) eqn:Ho; [destruct ni; compact_out|].
        destruct ((byte_of c =? 125) || (byte_of c =? 93)) eqn:Hc.
        { apply orb_true_iff in Hc. rewrite !Z.eqb_eq in Hc. destruct Hc as [Hc|Hc]; destruct ni; compact_out. }
        destruct (byte_of c =? 44) eqn:H44; [destruct ni; compact_out|].
        destruct (byte_of c =? 58) eqn:H58; destruct ni; compact_out.
  - destruct ni; [discriminate (Hinv eq_refl)|].
    destruct (byte_of c =? 92) eqn:Hb; [|destruct (byte_of c =? 34) eqn:Hq]; compact_out.
  - destruct ni; [discriminate (Hinv eq_refl)|]. compact_out.
Qed.

Lemma compact_byte_state s c : snd (compact_byte s c) = snd (step s c).
Proof. unfold compact_byte. destruct (step s c) as [[] s']; reflexivity. Qed.

Lemma compact_indent_run p i src : all_space p = true -> all_space i = true ->
  forall st, (needIndent st = true -> md (sc st) = Outside) ->
  compact_run (sc st) (fst (indent_run p i st src)) = compact_run (sc st) src.
Proof.
  intros Hp Hi. induction src as [|c src IH]; intros st Hinv; [reflexivity|].
  cbn [indent_run compact_run].
  destruct (compact_indent_byte p i st c Hp Hi Hinv) as (H1 & H2 & H3).
  destruct (indent_byte p i st c) as [o1 st1]. cbn [fst snd] in H1, H2, H3.
  pose proof (IH st1 H3) as IH1. destruct (indent_run p i st1 src) as [o2 st2]. cbn [fst] in IH1 |- *.
  rewrite compact_run_app, H1. pose proof (compact_byte_state (sc st) c) as Hs.
  destruct (compact_byte (sc st) c) as [x1 s1]. cbn [snd] in Hs. rewrite <- H2 in Hs. subst s1.
  rewrite IH1. reflexivity.
Qed.

(** ** [appendIndent] lays the encoder's output out as [pretty] *)

Lemma plain_byte_tests b : plain_byte b = true ->
  is_space b = false /\ (b =? 34) = false /\ ((b =? 123) || (b =? 91)) = false /\
  ((b =? 125) || (b =? 93)) = false /\ (b =? 44) = false /\ (b =? 58) = false.
Proof.
  unfold plain_byte. rewrite !andb_true_iff, !negb_true_iff, !orb_false_iff. tauto.
Qed.

Lemma indent_plain p i u n b d : u <> EmptyString -> plain u = true ->
  indent_run p i (mkInd (mkScanner n Outside b) false d) u =
    (u, mkInd (mkScanner n Outside true) false d).
Proof.
  revert b. induction u as [|c u IH]; intros b Hne; [congruence|]. cbn [plain indent_run].
  rewrite andb_true_iff. intros [Hc Hu].
  destruct (plain_byte_tests _ Hc) as (H1 & H2 & H3 & H4 & H5 & H6).
  unfold indent_byte. rewrite step_plain by (reflexivity || assumption). cbn [nest sc needIndent depth andb].
  rewrite H3, H5, H6, H4, str_byte.
  destruct u as [|c' u']; [reflexivity|]. rewrite IH by (congruence || assumption). reflexivity.
Qed.

Lemma indent_encode_string p i str n b d :
  indent_run p i (mkInd (mkScanner n Outside b) false d) (encode_string str) =
    (encode_string str, mkInd (mkScanner n Outside true) false d).
Proof.
  unfold encode_string. cbn [indent_run]. unfold indent_byte at 1. rewrite step_quote_out by reflexivity.
  cbn [nest sc needIndent depth andb]. replace (byte_of quote) with 34 by reflexivity. cbn -[indent_run].
  rewrite indent_run_app.
  pose proof (indent_in_string p i false _ n true d (str_ok_escape (String.length str) str)) as E.
  cbn [str_mode] in E. rewrite E. reflexivity.
Qed.

(** An opening bracket delays its newline to the next byte that does
    not close it. *)
Lemma indent_pending p i s d c t : md s = Outside -> is_space (byte_of c) = false ->
  ((byte_of c =? 125) || (byte_of c =? 93)) = false ->
  indent_run p i (mkInd s true d) (String c t) =
    let (o, st') := indent_run p i (mkInd s false (S d)) (String c t) in
    (append (newline p i (S d)) o, st').
Proof.
  intros Hs Hsp Hcl. cbn [indent_run]. unfold indent_byte at 1 2. cbn [sc needIndent depth andb].
  assert (Hv : exists v s', step s c = (v, s') /\ v <> SkipSpace /\ v <> Close).
  { unfold step. rewrite Hs, Hsp, Hcl.
    destruct (byte_of c =? 34); [eexists _, _; split; [reflexivity | split; discriminate]|].
    destruct ((byte_of c =? 123) || (byte_of c =? 91)); [eexists _, _; split; [reflexivity | split; discriminate]|].
    destruct ((byte_of c =? 44) || (byte_of c =? 58)); eexists _, _; (split; [reflexivity | split; discriminate]). }
  destruct Hv as (v & s' & -> & Hv1 & Hv2).
  destruct v; try congruence; cbn -[newline indent_run];
    repeat match goal with |- context [if ?b then _ else _] => destruct b end; cbn -[newline indent_run];
    repeat match goal with |- context [indent_run ?a ?b ?c t] => destruct (indent_run a b c t) end;
    rewrite ?string_app_assoc; reflexivity.
Qed.

Lemma encode_first j : exists c t, encode j = String c t /\ is_space (byte_of c) = false /\
  ((byte_of c =? 125) || (byte_of c =? 93)) = false.
Proof.
  destruct (encode_head j) as (c & t & E & Hc). exists c, t. split; [exact E|].
  unfold is_space. repeat match goal with |- context [?x =? ?y] => destruct (Z.eqb_spec x y); [lia|] end.
  split; reflexivity.
Qed.

Lemma step_comma s c : md s = Outside -> byte_of c = 44 -> step s c = (Punct, s).
Proof. intros Hs Hc. unfold step. rewrite Hs, Hc. reflexivity. Qed.

Lemma indent_join p i s D us ws : md s = Outside ->
  Forall2 (fun u w => indent_run p i (mkInd s false D) u = (w, mkInd s false D)) us ws ->
  indent_run p i (mkInd s false D) (join_comma us) =
    (join_sep (String "," (newline p i D)) ws, mkInd s false D).
Proof.
  intros Hs. induction 1 as [|u w us ws Hu Hus IH]; [reflexivity|].
  destruct Hus as [|u' w' us' ws' Hu' Hus']; [exact Hu|].
  rewrite join_comma_cons, indent_run_app, Hu. cbn [indent_run]. unfold indent_byte at 1.
  rewrite step_comma by (reflexivity || assumption). cbn -[newline indent_run join_comma].
  rewrite IH. cbn [join_sep]. reflexivity.
Qed.

Lemma Forall2_map_map {A B C} (R : B -> C -> Prop) (f : A -> B) (g : A -> C) l :
  Forall (fun x => R (f x) (g x)) l -> Forall2 R (map f l) (map g l).
Proof. induction 1; constructor; assumption. Qed.

(** A bracketed list: the opening bracket, the elements laid out one
    level deeper, the closing bracket on a line of its own. *)
Lemma indent_brackets p i n b d (o cl : ascii) us ws :
  byte_of o = 123 \/ byte_of o = 91 -> byte_of cl = 125 \/ byte_of cl = 93 ->
  us <> [] -> (forall u, In u us -> exists c t, u = String c t /\ is_space (byte_of c) = false /\
                 ((byte_of c =? 125) || (byte_of c =? 93)) = false) ->
  Forall2 (fun u w => indent_run p i (mkInd (mkScanner (S n) Outside true) false (S d)) u =
                        (w, mkInd (mkScanner (S n) Outside true) false (S d))) us ws ->
  indent_run p i (mkInd (mkScanner n Outside b) false d) (String o (join_comma us ++ String cl "")) =
    (String o (append (newline p i (S d))
       (append (join_sep (String "," (newline p i (S d))) ws) (append (newline p i d) (String cl "")))),
     mkInd (mkScanner n Outside true) false d).
Proof.
  intros Ho Hc Hne Hfirst Hall.
  assert (Eo : step (mkScanner n Outside b) o = (Open, mkScanner (S n) Outside true)).
  { unfold step. cbn [md nest]. destruct Ho as [Ho|Ho]; rewrite Ho; reflexivity. }
  assert (Ec : step (mkScanner (S n) Outside true) cl = (Close, mkScanner n Outside true)).
  { unfold step. cbn [md nest]. destruct Hc as [Hc|Hc]; rewrite Hc; reflexivity. }
  cbn [indent_run]. unfold indent_byte at 1. cbn [sc needIndent depth]. rewrite Eo. cbn [andb negb].
  replace ((byte_of o =? 123) || (byte_of o =? 91)) with true by (destruct Ho as [->| ->]; reflexivity).
  cbv beta iota. rewrite indent_run_app.
  destruct us as [|u us']; [congruence|].
  destruct (Hfirst u (or_introl eq_refl)) as (c & t & -> & Hsp & Hcl).
  destruct (join_comma_head (String c t) us') as [rest Erest]. rewrite Erest.
  change ((String c t ++ rest)%string) with (String c (t ++ rest)).
  rewrite indent_pending by (reflexivity || assumption).
  change (String c (t ++ rest)) with ((String c t ++ rest)%string). rewrite <- Erest.
  rewrite (indent_join p i _ (S d) _ ws) by (reflexivity || exact Hall). cbn [indent_run].
  unfold indent_byte. cbn [sc needIndent depth]. rewrite Ec. cbn [andb negb].
  replace ((byte_of cl =? 123) || (byte_of cl =? 91)) with false by (destruct Hc as [->| ->]; reflexivity).
  replace (byte_of cl =? 44) with false by (destruct Hc as [->| ->]; reflexivity).
  replace (byte_of cl =? 58) with false by (destruct Hc as [->| ->]; reflexivity).
  replace ((byte_of cl =? 125) || (byte_of cl =? 93)) with true by (destruct Hc as [->| ->]; reflexivity).
  cbn -[newline join_sep]. rewrite str_byte, chr_byte, !string_app_assoc, string_app_nil_r. reflexivity.
Qed.

Lemma step_colon s c : md s = Outside -> byte_of c = 58 -> step s c = (Punct, s).
Proof. intros Hs Hc. unfold step. rewrite Hs, Hc. reflexivity. Qed.

(** The encoding of every value, indented at depth [d], is its
    [MarshalIndent] layout; the brackets balance and nothing is pending
    after it. *)
Lemma indent_encode p i j : forall n b d,
  indent_run p i (mkInd (mkScanner n Outside b) false d) (encode j) =
    (pretty p i d j, mkInd (mkScanner n Outside true) false d).
Proof.
  induction j as [| bl | z | str | l IH | kvs IH] using json_ind'; intros n b d;
    try (apply indent_plain; apply plain_scalar; exact I).
  - apply indent_encode_string.
  - destruct l as [|x l']; [reflexivity|]. cbn [encode pretty].
    apply indent_brackets; [right; reflexivity | right; reflexivity | discriminate | |].
    + intros u Hu. apply in_map_iff in Hu as (y & <- & _). apply encode_first.
    + apply Forall2_map_map. eapply Forall_impl; [|exact IH]. intros y Hy. apply Hy.
  - destruct kvs as [|kv kvs']; [reflexivity|]. cbn [encode pretty].
    apply indent_brackets; [left; reflexivity | left; reflexivity | discriminate | |].
    + intros u Hu. apply in_map_iff in Hu as (y & <- & _).
      eexists _, _. split; [reflexivity | split; reflexivity].
    + apply Forall2_map_map. eapply Forall_impl; [|exact IH]. intros [k v] Hv. cbn [fst snd] in *.
      rewrite indent_run_app, indent_encode_string. cbn [indent_run]. unfold indent_byte at 1.
      cbn [sc needIndent depth]. rewrite step_colon by reflexivity. cbn -[encode pretty indent_run].
      rewrite Hv. reflexivity.
Qed.

(** [Encoder.Encode] with [SetIndent(prefix, indent)]: the indented
    layout of the value and the newline. *)
Lemma appendIndent_Encode p i j : appendIndent (Encode j) p i = append (pretty p i 0 j) (str1 10).
Proof.
  unfold appendIndent, Encode, scan0. rewrite indent_run_app, indent_encode. reflexivity.
Qed.

(** ** Theorems *)

(** [json.Compact] removes exactly the white space [appendIndent]
    adds: for every input and every white-space prefix and indent, the
    compacted indented text is the compacted input. *)
Lemma Compact_appendIndent src p i : all_space p = true -> all_space i = true ->
  Compact (appendIndent src p i) = Compact src.
Proof.
  intros Hp Hi. unfold Compact, appendIndent.
  pose proof (compact_indent_run p i src Hp Hi (mkInd scan0 false 0) (fun _ => eq_refl)) as E.
  cbn [sc] in E. rewrite E. reflexivity.
Qed.


Lemma Compact_c_JSON r v : Compact (c_JSON r v) = encode v.
Proof.
  unfold c_JSON, Serialize. destruct (has_key (QueryParams r) "pretty"); cbn -[Encode appendIndent Compact];
    [rewrite Compact_appendIndent by reflexivity|]; apply Compact_Encode.
Qed.

(** C6: whatever the query string, every body the server sends is the
    compact encoding of the response's value up to the white space
    [?pretty] adds, and reads back, compacted, as that value with only
    its invalid UTF-8 replaced; the only other body is the empty one of
    an error answered to [HEAD]. *)
Theorem response_body_reads_back r resp :
  ((exists m, Body resp = ErrorPayload m) /\ Method r = "HEAD"%string /\ response_body r resp = ""%string) \/
  (Compact (response_body r resp) = encode (Payload_json (Body resp)) /\
   Decode (append (Compact (response_body r resp)) (str1 10)) =
     Some (repair_json (Payload_json (Body resp)), str1 10)).
Proof.
  assert (Hc : Compact (c_JSON r (Payload_json (Body resp))) = encode (Payload_json (Body resp)) /\
               Decode (append (Compact (c_JSON r (Payload_json (Body resp)))) (str1 10)) =
                 Some (repair_json (Payload_json (Body resp)), str1 10))
    by (rewrite Compact_c_JSON; split; [reflexivity | apply Decode_Encode]).
  unfold response_body. destruct (Body resp) as [info | h | m] eqn:E; try (right; exact Hc).
  destruct (String.eqb_spec (Method r) "HEAD") as [Hh|_]; [left; eauto | right; exact Hc].
Qed.

Section Pretty.
Context {W : Type} `{Clock W} `{Host W}.

(** C5: with [?pretty], [GET /health] answers the object indented by
    two spaces, one member per line in the order of the struct, a space
    after each colon, and the newline of [Encode]. *)
Theorem healthHandler_pretty_body startTime r w :
  has_key (QueryParams r) "pretty" = true ->
  let w1 := snd (now w) in
  response_body r (fst (healthHandler startTime w)) =
    String "{" (newline "" "  " 1 ++ encode_string "status" ++ ": " ++ encode_string "healthy" ++ "," ++
      newline "" "  " 1 ++ encode_string "timestamp" ++ ": " ++ encode_string (FormatRFC3339 (fst (now w1))) ++
      "," ++ newline "" "  " 1 ++ encode_string "uptime_seconds" ++ ": " ++
      formatInt (whole_seconds (Sub (fst (now w)) startTime)) ++ newline "" "  " 0 ++ "}" ++ str1 10)%string.
Proof.
  intros Hq. cbv zeta. rewrite healthHandler_eval. unfold response_body, c_JSON, Serialize.
  cbn [fst Body]. rewrite Hq. cbn [String.eqb defaultIndent]. rewrite appendIndent_Encode.
  set (T := FormatRFC3339 _). clearbody T. set (S := whole_seconds _). clearbody S.
  unfold Payload_json, HealthResponse_json. cbn [pretty map join_sep fst snd encode
    HealthResponse.Status HealthResponse.Timestamp HealthResponse.UptimeSeconds].
  repeat (rewrite string_app_assoc || (progress cbn [append])). unfold defaultIndent.
  lazymatch goal with |- ?a = ?b => constr_eq a b end. reflexivity.
Qed.

End Pretty.



Import World.
Local Open Scope string_scope.



Example healthHandler_pretty_body_witness :
  let r := mkRequest "GET" "/health" "pretty" [] "localhost:8080" "10.0.0.7:5000" "/health?pretty" in
  let w := World.mkWorld 1000 1762650000000000000 [(5000000000, 5000000000%N)]
             (mkHostFacts (Some "web-1") None "linux" "amd64" 4 "go1.22.0") in
  let w1 := snd (now w) in
  has_key (QueryParams r) "pretty" = true /\
  response_body r (fst (healthHandler (mkTime 0 (Some 0)) w)) =
    String "{" (newline "" "  " 1 ++ encode_string "status" ++ ": " ++ encode_string "healthy" ++ "," ++
      newline "" "  " 1 ++ encode_string "timestamp" ++ ": " ++ encode_string (FormatRFC3339 (fst (now w1))) ++
      "," ++ newline "" "  " 1 ++ encode_string "uptime_seconds" ++ ": " ++
      formatInt (whole_seconds (Sub (fst (now w)) (mkTime 0 (Some 0)))) ++ newline "" "  " 0 ++ "}" ++ str1 10)%string.
Proof.
  cbv zeta. split; [vm_compute; reflexivity|].
  apply healthHandler_pretty_body. vm_compute. reflexivity.
Defined.

End Indent.
