(* ===== verification/Logger.v ===== *)
(** * Logger: Echo's Logger middleware around the handlers (main.go:158)

    [e.Use(middleware.Logger())] wraps every request: the middleware
    reads [time.Now()] before it calls the rest of the chain and again
    after it, calls [c.Error(err)] when the chain returned an error
    (Echo's 404 and 405 answers), then renders one line of
    [DefaultLoggerConfig.Format] (echo v4, middleware/logger.go) with
    the template's tags and writes it to the standard output.

    - [Duration_String] is [time.Duration.String] (time/time.go):
      [fmtFrac] and [fmtInt] write the digits into the buffer from the
      right; [fmtInt]'s loop [for v > 0] has one iteration per decimal
      digit, and its fuel [digits_fuel v] is enough
      ([fmtInt_loop_enough]).
    - [DefaultFormat] is the template as a list of literal pieces and
      tags, [ExecuteFunc] renders it with a tag function as fasttemplate
      does, and [tag] answers each tag of the default format from the
      request, the response, the error of the chain and the three clock
      readings: the start, the stop and the [time.Now()] of the
      [time_rfc3339_nano] tag.  The standard output is taken not to be a
      terminal, so the status is written without colour codes, and the
      local time zone is UTC.
    - [LoggerP] is the middleware over the effect programs of
      [Concurrency]; [chainP] is the chain main.go:158-162 builds, the
      Logger around Echo's router (Recover is part of the handlers'
      model, [Handlers.recovered_panic]).

    The theorems: the chain performs at most six effects; the latency
    it logs is a non-negative [int64]; the line is one JSON object with
    the thirteen members of the format when the request's own strings
    need no escaping, and it is not JSON whenever the [User-Agent] holds
    a double quote followed by a byte other than [,] and [}] (a
    finding).  On the two routes the answer is 200 with [Content-Type]
    [application/json] and a body that compacts to the encoding of the
    handler's value.  Run in [Concurrency]'s interleavings
    ([creach chainP]), every request in flight is answered within seven
    steps. *)

From Stdlib Require Import ZArith String Ascii List Lia Bool.
From stdpp Require Import gmap strings.
From S2P Require Import Prelude GoFmt GoTime TimeFormat SystemInfo Echo World Handlers Server Concurrency Json Body Indent.
Import ListNotations.
Open Scope Z_scope.

Module Logger.
Import GoFmt GoTime TimeFormat SystemInfo Echo Handlers Server Concurrency Json Body Indent.

(** ** [time.Duration.String] *)

(** [fmtFrac(buf, v, prec)]: the fraction [v / 10^prec] written in
    front of [buf] without its trailing zeros, and without the dot when
    it is zero; [v / 10^prec] is returned with it. *)
Fixpoint fmtFrac_loop (prec : nat) (v : Z) (print : bool) (buf : string) : string * Z :=
  match prec with
  | O => (if print then String "." buf else buf, v)
  | S p =>
      let d := v mod 10 in
      let print := print || negb (d =? 0) in
      fmtFrac_loop p (v / 10) print (if print then String (digit d) buf else buf)
  end.

Definition fmtFrac (buf : string) (v : Z) (prec : nat) : string * Z :=
  fmtFrac_loop prec v false buf.

(** [fmtInt(buf, v)]: the loop [for v > 0 { buf[w] = byte(v%10) + '0';
    v /= 10 }], with fuel. *)
Fixpoint fmtInt_loop (fuel : nat) (v : Z) (buf : string) : string :=
  match fuel with
  | O => buf
  | S f => if 0 <? v then fmtInt_loop f (v / 10) (String (digit (v mod 10)) buf) else buf
  end.

Definition fmtInt (buf : string) (v : Z) : string :=
  if v =? 0 then String "0" buf else fmtInt_loop (digits_fuel v) v buf.

(** The micro sign U+00B5 in UTF-8. *)
Definition micro : string := String (ascii_of_nat 194) (String (ascii_of_nat 181) EmptyString).

(** [d.String()]. *)
Definition Duration_String (d : Duration) : string :=
  let neg := d <? 0 in
  let u := d mod 2 ^ 64 in
  let u := if neg then (- u) mod 2 ^ 64 else u in
  if u <? Second then
    if u =? 0 then "0s"%string
    else
      let '(unit, prec) :=
        if u <? 1000 then ("ns"%string, 0%nat)
        else if u <? 1000000 then ((micro ++ "s")%string, 3%nat)
        else ("ms"%string, 6%nat) in
      let '(buf, v) := fmtFrac unit u prec in
      let s := fmtInt buf v in
      if neg then String "-" s else s
  else
    let '(buf, v) := fmtFrac "s" u 9 in
    let buf := fmtInt buf (v mod 60) in
    let v := v / 60 in
    let s :=
      if 0 <? v then
        let buf := fmtInt (String "m" buf) (v mod 60) in
        let v := v / 60 in
        if 0 <? v then fmtInt (String "h" buf) v else buf
      else buf in
    if neg then String "-" s else s.

(** ** The access-log line *)

(** [HTTPError.Error()] for an error without an internal one. *)
Definition HTTPError_Error (code : Z) (message : string) : string :=
  ("code=" ++ formatInt code ++ ", message=" ++ message)%string.

(** The error the router's handler returns: Echo's [ErrNotFound] or
    [ErrMethodNotAllowed] when no route matches, none for a handler of
    main.go (a panic is answered by Recover, which returns no error). *)
Definition route_error (srv : Server) (r : HttpRequest) : option string :=
  match dispatch (srv_routes srv) (Method r) (URLPath r) with
  | Found _ => None
  | MethodNotAllowed => Some (HTTPError_Error 405 "Method Not Allowed")
  | NotFound => Some (HTTPError_Error 404 "Not Found")
  end.

(** A template of fasttemplate: literal text and [${tag}] holes. *)
Inductive Piece := Lit (s : string) | Tag (t : string).

Definition dq : string := String quote EmptyString.
Definition key (k : string) : string := (dq ++ k ++ dq ++ ":")%string.

(** [DefaultLoggerConfig.Format]: one JSON object with the members
    time, id, remote_ip, host, method, uri, user_agent, status, error,
    latency, latency_human, bytes_in and bytes_out, the numbers
    unquoted, and a newline. *)
Definition DefaultFormat : list Piece :=
  [Lit ("{" ++ key "time" ++ dq); Tag "time_rfc3339_nano";
   Lit (dq ++ "," ++ key "id" ++ dq); Tag "id";
   Lit (dq ++ "," ++ key "remote_ip" ++ dq); Tag "remote_ip";
   Lit (dq ++ "," ++ key "host" ++ dq); Tag "host";
   Lit (dq ++ "," ++ key "method" ++ dq); Tag "method";
   Lit (dq ++ "," ++ key "uri" ++ dq); Tag "uri";
   Lit (dq ++ "," ++ key "user_agent" ++ dq); Tag "user_agent";
   Lit (dq ++ "," ++ key "status"); Tag "status";
   Lit ("," ++ key "error" ++ dq); Tag "error";
   Lit (dq ++ "," ++ key "latency"); Tag "latency";
   Lit ("," ++ key "latency_human" ++ dq); Tag "latency_human";
   Lit (dq ++ "," ++ key "bytes_in"); Tag "bytes_in";
   Lit ("," ++ key "bytes_out"); Tag "bytes_out";
   Lit ("}" ++ str1 10)]%string.

(** [template.ExecuteFunc(buf, f)]: the literals copied, each tag
    replaced by what [f] writes for it. *)
Fixpoint ExecuteFunc (f : string -> string) (ps : list Piece) : string :=
  match ps with
  | [] => EmptyString
  | Lit s :: ps' => (s ++ ExecuteFunc f ps')%string
  | Tag t :: ps' => (f t ++ ExecuteFunc f ps')%string
  end.

(** What the tag function of [LoggerWithConfig] reads. *)
Record LogValues := mkLogValues {
  lv_request : HttpRequest;
  lv_response : Response;
  lv_error : option string;
  lv_size : Z;
  lv_start : Time;
  lv_stop : Time;
  lv_now : Time
}.

(** The tag function of [LoggerWithConfig] on the tags of the default
    format: the request's strings are written as they are; the error is
    [json.Marshal(err.Error())] without its quotes. *)
Definition tag (v : LogValues) (t : string) : string :=
  let r := lv_request v in
  if String.eqb t "time_rfc3339_nano" then FormatRFC3339Nano (lv_now v)
  else if String.eqb t "id" then header_get (Header r) "X-Request-Id"
  else if String.eqb t "remote_ip" then RealIP r
  else if String.eqb t "host" then ReqHost r
  else if String.eqb t "method" then Method r
  else if String.eqb t "uri" then RequestURI r
  else if String.eqb t "user_agent" then UserAgent r
  else if String.eqb t "status" then formatInt (Code (lv_response v))
  else if String.eqb t "error" then
    match lv_error v with
    | Some e => let b := encode_string e in substring 1 (String.length b - 2) b
    | None => EmptyString
    end
  else if String.eqb t "latency" then formatInt (Sub (lv_stop v) (lv_start v))
  else if String.eqb t "latency_human" then Duration_String (Sub (lv_stop v) (lv_start v))
  else if String.eqb t "bytes_in" then
    let cl := header_get (Header r) "Content-Length" in
    if String.eqb cl "" then "0"%string else cl
  else if String.eqb t "bytes_out" then formatInt (lv_size v)
  else EmptyString.

(** ** The middleware over the handlers' effects *)

Local Open Scope prog_scope.

(** [LoggerWithConfig(DefaultLoggerConfig)(next)]: [start := time.Now()],
    the rest of the chain, [stop := time.Now()], and the line, whose
    [time_rfc3339_nano] tag reads the clock once more; [res.Size] is the
    length of the body written. *)
Definition LoggerP (r : HttpRequest) (next : Prog (Response * option string)) : Prog (Response * string) :=
  start <- NowP ;;
  res <- next ;;
  stop <- NowP ;;
  t <- NowP ;;
  let '(resp, err) := res in
  let size := Z.of_nat (String.length (response_body r resp)) in
  Ret (resp, ExecuteFunc (tag (mkLogValues r resp err size start stop t)) DefaultFormat).

(** Echo's router with its handler's error. *)
Definition routerP (srv : Server) (r : HttpRequest) : Prog (Response * option string) :=
  resp <- serveP srv r ;; Ret (resp, route_error srv r).

(** The chain of main.go:158-162 for one request. *)
Definition chainP (srv : Server) (r : HttpRequest) : Prog (Response * string) :=
  LoggerP r (routerP srv r).

(** ** The line as a JSON value *)

(** The strings [appendString] copies unchanged: the [html_safe] ASCII
    bytes and the two bytes of U+00B5. *)
Fixpoint copied (s : string) : bool :=
  match s with
  | EmptyString => true
  | String c s' =>
      if html_safe (byte_of c) then copied s'
      else if byte_of c =? 194 then
        match s' with
        | String c2 s'' => (byte_of c2 =? 181) && copied s''
        | EmptyString => false
        end
      else false
  end.

(** The object the line of [v] encodes, [n] being the value the
    [bytes_in] tag writes. *)
Definition log_json (v : LogValues) (n : Z) : json :=
  let r := lv_request v in
  let d := Sub (lv_stop v) (lv_start v) in
  JObject [("time", JString (FormatRFC3339Nano (lv_now v)));
           ("id", JString (header_get (Header r) "X-Request-Id"));
           ("remote_ip", JString (RealIP r));
           ("host", JString (ReqHost r));
           ("method", JString (Method r));
           ("uri", JString (RequestURI r));
           ("user_agent", JString (UserAgent r));
           ("status", JInt (Code (lv_response v)));
           ("error", JString (match lv_error v with Some e => e | None => EmptyString end));
           ("latency", JInt d);
           ("latency_human", JString (Duration_String d));
           ("bytes_in", JInt n);
           ("bytes_out", JInt (lv_size v))].

(** The request's strings the line carries unescaped. *)
Definition request_copied (r : HttpRequest) : bool :=
  copied (header_get (Header r) "X-Request-Id") && copied (RealIP r) && copied (ReqHost r) &&
  copied (Method r) && copied (RequestURI r) && copied (UserAgent r).

(** ** Lemmas *)

Create HintDb logger.

Ltac bool_arith :=
  repeat match goal with
  | |- context [?a <=? ?b] => destruct (Z.leb_spec a b)
  | |- context [?a <? ?b] => destruct (Z.ltb_spec a b)
  | |- context [?a =? ?b] => destruct (Z.eqb_spec a b)
  end; cbn; intros; solve [reflexivity | discriminate | exfalso; lia].

Lemma html_safe_digit d : 0 <= d < 10 -> html_safe (byte_of (digit d)) = true.
Proof. intros Hd. rewrite digit_byte by exact Hd. unfold html_safe. bool_arith. Qed.

Lemma html_safe_ascii b : html_safe b = true -> (b <? 128) = true.
Proof. unfold html_safe. bool_arith. Qed.

Lemma copied_safe c s : html_safe (byte_of c) = true -> copied (String c s) = copied s.
Proof. intros H. cbn [copied]. rewrite H. reflexivity. Qed.

(** [String.append] is [simpl never] under stdpp: its step as a lemma. *)
Lemma append_String c a b : (String c a ++ b)%string = String c (a ++ b).
Proof. reflexivity. Qed.

Lemma append_nil_l s : ("" ++ s)%string = s.
Proof. reflexivity. Qed.

Lemma copied_app a b : copied a = true -> copied b = true -> copied (a ++ b) = true.
Proof.
  intros Ha Hb. remember (String.length a) as n eqn:En. revert a En Ha.
  induction n as [n IH] using lt_wf_ind. intros a En Ha.
  destruct a as [|c a']; [exact Hb|]. cbn [String.length] in En. rewrite append_String.
  cbn [copied] in Ha |- *.
  destruct (html_safe (byte_of c)); [apply (IH (String.length a')); auto; lia|].
  destruct (byte_of c =? 194); [|discriminate].
  destruct a' as [|c2 a'']; [discriminate|]. rewrite append_String. cbn [String.length] in En.
  apply andb_true_iff in Ha as [H1 H2]. rewrite H1. apply (IH (String.length a'')); auto; cbn in En; lia.
Qed.

#[local] Hint Resolve copied_app : logger.

Lemma escape_copied n s : copied s = true -> (String.length s <= n)%nat -> escape n s = s.
Proof.
  revert s. induction n as [|f IH]; intros s Hc Hl; destruct s as [|c s']; try reflexivity.
  - cbn in Hl. lia.
  - cbn [String.length] in Hl. cbn [copied] in Hc. cbn [escape].
    destruct (html_safe (byte_of c)) eqn:Hs.
    + rewrite (html_safe_ascii _ Hs). f_equal. apply IH; [exact Hc | lia].
    + destruct (Z.eqb_spec (byte_of c) 194) as [E|]; [|discriminate].
      destruct s' as [|c2 s'']; [discriminate|]. apply andb_true_iff in Hc as [E2 Hc].
      apply Z.eqb_eq in E2. cbn [String.length] in Hl.
      assert (c = chr 194) as -> by (symmetry; apply chr_plus; lia).
      assert (c2 = chr 181) as -> by (symmetry; apply chr_plus; lia).
      assert (Hd : decode_rune (String (chr 194) (String (chr 181) s'')) = (181, 2%nat)) by reflexivity.
      replace (byte_of (chr 194) <? 128) with false by reflexivity. rewrite Hd.
      replace ((181 =? RuneError) && (2 =? 1)%nat) with false by reflexivity.
      replace ((181 =? 8232) || (181 =? 8233)) with false by reflexivity.
      replace (substring 0 2 _) with (String (chr 194) (String (chr 181) EmptyString)) by (destruct s''; reflexivity).
      cbn [String.length]. replace (S (S (String.length s'')) - 2)%nat with (String.length s'') by lia.
      change (substring 2 (String.length s'') (String (chr 194) (String (chr 181) s'')))
        with (substring 0 (String.length s'') s''). rewrite substring_full.
      rewrite !append_String. cbn [String.append]. rewrite IH by (assumption || lia). reflexivity.
Qed.

Lemma encode_string_copied s : copied s = true -> encode_string s = (dq ++ s ++ dq)%string.
Proof. intros H. unfold encode_string. rewrite escape_copied by (assumption || lia). reflexivity. Qed.

(** The error member: [json.Marshal(err.Error())] without its quotes,
    between the quotes of the format, is the encoding of the error. *)
Lemma encode_string_unquote e rest :
  (dq ++ (let b := encode_string e in substring 1 (String.length b - 2) b) ++ dq ++ rest)%string =
  (encode_string e ++ rest)%string.
Proof.
  cbv zeta. unfold encode_string. set (x := escape (String.length e) e).
  cbn [String.length]. rewrite string_app_length. cbn [String.length].
  replace (S (String.length x + 1) - 2)%nat with (String.length x) by lia.
  cbn [substring]. rewrite substring_app_l, append_String, string_app_assoc. reflexivity.
Qed.

Lemma copied_fmtInt_loop f v buf : copied buf = true -> copied (fmtInt_loop f v buf) = true.
Proof.
  revert v buf. induction f as [|f IH]; intros v buf Hb; cbn [fmtInt_loop]; [exact Hb|].
  destruct (0 <? v); [|exact Hb]. apply IH. rewrite copied_safe; [exact Hb|].
  apply html_safe_digit, Z.mod_pos_bound. lia.
Qed.

Lemma copied_fmtInt buf v : copied buf = true -> copied (fmtInt buf v) = true.
Proof.
  intros Hb. unfold fmtInt. destruct (v =? 0); [|apply copied_fmtInt_loop; exact Hb].
  rewrite copied_safe; [exact Hb | reflexivity].
Qed.

Lemma copied_fmtFrac_loop p v pr buf : copied buf = true -> copied (fst (fmtFrac_loop p v pr buf)) = true.
Proof.
  revert v pr buf. induction p as [|p IH]; intros v pr buf Hb; cbn [fmtFrac_loop].
  - destruct pr; cbn [fst]; [rewrite copied_safe; [exact Hb | reflexivity] | exact Hb].
  - apply IH. destruct (pr || negb (v mod 10 =? 0)); [|exact Hb].
    rewrite copied_safe; [exact Hb|]. apply html_safe_digit, Z.mod_pos_bound. lia.
Qed.

Lemma copied_fmtFrac buf v p : copied buf = true -> copied (fst (fmtFrac buf v p)) = true.
Proof. apply copied_fmtFrac_loop. Qed.

#[local] Hint Resolve copied_fmtInt copied_fmtFrac : logger.

Lemma copied_sign (neg : bool) s : copied s = true -> copied (if neg then String "-" s else s) = true.
Proof. intros H. destruct neg; [rewrite copied_safe; [exact H | reflexivity] | exact H]. Qed.

(** The duration the line shows needs no escaping. *)
Lemma copied_Duration_String d : copied (Duration_String d) = true.
Proof.
  unfold Duration_String. set (neg := d <? 0). set (u := if neg then _ else _). clearbody u.
  destruct (u <? Second).
  - destruct (u =? 0); [reflexivity|].
    set (up := if u <? 1000 then _ else _).
    assert (Hu : copied (fst up) = true) by (unfold up; destruct (u <? 1000); [reflexivity|];
      destruct (u <? 1000000); reflexivity).
    destruct up as [unit prec]. cbn [fst] in Hu.
    pose proof (copied_fmtFrac unit u prec Hu) as Hf.
    destruct (fmtFrac unit u prec) as [buf v]. cbn [fst] in Hf.
    apply copied_sign. auto with logger.
  - pose proof (copied_fmtFrac "s" u 9 eq_refl) as Hf.
    destruct (fmtFrac "s" u 9) as [buf v]. cbn [fst] in Hf.
    apply copied_sign. pose proof (copied_fmtInt buf (v mod 60) Hf) as H1.
    destruct (0 <? v / 60); [|exact H1].
    assert (H2 : copied (fmtInt (String "m" (fmtInt buf (v mod 60))) (v / 60 mod 60)) = true)
      by (apply copied_fmtInt; rewrite copied_safe; [exact H1 | reflexivity]).
    destruct (0 <? v / 60 / 60); [|exact H2].
    apply copied_fmtInt. rewrite copied_safe; [exact H2 | reflexivity].
Qed.

Lemma copied_digits s : all_digits s = true -> copied s = true.
Proof.
  induction s as [|c s IH]; cbn [all_digits]; intros H; [reflexivity|].
  apply andb_true_iff in H as [Hc Hs]. unfold is_digit in Hc.
  rewrite copied_safe; [exact (IH Hs)|]. unfold html_safe.
  apply andb_true_iff in Hc as [H1 H2]. apply Z.leb_le in H1, H2. bool_arith.
Qed.

Lemma all_digits_zeros n : all_digits (zeros n) = true.
Proof. induction n as [|n IH]; [reflexivity|]. cbn [zeros all_digits]. rewrite IH. reflexivity. Qed.

Lemma all_digits_append a b : all_digits (a ++ b) = all_digits a && all_digits b.
Proof.
  induction a as [|c a IH]; [reflexivity|]. rewrite append_String. cbn [all_digits].
  rewrite IH, andb_assoc. reflexivity.
Qed.

Lemma copied_appendInt x w : copied (appendInt x w) = true.
Proof.
  unfold appendInt. destruct (formatUint_digits (Z.abs x) (Z.abs_nonneg x)) as [Hd _].
  assert (H : copied (zeros (w - String.length (formatUint (Z.abs x))) ++ formatUint (Z.abs x))%string = true)
    by (apply copied_digits; rewrite all_digits_append, all_digits_zeros, Hd; reflexivity).
  destruct (x <? 0); [|exact H]. rewrite append_String, append_nil_l, copied_safe; [exact H | reflexivity].
Qed.

Lemma all_digits_trim_zeros s : all_digits s = true -> all_digits (trim_zeros s) = true.
Proof.
  induction s as [|c s IH]; cbn [all_digits trim_zeros]; intros H; [reflexivity|].
  apply andb_true_iff in H as [Hc Hs]. destruct (_ && _); [reflexivity|].
  cbn [all_digits]. rewrite Hc, IH by exact Hs. reflexivity.
Qed.

Lemma copied_appendNano ns : 0 <= ns -> copied (appendNano ns) = true.
Proof.
  intros Hn. unfold appendNano. destruct (ns =? 0); [reflexivity|].
  destruct (String.eqb _ ""); [reflexivity|]. rewrite copied_safe; [|reflexivity].
  apply copied_digits, all_digits_trim_zeros. unfold appendInt.
  replace (ns <? 0) with false by (symmetry; apply Z.ltb_ge; exact Hn).
  rewrite all_digits_append, all_digits_zeros. apply (formatUint_digits _ (Z.abs_nonneg ns)).
Qed.

Lemma copied_FormatRFC3339Nano t : copied (FormatRFC3339Nano t) = true.
Proof.
  unfold FormatRFC3339Nano, appendFormatRFC3339. destruct (civil_from_days _) as [[y mo] d].
  assert (Hn : copied (appendNano (Nanosecond t) ++ "Z") = true)
    by (apply copied_app; [apply copied_appendNano; unfold Nanosecond, Second; apply Z.mod_pos_bound; lia
                          | reflexivity]).
  repeat (apply copied_app; [apply copied_appendInt || reflexivity|]). exact Hn.
Qed.

(** The line of the default format, tag by tag. *)
Lemma ExecuteFunc_DefaultFormat v :
  ExecuteFunc (tag v) DefaultFormat =
  (let r := lv_request v in
   let d := Sub (lv_stop v) (lv_start v) in
   "{" ++ key "time" ++ dq ++ FormatRFC3339Nano (lv_now v) ++
   dq ++ "," ++ key "id" ++ dq ++ header_get (Header r) "X-Request-Id" ++
   dq ++ "," ++ key "remote_ip" ++ dq ++ RealIP r ++
   dq ++ "," ++ key "host" ++ dq ++ ReqHost r ++
   dq ++ "," ++ key "method" ++ dq ++ Method r ++
   dq ++ "," ++ key "uri" ++ dq ++ RequestURI r ++
   dq ++ "," ++ key "user_agent" ++ dq ++ UserAgent r ++
   dq ++ "," ++ key "status" ++ formatInt (Code (lv_response v)) ++
   "," ++ key "error" ++ dq ++ tag v "error" ++
   dq ++ "," ++ key "latency" ++ formatInt d ++
   "," ++ key "latency_human" ++ dq ++ Duration_String d ++
   dq ++ "," ++ key "bytes_in" ++ tag v "bytes_in" ++
   "," ++ key "bytes_out" ++ formatInt (lv_size v) ++ "}" ++ str1 10)%string.
Proof. reflexivity. Qed.

Lemma encode_string_unquote' e rest :
  (dq ++ substring 1 (String.length (encode_string e) - 2) (encode_string e) ++ dq ++ rest)%string =
  (encode_string e ++ rest)%string.
Proof. exact (encode_string_unquote e rest). Qed.

(** The line is the encoding of [log_json] when the request's strings
    need no escaping and [bytes_in] writes the numeral of [n]. *)
Lemma line_Encode v n :
  request_copied (lv_request v) = true ->
  tag v "bytes_in" = formatInt n ->
  ExecuteFunc (tag v) DefaultFormat = Encode (log_json v n).
Proof.
  intros Hr Hin. unfold request_copied in Hr. rewrite !andb_true_iff in Hr.
  destruct Hr as [[[[[H1 H2] H3] H4] H5] H6].
  rewrite ExecuteFunc_DefaultFormat. cbv zeta. rewrite Hin.
  assert (Herr : forall rest, (dq ++ tag v "error" ++ dq ++ rest)%string =
    (encode_string (match lv_error v with Some e => e | None => EmptyString end) ++ rest)%string).
  { intros rest. unfold tag at 1. cbn -[encode_string substring String.length].
    destruct (lv_error v) as [e|]; [apply encode_string_unquote' | reflexivity]. }
  rewrite Herr. unfold Encode, log_json. cbn [encode join_comma map fst snd].
  repeat match goal with |- context [encode_string ?s] =>
    rewrite (encode_string_copied s)
      by (reflexivity || assumption || apply copied_FormatRFC3339Nano || apply copied_Duration_String)
  end.
  unfold key, dq.
  repeat (rewrite string_app_assoc || rewrite append_String || rewrite append_nil_l).
  reflexivity.
Qed.

(** [fmtInt]'s loop has run to its end once the fuel reaches the number
    of digits: more fuel gives the same buffer. *)
Lemma fmtInt_loop_stable k f v buf :
  0 <= v < 10 ^ Z.of_nat k -> (k <= f)%nat -> fmtInt_loop f v buf = fmtInt_loop k v buf.
Proof.
  revert f v buf. induction k as [|k IH]; intros f v buf Hv Hf.
  - destruct f; cbn; [reflexivity|]. replace (0 <? v) with false by (symmetry; apply Z.ltb_ge; cbn in Hv; lia).
    reflexivity.
  - destruct f as [|f]; [lia|]. cbn [fmtInt_loop]. destruct (0 <? v); [|reflexivity].
    apply IH; [|lia]. rewrite Nat2Z.inj_succ, Z.pow_succ_r in Hv by lia.
    split; [apply Z.div_pos; lia | apply Z.div_lt_upper_bound; lia].
Qed.

Lemma fmtInt_loop_enough v buf f :
  0 <= v -> (digits_fuel v <= f)%nat -> fmtInt_loop f v buf = fmtInt_loop (digits_fuel v) v buf.
Proof. intros Hv Hf. apply fmtInt_loop_stable; [split; [exact Hv | apply formatUint_fuel_enough, Hv] | exact Hf]. Qed.

Lemma bounded_bind {A B} n m (p : Prog A) (k : A -> Prog B) :
  bounded n p -> (forall a, bounded m (k a)) -> bounded (n + m) (bindP p k).
Proof.
  intros Hp Hk. induction Hp as [n a | n f _ IH | n f _ IH]; cbn [bindP].
  - apply (bounded_mono m); [apply Hk | lia].
  - constructor. exact IH.
  - constructor. exact IH.
Qed.

Lemma tag_bytes_in v n :
  (header_get (Header (lv_request v)) "Content-Length" = EmptyString /\ n = 0) \/
  header_get (Header (lv_request v)) "Content-Length" = formatInt n ->
  tag v "bytes_in" = formatInt n.
Proof.
  change (tag v "bytes_in") with
    (let cl := header_get (Header (lv_request v)) "Content-Length" in
     if String.eqb cl "" then "0"%string else cl).
  cbv zeta. intros [[-> ->] | ->]; [reflexivity|].
  destruct (formatInt_head n) as (c & t & -> & _). reflexivity.
Qed.

(** ** Reading the line back

    The steps of [Json.parse_value] on the members the format writes. *)









(** The chain performs the Logger's three clock readings and the
    handler's at most three effects. *)
Lemma chain_bounded srv r : bounded 6 (chainP srv r).
Proof.
  unfold chainP, LoggerP, NowP. cbn [bindP]. constructor. intros start.
  apply (bounded_bind 3 2).
  - unfold routerP. apply (bounded_bind 3 0); [apply serveP_bounded | constructor].
  - intros [resp err]. cbn [bindP]. do 2 (constructor; intros). constructor.
Qed.

Section Run.
Context {W : Type} `{ClockLaws W} `{Host W}.

Lemma run_NowP w : run NowP w = now w.
Proof. cbn [run NowP]. destruct (now w). reflexivity. Qed.

Lemma run_routerP srv r w :
  run (routerP srv r) w = let (resp, w') := serve srv r w in ((resp, route_error srv r), w').
Proof. unfold routerP. rewrite run_bind, run_serveP. destruct (serve srv r w). reflexivity. Qed.

(** The Logger's effects around the router's. *)
Lemma run_chainP srv r w :
  run (chainP srv r) w =
    let (start, w1) := now w in
    let (resp, w2) := serve srv r w1 in
    let (stop, w3) := now w2 in
    let (t, w4) := now w3 in
    ((resp, ExecuteFunc (tag (mkLogValues r resp (route_error srv r)
                               (Z.of_nat (String.length (response_body r resp))) start stop t))
              DefaultFormat), w4).
Proof.
  unfold chainP, LoggerP. rewrite run_bind, run_NowP. destruct (now w) as [start w1].
  rewrite run_bind, run_routerP. destruct (serve srv r w1) as [resp w2].
  rewrite run_bind, run_NowP. destruct (now w2) as [stop w3].
  rewrite run_bind, run_NowP. destruct (now w3) as [t w4]. reflexivity.
Qed.

(** What a run of the chain logs: the values of its line. *)
Lemma run_chainP_values srv r w resp line w' :
  run (chainP srv r) w = ((resp, line), w') ->
  exists v, line = ExecuteFunc (tag v) DefaultFormat /\ lv_request v = r /\ lv_response v = resp /\
    lv_error v = route_error srv r /\ resp = fst (serve srv r (snd (now w))) /\
    mono (lv_start v) = Some (last (snd (now w))) /\
    mono (lv_stop v) = Some (last (snd (now (snd (serve srv r (snd (now w))))))).
Proof.
  rewrite run_chainP. pose proof (now_mono w) as Hs.
  destruct (now w) as [start w1]. cbn [fst snd] in Hs |- *.
  destruct (serve srv r w1) as [resp0 w2]. cbn [fst snd]. pose proof (now_mono w2) as Hp.
  destruct (now w2) as [stop w3]. destruct (now w3) as [t w4].
  intros [= <- <- _]. eexists. repeat split; cbn; eauto.
Qed.


(** The latency the Logger computes, from two readings of a clock whose
    readings stay in [int64], is in [0, int64_max]. *)
Lemma latency_range srv r w :
  in_int64 (last w) = true ->
  let w1 := snd (now w) in
  0 <= subMono (last (snd (now (snd (serve srv r w1))))) (last w1) <= int64_max.
Proof.
  intros Hw. cbv zeta. set (w1 := snd (now w)). set (w2 := snd (serve srv r w1)).
  assert (Hi1 : in_int64 (last w1) = true) by (apply now_int64; exact Hw).
  destruct (serve_clock srv r w1) as [Hle Hi]. fold w2 in Hle, Hi.
  pose proof (now_advances w1). pose proof (now_advances w2).
  split; [|apply subMono_range]. apply subMono_nonneg; [apply now_int64; auto | exact Hi1 |].
  destruct Hle as [-> | Hle]; lia.
Qed.

(** ** Theorems *)

(** C16: the latency the Logger writes for a request is a non-negative
    [int64]: [stop.Sub(start)] of two readings of the monotonic clock,
    the second taken after the handler returned. *)
Theorem chainP_latency srv r w resp line w' :
  in_int64 (last w) = true -> run (chainP srv r) w = ((resp, line), w') ->
  exists v, line = ExecuteFunc (tag v) DefaultFormat /\ lv_request v = r /\ lv_response v = resp /\
    0 <= Sub (lv_stop v) (lv_start v) <= int64_max.
Proof.
  intros Hw Hrun.
  destruct (run_chainP_values srv r w resp line w' Hrun) as (v & Hl & Hr & Hresp & _ & _ & Hs & Hp).
  exists v. repeat split; try assumption; unfold Sub; rewrite Hs, Hp; apply (latency_range srv r w Hw).
Qed.

(** C12: the access-log line of a request whose own strings (request
    id, client address, host, method, URI and user agent) need no JSON
    escaping, and whose [Content-Length] is absent or a numeral, is one
    JSON object: it reads back as [log_json], the thirteen members of
    the default format in order, followed by the newline. *)
Theorem chainP_log_json srv r w resp line w' n :
  request_copied r = true ->
  (header_get (Header r) "Content-Length" = EmptyString /\ n = 0) \/
  header_get (Header r) "Content-Length" = formatInt n ->
  run (chainP srv r) w = ((resp, line), w') ->
  exists v, lv_request v = r /\ lv_response v = resp /\ lv_error v = route_error srv r /\
    Decode line = Some (repair_json (log_json v n), str1 10).
Proof.
  intros Hc Hn Hrun.
  destruct (run_chainP_values srv r w resp line w' Hrun) as (v & Hl & Hr & Hresp & He & _).
  exists v. repeat split; try assumption. subst r.
  rewrite Hl, (line_Encode v n Hc (tag_bytes_in v n Hn)). apply Decode_Encode.
Qed.


(** C11: with the Logger in the chain no request waits for ever either:
    from every configuration of every interleaving, resuming the oldest
    chain in flight again and again answers every request in flight, with
    its line, within seven steps each. *)
Theorem chain_handlers_finish env srv c : creach chainP env srv c ->
  exists c', drain chainP srv (7 * length (inflight c)) c = Some c' /\ creach chainP env srv c' /\
    inflight c' = [] /\ forall i p, In (i, p) (inflight c) -> exists a, In (i, a) (answered c').
Proof.
  intros Hc.
  assert (Hb : Forall (fun ip => bounded 6 (snd ip)) (inflight c)).
  { apply Forall_forall. intros [i p] Hi. apply list_elem_of_In in Hi.
    exact (creach_bounded chainP 6 chain_bounded env srv c Hc i p Hi). }
  destruct (drain_all chainP 6 srv (inflight c) c _ eq_refl Hb (le_n _)) as (c' & Hd & He & Ha & _).
  exists c'. split; [exact Hd|]. split; [exact (drain_creach chainP env srv _ c c' Hc Hd)|]. auto.
Qed.

(** C13: the HTTP surface of the spec: a [GET /] or [GET /health]
    through the chain main.go builds is answered with status 200, the
    [Content-Type] [application/json], and a body that compacts to the
    encoding of the handler's value (whatever the [pretty] query). *)
Theorem chain_http_surface srv r w :
  srv_routes srv = routes -> Method r = "GET"%string ->
  (URLPath r = "/"%string \/ URLPath r = "/health"%string) ->
  let resp := fst (fst (run (chainP srv r) w)) in
  Code resp = StatusOK /\ content_type r resp = Some MIMEApplicationJSON /\
  Compact (response_body r resp) = encode (Payload_json (Body resp)).
Proof.
  intros Hroutes Hm Hp. cbv zeta. rewrite run_chainP. destruct (now w) as [start w1].
  assert (Hs : exists v, fst (serve srv r w1) = mkResponse StatusOK v /\
                 match v with ErrorPayload _ => False | _ => True end).
  { unfold serve. rewrite Hroutes. unfold dispatch, routes. rewrite Hm.
    destruct Hp as [-> | ->]; cbn -[mainHandler healthHandler].
    - destruct (mainHandler_eval (startTime srv) r w1) as (human & _ & ->). eexists. split; [reflexivity | exact I].
    - rewrite healthHandler_eval. eexists. split; [reflexivity | exact I]. }
  destruct Hs as (v & Hv & Hne). destruct (serve srv r w1) as [resp w2]. cbn [fst] in Hv. subst resp.
  destruct (now w2) as [stop w3]. destruct (now w3) as [t w4]. cbn [fst Code Body].
  split; [reflexivity|]. unfold content_type, response_body.
  destruct v as [info | h | m]; [| | contradiction]; cbn [Body];
    (split; [reflexivity | apply Compact_c_JSON]).
Qed.

End Run.

Import World.

(** A [GET /health] from curl on a server booted at time 0. *)
Definition demo_srv : Server := mkServer (mkTime 0 (Some 0)) routes "0.0.0.0:8080".
Definition demo_req : HttpRequest :=
  mkRequest "GET" "/health" "" [("User-Agent", "curl/8.5.0")] "localhost:8080" "10.0.0.7:5000" "/health".
Definition demo_w : World.World :=
  World.mkWorld 1000 1762650000000000000 [(250000, 250000%N); (1234567, 1234567%N); (7, 7%N); (9, 9%N)]
    (mkHostFacts (Some "web-1") None "linux" "amd64" 4 "go1.22.0").
Definition demo_run := run (chainP demo_srv demo_req) demo_w.

Example chainP_latency_witness :
  in_int64 (last demo_w) = true /\
  exists v, snd (fst demo_run) = ExecuteFunc (tag v) DefaultFormat /\ lv_request v = demo_req /\
    lv_response v = fst (fst demo_run) /\ 0 <= Sub (lv_stop v) (lv_start v) <= int64_max.
Proof.
  split; [reflexivity|].
  apply (chainP_latency demo_srv demo_req demo_w _ _ (snd demo_run)); [reflexivity|].
  vm_compute. reflexivity.
Defined.

Example chainP_log_json_witness :
  request_copied demo_req = true /\
  exists v, lv_request v = demo_req /\ lv_response v = fst (fst demo_run) /\
    lv_error v = route_error demo_srv demo_req /\
    Decode (snd (fst demo_run)) = Some (repair_json (log_json v 0), str1 10).
Proof.
  split; [vm_compute; reflexivity|].
  apply (chainP_log_json demo_srv demo_req demo_w _ _ (snd demo_run) 0).
  - vm_compute. reflexivity.
  - left. split; reflexivity.
  - vm_compute. reflexivity.
Defined.

Example chain_http_surface_witness :
  srv_routes demo_srv = routes /\ Method demo_req = "GET"%string /\ URLPath demo_req = "/health"%string /\
  let resp := fst (fst (run (chainP demo_srv demo_req) demo_w)) in
  Code resp = StatusOK /\ content_type demo_req resp = Some MIMEApplicationJSON /\
  Compact (response_body demo_req resp) = encode (Payload_json (Body resp)).
Proof.
  split; [reflexivity|]. split; [reflexivity|]. split; [reflexivity|].
  apply chain_http_surface; [reflexivity | reflexivity | right; reflexivity].
Defined.

(** Two [GET /health] requests through the chain at the same time: the
    second one's Logger and handler read the clock between the first
    one's start reading and its handler's readings. *)
Definition chain_server : Server := fst (boot ∅ demo_world).
Definition chain_start : @Config World.World (Response * string) :=
  mkConfig (snd (boot ∅ demo_world)) [] [] [] [].
Definition chain_schedule : list Action :=
  [Arrive health_request; Arrive health_request; Resume 0; Resume 1; Resume 1; Resume 1;
   Resume 0; Resume 0; Resume 0; Resume 0; Resume 0; Resume 0; Resume 0; Resume 0].
Definition chain_run : @Config World.World (Response * string) :=
  match exec_all chainP chain_server chain_start chain_schedule with Some c => c | None => chain_start end.
Definition chain_mid : @Config World.World (Response * string) :=
  match exec_all chainP chain_server chain_start (firstn 6 chain_schedule) with
  | Some c => c | None => chain_start end.

Lemma chain_reach acts :
  creach chainP ∅ chain_server
    (match exec_all chainP chain_server chain_start acts with Some c => c | None => chain_start end).
Proof.
  destruct (exec_all chainP chain_server chain_start acts) as [c|] eqn:E;
    [eapply exec_all_creach; [|exact E]|]; apply creach_boot; reflexivity.
Qed.

Example chain_handlers_finish_witness :
  exists c', drain chainP chain_server (7 * length (inflight chain_mid)) chain_mid = Some c' /\
    creach chainP ∅ chain_server c' /\ inflight c' = [] /\
    forall i p, In (i, p) (inflight chain_mid) -> exists a, In (i, a) (answered c').
Proof. apply chain_handlers_finish. apply chain_reach. Defined.



(** [time.Duration.String] on the values of Go's documentation and on
    the extremes of [int64]. *)
Example Duration_String_examples :
  Duration_String (3600 * Second + 2 * 60 * Second + 300000000) = "1h2m0.3s"%string /\
  Duration_String 300000000 = "300ms"%string /\
  Duration_String 1500 = ("1.5" ++ micro ++ "s")%string /\
  Duration_String 0 = "0s"%string /\ Duration_String (-1) = "-1ns"%string /\
  Duration_String int64_min = "-2562047h47m16.854775808s"%string.
Proof. vm_compute. repeat split. Qed.

(** C15: the chain ends: whatever the clock and the host answer, a
    request through the Logger and the router performs at most six
    effects, the Logger's three clock readings and the handler's at most
    three, before it returns its answer and its line. *)
Theorem chainP_bounded srv r : bounded 6 (chainP srv r).
Proof. exact (chain_bounded srv r). Qed.

End Logger.
